(** * SecureExam: the exam-session security and lifecycle engine

    A shallow embedding of the parts of the repository that decide how an
    exam session is created, monitored, rate-limited and submitted:

    - [shared/schema.ts]: the rows of the tables and the insert schemas;
    - [server/storage.ts]: the class [DatabaseStorage] behind the [storage]
      object;
    - [server/auth.ts]: the [isAuthenticated] middleware;
    - [server/routes.ts]: the HTTP handlers for hall tickets, exam sessions,
      session questions, submission, questions and security incidents, and
      the WebSocket message handler;
    - the [ExamMode] component of the student pages: the violation policy,
      the countdown and the face monitoring effect, with the hooks
      [client/src/hooks/useWebcam.ts] and
      [client/src/hooks/useFaceDetection.ts] it reads;
    - [getIncidentStats] of the incident page of the admin.

    Time is a number of milliseconds ([Date.now()]); JavaScript numbers that
    hold counters are integers of [Z].  Request bodies are typed: each key
    holds a value of the type its column has, or is missing, or (where the
    column allows it) is [null]. *)

From stdpp Require Import gmap strings list fin_maps pretty sorting.
From Stdlib Require Import ZArith QArith Ascii.

#[local] Open Scope string_scope.
#[local] Open Scope Z_scope.

(** ** Values of JavaScript and of the database *)

(** A key of a JSON body: missing ([undefined]), [null], or a value. *)
Inductive Field (A : Type) : Type :=
| absent
| null
| value (a : A).
Arguments absent {A}.
Arguments null {A}.
Arguments value {A} a.

(** The column an insert writes for a key: the column default when the key
    is missing, [NULL] for [null]. *)
Definition inserted {A} (dflt : option A) (f : Field A) : option A :=
  match f with
  | absent => dflt
  | null => None
  | value a => Some a
  end.

(** The column an update leaves for a key: [.set()] skips a missing key. *)
Definition updated {A} (old : option A) (f : Field A) : option A :=
  match f with
  | absent => old
  | null => None
  | value a => Some a
  end.

(** A call that returns or throws: the promise is fulfilled or rejected. *)
Inductive Promise (A : Type) : Type :=
| fulfilled (a : A)
| rejected.
Arguments fulfilled {A} a.
Arguments rejected {A}.

#[global] Instance Promise_ret : MRet Promise := λ A, @fulfilled A.
#[global] Instance Promise_bind : MBind Promise := λ A B f m,
  match m with
  | fulfilled a => f a
  | rejected => rejected
  end.

(** What the database makes of a text bound to a [uuid] column or compared
    with one: the uuid it denotes, in the form the database prints, or
    nothing when the text has not the syntax of a uuid (the statement then
    fails).  The syntax is the database's own and is not fixed here. *)
Class Postgres := { uuid_in : string → option string }.

Definition asUuid `{pg : !Postgres} (text : string) : Promise string :=
  match uuid_in text with
  | Some id => fulfilled id
  | None => rejected
  end.

(** What the schemas that [createInsertSchema] derives from the tables
    accept for a [uuid] column and for an [integer] column.  The checks are
    those of the schema library and are not fixed here. *)
Class Zod := { zodUuid : string → bool; zodInteger : Z → bool }.

(** The range of an [integer] column. *)
Definition int4 (n : Z) : bool := (-2147483648 <=? n) && (n <=? 2147483647).

Definition int4Column (n : option Z) : bool :=
  match n with
  | Some n => int4 n
  | None => true
  end.

(** ** Rows of [shared/schema.ts] *)

Module User.
Record t := mk {
  id : string;
  email : option string;
  firstName : option string;
  lastName : option string;
  profileImageUrl : option string;
  role : string;
  createdAt : option Z;
  updatedAt : option Z
}.
End User.

(** A hall ticket, without [examDate], [createdBy], [createdAt] and
    [updatedAt], which nothing below reads; [qrCodeData] is kept beside the
    table (see [Database]). *)
Module HallTicket.
Record t := mk {
  id : string;
  hallTicketId : string;
  examName : string;
  duration : Z;
  totalQuestions : Z;
  rollNumber : string;
  studentName : string;
  studentEmail : string;
  isActive : bool
}.
End HallTicket.

(** [answers] is the JSON object the client keeps as
    [Record<number, string>]: question number to option letter. *)
Abbreviation Answers := (gmap Z string).

(** A value of a free-form JSON object ([metadata], [eventData],
    [verificationData]). *)
Inductive MetaValue :=
| MInt (n : Z)
| MReal (q : Q)
| MTime (ms : Z)
| MText (s : string).

Abbreviation Metadata := (list (string * MetaValue)).

Module ExamSession.
Record t := mk {
  id : string;
  hallTicketId : string;
  studentId : string;
  status : string;
  startTime : option Z;
  endTime : option Z;
  currentQuestion : option Z;
  answers : option Answers;
  questionIds : option (list string);
  timeRemaining : option Z;
  isVerified : option bool;
  verificationData : option Metadata;
  createdAt : option Z;
  updatedAt : option Z
}.
End ExamSession.

Module SecurityIncident.
Record t := mk {
  id : string;
  sessionId : string;
  incidentType : string;
  severity : string;
  description : string;
  metadata : option Metadata;
  snapshotUrl : option string;
  isResolved : option bool;
  resolvedBy : option string;
  resolvedAt : option Z;
  createdAt : option Z
}.
End SecurityIncident.

Module MonitoringLog.
Record t := mk {
  id : string;
  sessionId : string;
  eventType : string;
  eventData : option Metadata;
  timestamp : option Z
}.
End MonitoringLog.

(** A question, without [createdAt] and [updatedAt]: the table is kept in
    the order in which [getAllQuestions] returns it ([created_at]
    descending). *)
Module Question.
Record t := mk {
  id : string;
  examName : string;
  questionText : string;
  options : list string;
  correctAnswer : string;
  questionType : string;
  difficulty : option string;
  subject : string;
  topic : string;
  marks : Z
}.
End Question.

(** [UpsertUser], with the keys its two callers pass; a key that is [None]
    is missing. *)
Module UpsertUser.
Record t := mk {
  id : string;
  email : option string;
  firstName : option string;
  lastName : option string;
  role : string
}.
End UpsertUser.

(** [InsertExamSession], what [insertExamSessionSchema.parse] returns: the
    row without [id], [createdAt] and [updatedAt]. *)
Module InsertExamSession.
Record t := mk {
  hallTicketId : string;
  studentId : string;
  status : option string;
  startTime : Field Z;
  endTime : Field Z;
  currentQuestion : Field Z;
  answers : Field Answers;
  questionIds : Field (list string);
  timeRemaining : Field Z;
  isVerified : Field bool;
  verificationData : Field Metadata
}.
End InsertExamSession.

(** [InsertSecurityIncident], what [insertSecurityIncidentSchema.parse]
    returns: the row without [id] and [createdAt]. *)
Module InsertSecurityIncident.
Record t := mk {
  sessionId : string;
  incidentType : string;
  severity : string;
  description : string;
  metadata : Field Metadata;
  snapshotUrl : Field string;
  isResolved : Field bool;
  resolvedBy : Field string;
  resolvedAt : Field Z
}.
End InsertSecurityIncident.

(** [InsertMonitoringLog] *)
Module InsertMonitoringLog.
Record t := mk {
  sessionId : string;
  eventType : string;
  eventData : Field Metadata
}.
End InsertMonitoringLog.

(** The partial row the submit handler hands to [updateExamSession]. *)
Module SessionUpdates.
Record t := mk {
  answers : Field Answers;
  status : option string;
  endTime : option Z
}.
End SessionUpdates.

(** The partial row the incident handler hands to [updateSecurityIncident]:
    the request body, in which any column can be named.  A key for a
    timestamp column holds a [Date] ([Some]) or a value that is none
    ([None]), as every value of a JSON body is. *)
Module IncidentUpdates.
Record t := mk {
  id : Field string;
  sessionId : Field string;
  incidentType : Field string;
  severity : Field string;
  description : Field string;
  metadata : Field Metadata;
  snapshotUrl : Field string;
  isResolved : Field bool;
  resolvedBy : Field string;
  resolvedAt : Field (option Z);
  createdAt : Field (option Z)
}.
End IncidentUpdates.

(** The same once the database has read the texts of the uuid columns and
    the driver has written the dates. *)
Module IncidentSet.
Record t := mk {
  id : Field string;
  sessionId : Field string;
  incidentType : Field string;
  severity : Field string;
  description : Field string;
  metadata : Field Metadata;
  snapshotUrl : Field string;
  isResolved : Field bool;
  resolvedBy : Field string;
  resolvedAt : Field Z;
  createdAt : Field Z
}.
End IncidentSet.

(** ** What the runtime supplies to one request

    [now] is the clock ([Date.now()], [new Date()], the database's
    [defaultNow()]); [uuid] is the identifier [gen_random_uuid()] gives the
    row the request inserts. *)
Record Env := mkEnv { now : Z; uuid : string }.

(** ** The database *)

Record Store := mkStore {
  users : gmap string User.t;
  hallTickets : gmap string HallTicket.t;
  examSessions : gmap string ExamSession.t;
  securityIncidents : list SecurityIncident.t;
  questions : list Question.t
}.

Definition set_users (f : gmap string User.t → gmap string User.t) (st : Store) : Store :=
  mkStore (f (users st)) (hallTickets st) (examSessions st)
          (securityIncidents st) (questions st).

Definition set_hallTickets
    (f : gmap string HallTicket.t → gmap string HallTicket.t) (st : Store) : Store :=
  mkStore (users st) (f (hallTickets st)) (examSessions st) (securityIncidents st)
          (questions st).

Definition set_examSessions
    (f : gmap string ExamSession.t → gmap string ExamSession.t) (st : Store) : Store :=
  mkStore (users st) (hallTickets st) (f (examSessions st))
          (securityIncidents st) (questions st).

Definition set_securityIncidents
    (f : list SecurityIncident.t → list SecurityIncident.t) (st : Store) : Store :=
  mkStore (users st) (hallTickets st) (examSessions st)
          (f (securityIncidents st)) (questions st).

Definition set_questions (f : list Question.t → list Question.t) (st : Store) : Store :=
  mkStore (users st) (hallTickets st) (examSessions st) (securityIncidents st)
          (f (questions st)).

(** The tables above together with the monitoring log and with the
    [qr_code_data] column of the hall tickets, kept by hall ticket id. *)
Record Database := mkDatabase {
  tables : Store;
  monitoringLogs : list MonitoringLog.t;
  qrCodeData : gmap string string
}.

Definition set_tables (f : Store → Store) (db : Database) : Database :=
  mkDatabase (f (tables db)) (monitoringLogs db) (qrCodeData db).

(** The random choices of the server: the order [ORDER BY RANDOM()] gives
    the rows of a query, and the order the shuffle
    [sort(() => 0.5 - Math.random())] leaves an array in.  Both rearrange
    what they are given. *)
Record Random := mkRandom {
  randomOrder : list Question.t → list Question.t;
  shuffle : list Question.t → list Question.t;
  randomOrder_Permutation : ∀ l, randomOrder l ≡ₚ l;
  shuffle_Permutation : ∀ l, shuffle l ≡ₚ l
}.

(** [ORDER BY created_at DESC] on the incidents: a row is not after another
    when it is not older; rows without a time come first. *)
Definition notOlder (i j : SecurityIncident.t) : Prop :=
  match SecurityIncident.createdAt i, SecurityIncident.createdAt j with
  | None, _ => True
  | Some _, None => False
  | Some a, Some b => b ≤ a
  end.

#[global] Instance notOlder_dec i j : Decision (notOlder i j).
Proof.
  unfold notOlder.
  destruct (SecurityIncident.createdAt i), (SecurityIncident.createdAt j); apply _.
Defined.

(** ** [server/storage.ts]: the class [DatabaseStorage]

    A method returns a [Promise] when the statement it sends can fail on
    its arguments: a text that is no uuid where a uuid is expected, a key or
    a unique value that exists already, a reference to a row that does not
    exist, a number outside the range of its column, a negative [LIMIT].
    The handlers catch what a method throws; what the statements before
    have written stays written. *)
Module DatabaseStorage.

(** [getUser] *)
Definition getUser (st : Store) (id : string) : option User.t :=
  users st !! id.

(** The unique constraint on [users.email]: the row of another user holds
    the e-mail the statement writes. *)
Definition emailTaken (st : Store) (userData : UpsertUser.t) : bool :=
  bool_decide (Exists (λ v, User.id v ≠ UpsertUser.id userData ∧
                            is_Some (UpsertUser.email userData) ∧
                            User.email v = UpsertUser.email userData)
                      (map_to_list (users st)).*2).

(** The row [insert(users).values(userData)] writes. *)
Definition newUser (env : Env) (userData : UpsertUser.t) : User.t :=
  User.mk (UpsertUser.id userData) (UpsertUser.email userData)
    (UpsertUser.firstName userData) (UpsertUser.lastName userData) None
    (UpsertUser.role userData) (Some (now env)) (Some (now env)).

(** The row [onConflictDoUpdate] leaves:
    [set: { ...userData, updatedAt: new Date() }]. *)
Definition conflictUser (env : Env) (userData : UpsertUser.t) (old : User.t) : User.t :=
  User.mk (UpsertUser.id userData)
    (match UpsertUser.email userData with Some e => Some e | None => User.email old end)
    (match UpsertUser.firstName userData with
     | Some n => Some n | None => User.firstName old end)
    (match UpsertUser.lastName userData with
     | Some n => Some n | None => User.lastName old end)
    (User.profileImageUrl old) (UpsertUser.role userData)
    (User.createdAt old) (Some (now env)).

(** [upsertUser] *)
Definition upsertUser (env : Env) (st : Store) (userData : UpsertUser.t)
    : Promise (Store * User.t) :=
  if emailTaken st userData then rejected
  else
    let user :=
      match users st !! UpsertUser.id userData with
      | None => newUser env userData
      | Some old => conflictUser env userData old
      end in
    fulfilled (set_users (insert (UpsertUser.id userData) user) st, user).

(** [getHallTicketByQR]: an active ticket whose QR data is this text. *)
Definition getHallTicketByQR (db : Database) (qrData : string) : option HallTicket.t :=
  head (filter (λ t, qrCodeData db !! HallTicket.id t = Some qrData ∧
                     HallTicket.isActive t = true)
               (map_to_list (hallTickets (tables db))).*2).

(** [getHallTicketById] *)
Definition getHallTicketById `{pg : !Postgres} (st : Store) (id : string)
    : Promise (option HallTicket.t) :=
  id ← asUuid id;
  mret (hallTickets st !! id).

(** [getHallTicketByIdAndRoll]: an active ticket with this ticket number
    and this roll number. *)
Definition getHallTicketByIdAndRoll (st : Store) (hallTicketId rollNumber : string)
    : option HallTicket.t :=
  head (filter (λ t, HallTicket.hallTicketId t = hallTicketId ∧
                     HallTicket.rollNumber t = rollNumber ∧
                     HallTicket.isActive t = true)
               (map_to_list (hallTickets st)).*2).

(** The sessions [deleteHallTicket] selects:
    [where(eq(examSessions.hallTicketId, id))]. *)
Definition relatedSessions (st : Store) (id : string) : list ExamSession.t :=
  filter (λ s, ExamSession.hallTicketId s = id) (map_to_list (examSessions st)).*2.

(** [deleteHallTicket]: the incidents and the log entries of the ticket's
    sessions first, then the sessions, then the ticket. *)
Definition deleteHallTicket `{pg : !Postgres} (db : Database) (id : string)
    : Promise Database :=
  id ← asUuid id;
  let st := tables db in
  let related := ExamSession.id <$> relatedSessions st id in
  let incidents :=
    filter (λ i, SecurityIncident.sessionId i ∉ related) (securityIncidents st) in
  let logs :=
    filter (λ l, MonitoringLog.sessionId l ∉ related) (monitoringLogs db) in
  let sessions :=
    filter (λ kv, ExamSession.hallTicketId kv.2 ≠ id) (examSessions st) in
  mret (mkDatabase
          (mkStore (users st) (delete id (hallTickets st)) sessions incidents
                   (questions st))
          logs
          (delete id (qrCodeData db))).

(** The row [insert(examSessions).values(session)] writes, for the uuid
    [hallTicketId] that the text of [session.hallTicketId] denotes: a
    missing key takes the default of its column. *)
Definition newExamSession (env : Env) (hallTicketId : string)
    (session : InsertExamSession.t) : ExamSession.t :=
  ExamSession.mk (uuid env) hallTicketId (InsertExamSession.studentId session)
    (default "not_started" (InsertExamSession.status session))
    (inserted None (InsertExamSession.startTime session))
    (inserted None (InsertExamSession.endTime session))
    (inserted (Some 1) (InsertExamSession.currentQuestion session))
    (inserted (Some ∅) (InsertExamSession.answers session))
    (inserted (Some []) (InsertExamSession.questionIds session))
    (inserted None (InsertExamSession.timeRemaining session))
    (inserted (Some false) (InsertExamSession.isVerified session))
    (inserted None (InsertExamSession.verificationData session))
    (Some (now env)) (Some (now env)).

(** [createExamSession]: the insert fails when the hall ticket or the
    student does not exist (foreign keys), when [currentQuestion] or
    [timeRemaining] is outside the range of an [integer], and when the
    primary key exists. *)
Definition createExamSession `{pg : !Postgres} (env : Env) (st : Store)
    (session : InsertExamSession.t) : Promise (Store * ExamSession.t) :=
  hallTicketId ← asUuid (InsertExamSession.hallTicketId session);
  let examSession := newExamSession env hallTicketId session in
  if bool_decide (is_Some (hallTickets st !! hallTicketId))
     && bool_decide (is_Some (users st !! InsertExamSession.studentId session))
     && int4Column (ExamSession.currentQuestion examSession)
     && int4Column (ExamSession.timeRemaining examSession)
     && bool_decide (examSessions st !! uuid env = None)
  then fulfilled (set_examSessions (insert (uuid env) examSession) st, examSession)
  else rejected.

(** [getExamSession] *)
Definition getExamSession `{pg : !Postgres} (st : Store) (id : string)
    : Promise (option ExamSession.t) :=
  id ← asUuid id;
  mret (examSessions st !! id).

(** [getExamSessionByStudent]: a session of this student for this hall
    ticket, if there is one. *)
Definition getExamSessionByStudent `{pg : !Postgres} (st : Store)
    (studentId hallTicketId : string) : Promise (option ExamSession.t) :=
  hallTicketId ← asUuid hallTicketId;
  mret (head (filter (λ s, ExamSession.studentId s = studentId ∧
                           ExamSession.hallTicketId s = hallTicketId)
                     (map_to_list (examSessions st)).*2)).

(** The row [set({ ...updates, updatedAt: new Date() })] leaves: the keys
    of [updates] that are not missing are written, [answers: null] clears
    the column. *)
Definition applyUpdates (env : Env) (updates : SessionUpdates.t) (s : ExamSession.t)
    : ExamSession.t :=
  ExamSession.mk (ExamSession.id s) (ExamSession.hallTicketId s)
    (ExamSession.studentId s)
    (default (ExamSession.status s) (SessionUpdates.status updates))
    (ExamSession.startTime s)
    (match SessionUpdates.endTime updates with
     | Some t => Some t | None => ExamSession.endTime s end)
    (ExamSession.currentQuestion s)
    (updated (ExamSession.answers s) (SessionUpdates.answers updates))
    (ExamSession.questionIds s) (ExamSession.timeRemaining s)
    (ExamSession.isVerified s) (ExamSession.verificationData s)
    (ExamSession.createdAt s) (Some (now env)).

(** [updateExamSession]: the updated row, or nothing when no row has this
    [id]. *)
Definition updateExamSession `{pg : !Postgres} (env : Env) (st : Store) (id : string)
    (updates : SessionUpdates.t) : Promise (Store * option ExamSession.t) :=
  id ← asUuid id;
  match examSessions st !! id with
  | Some s =>
      let session := applyUpdates env updates s in
      mret (set_examSessions (insert id session) st, Some session)
  | None => mret (st, None)
  end.

(** The row [insert(securityIncidents).values(incident)] writes. *)
Definition newSecurityIncident (env : Env) (sessionId : string)
    (incident : InsertSecurityIncident.t) : SecurityIncident.t :=
  SecurityIncident.mk (uuid env) sessionId
    (InsertSecurityIncident.incidentType incident)
    (InsertSecurityIncident.severity incident)
    (InsertSecurityIncident.description incident)
    (inserted None (InsertSecurityIncident.metadata incident))
    (inserted None (InsertSecurityIncident.snapshotUrl incident))
    (inserted (Some false) (InsertSecurityIncident.isResolved incident))
    (inserted None (InsertSecurityIncident.resolvedBy incident))
    (inserted None (InsertSecurityIncident.resolvedAt incident))
    (Some (now env)).

(** A reference to [users.id] that is [NULL] or names a user. *)
Definition userOrNull (st : Store) (u : option string) : bool :=
  match u with
  | Some u => bool_decide (is_Some (users st !! u))
  | None => true
  end.

(** [createSecurityIncident]: the insert fails when the session or the
    resolving user does not exist (foreign keys) and when the primary key
    exists. *)
Definition createSecurityIncident `{pg : !Postgres} (env : Env) (st : Store)
    (incident : InsertSecurityIncident.t) : Promise (Store * SecurityIncident.t) :=
  sessionId ← asUuid (InsertSecurityIncident.sessionId incident);
  let securityIncident := newSecurityIncident env sessionId incident in
  if bool_decide (is_Some (examSessions st !! sessionId))
     && userOrNull st (SecurityIncident.resolvedBy securityIncident)
     && bool_decide (Forall (λ i, SecurityIncident.id i ≠ uuid env)
                            (securityIncidents st))
  then fulfilled (set_securityIncidents (λ l, (l ++ [securityIncident])%list) st,
                  securityIncident)
  else rejected.

(** [getSecurityIncidents]: all incidents, or those of one session when
    [sessionId] is given and not empty, newest first. *)
Definition getSecurityIncidents `{pg : !Postgres} (st : Store) (sessionId : option string)
    : Promise (list SecurityIncident.t) :=
  match sessionId with
  | Some text =>
      if bool_decide (text = "") then
        mret (merge_sort notOlder (securityIncidents st))
      else
        sessionId ← asUuid text;
        mret (merge_sort notOlder
                (filter (λ i, SecurityIncident.sessionId i = sessionId)
                        (securityIncidents st)))
  | None => mret (merge_sort notOlder (securityIncidents st))
  end.

(** A column that is [notNull]: [null] cannot be written to it. *)
Definition notNull {A} (old : A) (f : Field A) : option A :=
  match f with
  | absent => Some old
  | null => None
  | value a => Some a
  end.

(** The row [set(updates)] leaves, or nothing when [updates] writes [null]
    to a column that is [notNull]. *)
Definition applyIncidentUpdates (updates : IncidentSet.t) (i : SecurityIncident.t)
    : option SecurityIncident.t :=
  id ← notNull (SecurityIncident.id i) (IncidentSet.id updates);
  sessionId ← notNull (SecurityIncident.sessionId i) (IncidentSet.sessionId updates);
  incidentType ← notNull (SecurityIncident.incidentType i)
                         (IncidentSet.incidentType updates);
  severity ← notNull (SecurityIncident.severity i) (IncidentSet.severity updates);
  description ← notNull (SecurityIncident.description i)
                        (IncidentSet.description updates);
  Some (SecurityIncident.mk id sessionId incidentType severity description
          (updated (SecurityIncident.metadata i) (IncidentSet.metadata updates))
          (updated (SecurityIncident.snapshotUrl i) (IncidentSet.snapshotUrl updates))
          (updated (SecurityIncident.isResolved i) (IncidentSet.isResolved updates))
          (updated (SecurityIncident.resolvedBy i) (IncidentSet.resolvedBy updates))
          (updated (SecurityIncident.resolvedAt i) (IncidentSet.resolvedAt updates))
          (updated (SecurityIncident.createdAt i) (IncidentSet.createdAt updates))).

(** The text of a uuid key read by the database. *)
Definition uuidField `{pg : !Postgres} (f : Field string) : Promise (Field string) :=
  match f with
  | absent => mret absent
  | null => mret null
  | value text => id ← asUuid text; mret (value id)
  end.

(** A timestamp key as the driver writes it: a value that is no [Date]
    makes it throw. *)
Definition dateField (f : Field (option Z)) : Promise (Field Z) :=
  match f with
  | absent => mret absent
  | null => mret null
  | value (Some t) => mret (value t)
  | value None => rejected
  end.

(** [set(updates)] with no key at all is refused before any statement is
    sent. *)
Definition noValuesToSet (u : IncidentUpdates.t) : bool :=
  match IncidentUpdates.id u, IncidentUpdates.sessionId u,
        IncidentUpdates.incidentType u, IncidentUpdates.severity u,
        IncidentUpdates.description u, IncidentUpdates.metadata u,
        IncidentUpdates.snapshotUrl u, IncidentUpdates.isResolved u,
        IncidentUpdates.resolvedBy u, IncidentUpdates.resolvedAt u,
        IncidentUpdates.createdAt u with
  | absent, absent, absent, absent, absent, absent, absent, absent, absent, absent,
    absent => true
  | _, _, _, _, _, _, _, _, _, _, _ => false
  end.

(** [updateSecurityIncident]: the updated row, or nothing when no row has
    this [id], which is the primary key.  The update of a row fails when it
    leaves a [notNull] column empty, when it writes another session or
    another resolving user that does not exist (foreign keys), and when it
    writes the primary key of another row. *)
Definition updateSecurityIncident `{pg : !Postgres} (st : Store) (id : string)
    (updates : IncidentUpdates.t) : Promise (Store * option SecurityIncident.t) :=
  if noValuesToSet updates then rejected
  else
    newId ← uuidField (IncidentUpdates.id updates);
    sessionId ← uuidField (IncidentUpdates.sessionId updates);
    resolvedAt ← dateField (IncidentUpdates.resolvedAt updates);
    createdAt ← dateField (IncidentUpdates.createdAt updates);
    id ← asUuid id;
    let set :=
      IncidentSet.mk newId sessionId (IncidentUpdates.incidentType updates)
        (IncidentUpdates.severity updates) (IncidentUpdates.description updates)
        (IncidentUpdates.metadata updates) (IncidentUpdates.snapshotUrl updates)
        (IncidentUpdates.isResolved updates) (IncidentUpdates.resolvedBy updates)
        resolvedAt createdAt in
    let others := filter (λ i, SecurityIncident.id i ≠ id) (securityIncidents st) in
    match head (filter (λ i, SecurityIncident.id i = id) (securityIncidents st)) with
    | None => mret (st, None)
    | Some old =>
        match applyIncidentUpdates set old with
        | None => rejected
        | Some incident =>
            if (bool_decide (SecurityIncident.sessionId incident
                               = SecurityIncident.sessionId old)
                || bool_decide (is_Some (examSessions st
                                           !! SecurityIncident.sessionId incident)))
               && (bool_decide (SecurityIncident.resolvedBy incident
                                  = SecurityIncident.resolvedBy old)
                   || userOrNull st (SecurityIncident.resolvedBy incident))
               && bool_decide (Forall (λ i, SecurityIncident.id i
                                              ≠ SecurityIncident.id incident) others)
            then
              mret (set_securityIncidents
                      (fmap (λ i, if bool_decide (SecurityIncident.id i = id)
                                  then incident else i)) st,
                    Some incident)
            else rejected
        end
    end.

(** [createMonitoringLog] *)
Definition createMonitoringLog `{pg : !Postgres} (env : Env) (db : Database)
    (log : InsertMonitoringLog.t) : Promise (Database * MonitoringLog.t) :=
  sessionId ← asUuid (InsertMonitoringLog.sessionId log);
  let monitoringLog :=
    MonitoringLog.mk (uuid env) sessionId (InsertMonitoringLog.eventType log)
      (inserted None (InsertMonitoringLog.eventData log)) (Some (now env)) in
  if bool_decide (is_Some (examSessions (tables db) !! sessionId))
     && bool_decide (Forall (λ l, MonitoringLog.id l ≠ uuid env) (monitoringLogs db))
  then fulfilled (mkDatabase (tables db) (monitoringLogs db ++ [monitoringLog])%list
                             (qrCodeData db),
                  monitoringLog)
  else rejected.

(** [getRandomQuestions]: the questions of the exam in a random order, cut
    at [limit]; the database refuses a negative [LIMIT]. *)
Definition getRandomQuestions (rnd : Random) (st : Store) (examName : string)
    (limit : Z) : Promise (list Question.t) :=
  if limit <? 0 then rejected
  else
    mret (take (Z.to_nat limit)
               (randomOrder rnd
                  (filter (λ q, Question.examName q = examName) (questions st)))).

(** [getAllQuestions] *)
Definition getAllQuestions (st : Store) : list Question.t := questions st.

(** [deleteQuestion] *)
Definition deleteQuestion `{pg : !Postgres} (st : Store) (id : string) : Promise Store :=
  id ← asUuid id;
  mret (set_questions (filter (λ q, Question.id q ≠ id)) st).

End DatabaseStorage.

(** [export const storage = new DatabaseStorage()] *)
Module storage := DatabaseStorage.

(** ** [server/auth.ts]: the middleware [isAuthenticated]

    [token] is the subject ([sub]) of the bearer token of the request, when
    the request carries a token that verifies.  The JWT strategy looks the
    user up; without a token or without that user the middleware answers
    401. *)
Definition isAuthenticated (st : Store) (token : option string) : option User.t :=
  sub ← token;
  storage.getUser st sub.

(** ** [server/routes.ts]: HTTP handlers *)

(** A question as the session-questions endpoint returns it. *)
Module SessionQuestion.
Record t := mk {
  id : string;
  questionText : string;
  options : list string;
  questionType : string;
  marks : Z
}.
End SessionQuestion.

Inductive Body :=
| JsonMessage (message : string) (error : option string)
| JsonSession (s : ExamSession.t)
| JsonSubmitted (success : bool) (message : string) (session : option ExamSession.t)
| JsonQuestions (qs : list SessionQuestion.t)
| JsonIncident (i : SecurityIncident.t)
| JsonUpdatedIncident (i : option SecurityIncident.t)
| JsonSuccess (success : bool).

Record Response := mkResponse { code : Z; body : Body }.

(** [res.json(b)] and [res.status(c).json(b)]. *)
Definition json (b : Body) : Response := mkResponse 200 b.
Definition status_json (c : Z) (b : Body) : Response := mkResponse c b.

Definition unauthorized : Response :=
  status_json 401 (JsonMessage "Unauthorized" None).

Definition adminAccessRequired : Response :=
  status_json 403 (JsonMessage "Admin access required" None).

(** [data.data] of a [student_status] message. *)
Record DetectionStatus := mkDetectionStatus {
  st_faceDetected : bool;
  st_multipleFaces : bool;
  st_lookingAway : bool;
  st_confidence : Q;
  st_violationCount : Z;
  st_lookAwayCount : Z
}.

Inductive StatusDetail :=
| StatusWarning (violationType : string) (violationCount : Z)
| StatusDetection (status : DetectionStatus).

Module StatusData.
Record t := mk {
  sessionId : option string;
  studentId : option string;
  timestamp : Z;
  detail : StatusDetail
}.
End StatusData.

(** [data.data] of a [policy_update] message. *)
Module PolicyData.
Record t := mk {
  sessionId : option string;
  studentId : option string;
  studentName : option string;
  rollNumber : option string;
  action : option string;
  violationType : string;
  violationCount : Z;
  timestamp : Z
}.
End PolicyData.

(** [data.data] of a [video_snapshot] message. *)
Module SnapshotData.
Record t := mk {
  sessionId : option string;
  studentId : option string;
  studentName : option string;
  rollNumber : option string;
  snapshot : option string;
  timestamp : option Z
}.
End SnapshotData.

(** What the server pushes to every open connection of type ['admin']. *)
Inductive AdminMessage :=
| security_incident (i : SecurityIncident.t)
    (studentName rollNumber violationType : option string)
| student_status_relay (payload : Field Metadata)
| video_feed (data : SnapshotData.t)
| student_monitoring (data : StatusData.t)
| policy_update (data : PolicyData.t).

(** [s.split(' ')[0]] and [s.split(' ').slice(1).join(' ')]: the text before
    the first space and the text after it. *)
Fixpoint splitFirstSpace (s : string) : string * string :=
  match s with
  | EmptyString => (EmptyString, EmptyString)
  | String c r =>
      if Ascii.eqb c " "%char then (EmptyString, r)
      else let '(a, b) := splitFirstSpace r in (String c a, b)
  end.

(** [l.slice(0, e)]: a negative [e] counts from the end. *)
Definition slice0 {A} (l : list A) (e : Z) : list A :=
  take (Z.to_nat (if e <? 0 then Z.max 0 (Z.of_nat (length l) + e) else e)) l.

(** The body of a session-creation request.  [startTime] holds a value that
    [new Date(...)] reads as an instant ([Some]) or as no date ([None]); a
    missing, [null] or empty [startTime] is not truthy.  [endTime] can only
    hold a text, as no JSON value is a [Date]. *)
Module CreateSessionBody.
Record t := mk {
  hallTicketId : string;
  status : Field string;
  startTime : Field (option Z);
  endTime : Field string;
  currentQuestion : Field Z;
  answers : Field Answers;
  timeRemaining : Field Z;
  isVerified : Field bool;
  verificationData : Field Metadata
}.
End CreateSessionBody.

Definition NO_QUESTIONS_IN_SYSTEM : string := "NO_QUESTIONS_IN_SYSTEM".
Definition NO_QUESTIONS_ASSIGNED : string := "NO_QUESTIONS_ASSIGNED".

Definition invalidOrInactiveHallTicket : Response :=
  status_json 400 (JsonMessage "Invalid or inactive hall ticket" None).

Definition failedToCreateExamSession : Response :=
  status_json 500 (JsonMessage "Failed to create exam session" None).

(** The student's user id and user record, from the hall ticket: students
    have no account of their own. *)
Definition studentIdOf (hallTicket : HallTicket.t) : string :=
  "student_" +:+ HallTicket.rollNumber hallTicket.

Definition studentUserOf (hallTicket : HallTicket.t) : UpsertUser.t :=
  let name := splitFirstSpace (HallTicket.studentName hallTicket) in
  UpsertUser.mk (studentIdOf hallTicket) (Some (HallTicket.studentEmail hallTicket))
                (Some name.1) (Some name.2) "student".

Definition noQuestionsInSystem : Response :=
  status_json 400
    (JsonMessage
       "No questions available in the system. Please contact the administrator to add questions."
       (Some NO_QUESTIONS_IN_SYSTEM)).

(** A key of an [integer] column in a schema. *)
Definition integerField `{zod : !Zod} (f : Field Z) : Promise (Field Z) :=
  match f with
  | value n => if zodInteger n then mret f else rejected
  | _ => mret f
  end.

(** [insertExamSessionSchema.parse(sessionData)] on
    [{ ...req.body, studentId, startTime }]: [hallTicketId] must pass for a
    uuid and a number for an integer, [status] cannot be [null], a date must
    be a [Date]; [questionIds] of the body is replaced further down and left
    out here. *)
Definition parseExamSession `{zod : !Zod} (env : Env) (body : CreateSessionBody.t)
    (studentId : string) : Promise InsertExamSession.t :=
  hallTicketId ← (if zodUuid (CreateSessionBody.hallTicketId body)
                  then mret (CreateSessionBody.hallTicketId body) else rejected);
  status ← match CreateSessionBody.status body with
           | absent => mret None
           | null => rejected
           | value s => mret (Some s)
           end;
  startTime ← match CreateSessionBody.startTime body with
              | value (Some t) => mret t
              | value None => rejected
              | absent | null => mret (now env)
              end;
  endTime ← match CreateSessionBody.endTime body with
            | absent => mret absent
            | null => mret null
            | value _ => rejected
            end;
  currentQuestion ← integerField (CreateSessionBody.currentQuestion body);
  timeRemaining ← integerField (CreateSessionBody.timeRemaining body);
  mret (InsertExamSession.mk hallTicketId studentId status
          (value startTime) endTime currentQuestion
          (CreateSessionBody.answers body) absent
          timeRemaining (CreateSessionBody.isVerified body)
          (CreateSessionBody.verificationData body)).

(** [{ ...data, questionIds }] *)
Definition withQuestionIds (data : InsertExamSession.t) (questionIds : list string)
    : InsertExamSession.t :=
  InsertExamSession.mk (InsertExamSession.hallTicketId data)
    (InsertExamSession.studentId data) (InsertExamSession.status data)
    (InsertExamSession.startTime data) (InsertExamSession.endTime data)
    (InsertExamSession.currentQuestion data) (InsertExamSession.answers data)
    (value questionIds) (InsertExamSession.timeRemaining data)
    (InsertExamSession.isVerified data) (InsertExamSession.verificationData data).

(** The questions of a new session: those of the exam, or a fallback to
    any available questions; [None] when the system holds no question. *)
Definition chooseQuestions (rnd : Random) (st : Store) (hallTicket : HallTicket.t)
    : Promise (option (list Question.t)) :=
  (* Get randomized questions for this exam *)
  examQuestions ← storage.getRandomQuestions rnd st
                    (HallTicket.examName hallTicket)
                    (HallTicket.totalQuestions hallTicket);
  (* If no questions found for specific exam name, fallback to any
     available questions *)
  if bool_decide (examQuestions = []) then
    let allQuestions := storage.getAllQuestions st in
    if bool_decide (allQuestions = []) then mret None
    else
      (* Use random questions from all available *)
      let shuffled := shuffle rnd allQuestions in
      let limit :=
        Z.min (if HallTicket.totalQuestions hallTicket =? 0 then 20
               else HallTicket.totalQuestions hallTicket)
              (Z.of_nat (length allQuestions)) in
      mret (Some (slice0 shuffled limit))
  else mret (Some examQuestions).

(** The handler once the student's user record exists. *)
Definition createSessionFor `{pg : !Postgres} `{zod : !Zod} (rnd : Random) (env : Env) (st : Store)
    (body : CreateSessionBody.t) (hallTicket : HallTicket.t)
    : Promise (Store * Response) :=
  (* Now validate with schema *)
  data ← parseExamSession env body (studentIdOf hallTicket);
  (* Check if session already exists *)
  existingSession ← storage.getExamSessionByStudent st (studentIdOf hallTicket)
                      (InsertExamSession.hallTicketId data);
  match existingSession with
  | Some existingSession => mret (st, json (JsonSession existingSession))
  | None =>
      examQuestions ← chooseQuestions rnd st hallTicket;
      match examQuestions with
      | None => mret (st, noQuestionsInSystem)
      | Some examQuestions =>
          let questionIds := Question.id <$> examQuestions in
          '(st', examSession) ←
            storage.createExamSession env st (withQuestionIds data questionIds);
          mret (st', json (JsonSession examSession))
      end
  end.

(** [POST /api/exam-sessions] *)
Definition postExamSessions `{pg : !Postgres} `{zod : !Zod} (rnd : Random) (env : Env) (st : Store)
    (body : CreateSessionBody.t) : Store * Response :=
  (* Validate hall ticket exists and is active first *)
  match storage.getHallTicketById st (CreateSessionBody.hallTicketId body) with
  | rejected => (st, failedToCreateExamSession)
  | fulfilled None => (st, invalidOrInactiveHallTicket)
  | fulfilled (Some hallTicket) =>
      if negb (HallTicket.isActive hallTicket) then (st, invalidOrInactiveHallTicket)
      else
        (* Create or get the student user record *)
        let studentUser :=
          match storage.getUser st (studentIdOf hallTicket) with
          | Some studentUser => fulfilled (st, studentUser)
          | None => storage.upsertUser env st (studentUserOf hallTicket)
          end in
        match studentUser with
        | rejected => (st, failedToCreateExamSession)
        | fulfilled (st1, _) =>
            match createSessionFor rnd env st1 body hallTicket with
            | rejected => (st1, failedToCreateExamSession)
            | fulfilled r => r
            end
        end
  end.

(** The projection of the session-questions endpoint. *)
Definition toSessionQuestion (q : Question.t) : SessionQuestion.t :=
  SessionQuestion.mk (Question.id q) (Question.questionText q) (Question.options q)
                     (Question.questionType q) (Question.marks q).

(** The questions of a session as the student sees them. *)
Definition sessionQuestions (questionIds : list string) (allQuestions : list Question.t)
    : list SessionQuestion.t :=
  toSessionQuestion <$> filter (λ q, Question.id q ∈ questionIds) allQuestions.

(** [GET /api/exam-sessions/:id/questions] *)
Definition getExamSessionQuestions `{pg : !Postgres} (st : Store) (id : string) : Response :=
  match storage.getExamSession st id with
  | rejected => status_json 500 (JsonMessage "Failed to fetch session questions" None)
  | fulfilled None => status_json 404 (JsonMessage "Exam session not found" None)
  | fulfilled (Some session) =>
      match ExamSession.questionIds session with
      | None | Some [] =>
          status_json 400 (JsonMessage "No questions assigned to this exam session"
                                       (Some NO_QUESTIONS_ASSIGNED))
      | Some questionIds =>
          (* Fetch questions but don't return correct answers to students *)
          let allQuestions := storage.getAllQuestions st in
          json (JsonQuestions (sessionQuestions questionIds allQuestions))
      end
  end.

Definition failedToSubmitExam : Response :=
  status_json 500 (JsonMessage "Failed to submit exam" None).

(** [POST /api/exam-sessions/:id/submit]; [answers] is the key of that name
    of the body. *)
Definition postSubmit `{pg : !Postgres} (env : Env) (st : Store) (id : string)
    (answers : Field Answers) : Store * Response :=
  match storage.getExamSession st id with
  | rejected => (st, failedToSubmitExam)
  | fulfilled None => (st, status_json 404 (JsonMessage "Exam session not found" None))
  | fulfilled (Some _) =>
      (* Update session with final answers and mark as submitted *)
      match storage.updateExamSession env st id
              (SessionUpdates.mk answers (Some "submitted") (Some (now env))) with
      | rejected => (st, failedToSubmitExam)
      | fulfilled (st', updatedSession) =>
          (st', json (JsonSubmitted true "Exam submitted successfully" updatedSession))
      end
  end.

(** The body of an incident request as the exam page builds it. *)
Module IncidentBody.
Record t := mk {
  sessionId : option string;
  incidentType : option string;
  severity : option string;
  description : option string;
  metadata : option Metadata
}.
End IncidentBody.

(** The body of an incident request as the server can receive it: each of
    the four required columns holds a text or is [None] (missing, [null] or
    no text); [resolvedAt] can only hold a text, as no JSON value is a
    [Date]. *)
Module IncidentRequest.
Record t := mk {
  sessionId : option string;
  incidentType : option string;
  severity : option string;
  description : option string;
  metadata : Field Metadata;
  snapshotUrl : Field string;
  isResolved : Field bool;
  resolvedBy : Field string;
  resolvedAt : Field string
}.
End IncidentRequest.

(** The body of the exam page on the wire. *)
Definition incidentRequest (b : IncidentBody.t) : IncidentRequest.t :=
  IncidentRequest.mk (IncidentBody.sessionId b) (IncidentBody.incidentType b)
    (IncidentBody.severity b) (IncidentBody.description b)
    (match IncidentBody.metadata b with Some m => value m | None => absent end)
    absent absent absent absent.

(** [insertSecurityIncidentSchema.parse]: the four [notNull] columns are
    required, [sessionId] must pass for a uuid, a date must be a [Date]; a
    body that fails throws. *)
Definition parseIncident `{zod : !Zod} (body : IncidentRequest.t)
    : Promise InsertSecurityIncident.t :=
  match IncidentRequest.sessionId body, IncidentRequest.incidentType body,
        IncidentRequest.severity body, IncidentRequest.description body with
  | Some sessionId, Some incidentType, Some severity, Some description =>
      if zodUuid sessionId then
        resolvedAt ← match IncidentRequest.resolvedAt body with
                     | absent => mret absent
                     | null => mret null
                     | value _ => rejected
                     end;
        mret (InsertSecurityIncident.mk sessionId incidentType severity description
                (IncidentRequest.metadata body) (IncidentRequest.snapshotUrl body)
                (IncidentRequest.isResolved body) (IncidentRequest.resolvedBy body)
                resolvedAt)
      else rejected
  | _, _, _, _ => rejected
  end.

Definition failedToCreateIncident : Response :=
  status_json 500 (JsonMessage "Failed to create security incident" None).

(** [POST /api/security-incidents], behind [isAuthenticated]. *)
Definition postSecurityIncidents `{pg : !Postgres} `{zod : !Zod} (env : Env) (st : Store)
    (token : option string) (body : IncidentRequest.t)
    : Store * Response * list AdminMessage :=
  match isAuthenticated st token with
  | None => (st, unauthorized, [])
  | Some _ =>
      match data ← parseIncident body; storage.createSecurityIncident env st data with
      | rejected => (st, failedToCreateIncident, [])
      | fulfilled (st', incident) =>
          (* Broadcast to admin clients *)
          (st', json (JsonIncident incident),
           [security_incident incident None None None])
      end
  end.

(** The body of a request that updates an incident.  The admin page sends
    [isResolved], [resolvedBy] and a key that is no column; any column can
    be named.  A timestamp can only hold a text, as no JSON value is a
    [Date]. *)
Module IncidentPatch.
Record t := mk {
  id : Field string;
  sessionId : Field string;
  incidentType : Field string;
  severity : Field string;
  description : Field string;
  metadata : Field Metadata;
  snapshotUrl : Field string;
  isResolved : Field bool;
  resolvedBy : Field string;
  resolvedAt : Field string;
  createdAt : Field string
}.
End IncidentPatch.

(** A text of a body where a [Date] is wanted. *)
Definition noDate (f : Field string) : Field (option Z) :=
  match f with
  | absent => absent
  | null => null
  | value _ => value None
  end.

(** [if (updates.isResolved) { updates.resolvedAt = new Date(); }] *)
Definition stampResolution (env : Env) (body : IncidentPatch.t) : IncidentUpdates.t :=
  IncidentUpdates.mk (IncidentPatch.id body) (IncidentPatch.sessionId body)
    (IncidentPatch.incidentType body) (IncidentPatch.severity body)
    (IncidentPatch.description body) (IncidentPatch.metadata body)
    (IncidentPatch.snapshotUrl body) (IncidentPatch.isResolved body)
    (IncidentPatch.resolvedBy body)
    (match IncidentPatch.isResolved body with
     | value true => value (Some (now env))
     | _ => noDate (IncidentPatch.resolvedAt body)
     end)
    (noDate (IncidentPatch.createdAt body)).

(** [!user || user.role !== 'admin'], for the user the middleware found. *)
Definition notAdmin (user : User.t) : bool :=
  negb (bool_decide (User.role user = "admin")).

(** [PATCH /api/security-incidents/:id], behind [isAuthenticated]. *)
Definition patchSecurityIncidents `{pg : !Postgres} (env : Env) (st : Store)
    (token : option string) (id : string) (body : IncidentPatch.t) : Store * Response :=
  match isAuthenticated st token with
  | None => (st, unauthorized)
  | Some user =>
      if notAdmin user then (st, adminAccessRequired)
      else
        (* Add resolvedAt timestamp on the server side to avoid serialization
           issues *)
        let updates := stampResolution env body in
        match storage.updateSecurityIncident st id updates with
        | rejected =>
            (st, status_json 500 (JsonMessage "Failed to update security incident" None))
        | fulfilled (st', updatedIncident) => (st', json (JsonUpdatedIncident updatedIncident))
        end
  end.

(** [DELETE /api/questions/:id], behind [isAuthenticated]. *)
Definition deleteQuestions `{pg : !Postgres} (st : Store) (token : option string) (id : string)
    : Store * Response :=
  match isAuthenticated st token with
  | None => (st, unauthorized)
  | Some user =>
      if notAdmin user then (st, adminAccessRequired)
      else
        match storage.deleteQuestion st id with
        | rejected => (st, status_json 500 (JsonMessage "Failed to delete question" None))
        | fulfilled st' => (st', json (JsonSuccess true))
        end
  end.

(** [DELETE /api/hall-tickets/:id], behind [isAuthenticated]. *)
Definition deleteHallTickets `{pg : !Postgres} (db : Database) (token : option string)
    (id : string) : Database * Response :=
  match isAuthenticated (tables db) token with
  | None => (db, unauthorized)
  | Some user =>
      if notAdmin user then (db, adminAccessRequired)
      else
        match storage.deleteHallTicket db id with
        | rejected =>
            (db, status_json 500 (JsonMessage "Failed to delete hall ticket" None))
        | fulfilled db' => (db', json (JsonSuccess true))
        end
  end.

(** JavaScript truthiness of a string field: present and not empty. *)
Definition truthy (o : option string) : bool :=
  match o with
  | Some s => negb (bool_decide (s = ""))
  | None => false
  end.

(** The body of a verification request; the student page always sends the
    roll number. *)
Module VerifyBody.
Record t := mk {
  qrData : option string;
  rollNumber : string;
  hallTicketId : option string
}.
End VerifyBody.

(** The hall ticket as the verification answers it, without its
    [examDate]. *)
Module VerifiedTicket.
Record t := mk {
  id : string;
  hallTicketId : string;
  examName : string;
  studentName : string;
  rollNumber : string;
  duration : Z
}.
End VerifiedTicket.

Inductive VerifyReply :=
| verifyValid (hallTicket : VerifiedTicket.t)
| verifyRefused (code : Z) (message : string).

Definition toVerifiedTicket (t : HallTicket.t) : VerifiedTicket.t :=
  VerifiedTicket.mk (HallTicket.id t) (HallTicket.hallTicketId t) (HallTicket.examName t)
    (HallTicket.studentName t) (HallTicket.rollNumber t) (HallTicket.duration t).

(** [POST /api/auth/verify-hall-ticket] *)
Definition verifyHallTicket (db : Database) (req : VerifyBody.t) : VerifyReply :=
  (* If hallTicketId is provided (manual entry), validate by hall ticket ID *)
  if truthy (VerifyBody.hallTicketId req) then
    match DatabaseStorage.getHallTicketByIdAndRoll (tables db)
            (default "" (VerifyBody.hallTicketId req)) (VerifyBody.rollNumber req) with
    | None => verifyRefused 400 "Invalid details"
    | Some hallTicket => verifyValid (toVerifiedTicket hallTicket)
    end
  else if truthy (VerifyBody.qrData req) then
    (* QR code validation *)
    match DatabaseStorage.getHallTicketByQR db (default "" (VerifyBody.qrData req)) with
    | None => verifyRefused 404 "Invalid hall ticket"
    | Some hallTicket =>
        if bool_decide (HallTicket.rollNumber hallTicket ≠ VerifyBody.rollNumber req)
        then verifyRefused 400 "Roll number mismatch"
        else verifyValid (toVerifiedTicket hallTicket)
    end
  else verifyRefused 400 "Either QR data or hall ticket ID is required".

(** ** [server/routes.ts]: the WebSocket message handler *)

(** The fields a connection declares with its [auth] message. *)
Record WebSocketClient := mkClient {
  ws_sessionId : option string;
  ws_userId : option string;
  ws_type : option string
}.

Definition newConnection : WebSocketClient := mkClient None None None.

(** [data.data] of a [security_violation] or [face_violation] message. *)
Module ViolationData.
Record t := mk {
  sessionId : option string;
  studentId : option string;
  studentName : option string;
  rollNumber : option string;
  incidentType : option string;
  severity : option string;
  description : option string;
  metadata : option Metadata
}.
End ViolationData.

Inductive ViolationMessageType := security_violation | face_violation.

(** The messages a client sends, by their [type]; [otherMessage] is a
    message of any other type. *)
Inductive ClientMessage :=
| auth (userId userType sessionId : option string)
| student_status_update (payload : Field Metadata)
| face_detection_update (sessionId : option string) (payload : Field Metadata)
| video_snapshot (data : SnapshotData.t)
| violation (type : ViolationMessageType) (data : ViolationData.t)
| student_status (data : StatusData.t)
| policy_update_msg (data : PolicyData.t)
| otherMessage.

(** [new Date(incident.createdAt) > oneMinuteAgo], behind the null check. *)
Definition createdAfter (t : Z) (i : SecurityIncident.t) : bool :=
  match SecurityIncident.createdAt i with
  | Some c => t <? c
  | None => false
  end.

(** The incidents the rate limit counts: same type, created within the last
    60000 ms. *)
Definition recentSameType `{pg : !Postgres} (env : Env) (st : Store)
    (sessionId incidentType : string) : Promise (list SecurityIncident.t) :=
  recentIncidents ← storage.getSecurityIncidents st (Some sessionId);
  let oneMinuteAgo := now env - 60000 in
  mret (filter (λ incident,
                  SecurityIncident.incidentType incident = incidentType ∧
                  createdAfter oneMinuteAgo incident = true)
               recentIncidents).

(** The branch for [security_violation] and [face_violation], once the
    required fields are there and the sender is a student. *)
Definition reportViolation `{pg : !Postgres} (env : Env) (st : Store) (d : ViolationData.t)
    (sessionId incidentType severity description : string)
    : Promise (Store * list AdminMessage) :=
  (* Validate session exists and belongs to the student *)
  session ← storage.getExamSession st sessionId;
  match session with
  | None => mret (st, [])
  | Some _ =>
      (* Rate limiting: check for recent incidents to prevent spam *)
      recent ← recentSameType env st sessionId incidentType;
      if 3 <=? Z.of_nat (length recent) then mret (st, [])
      else
        (* Create security incident *)
        '(st', incident) ←
          storage.createSecurityIncident env st
            (InsertSecurityIncident.mk sessionId incidentType severity description
               (value (default [] (ViolationData.metadata d)))
               absent absent absent absent);
        (* Broadcast to admin clients *)
        mret (st', [security_incident incident
                      (ViolationData.studentName d) (ViolationData.rollNumber d)
                      (Some incidentType)])
  end.

(** The branch for [security_violation] and [face_violation]. *)
Definition onViolation `{pg : !Postgres} (env : Env) (ws : WebSocketClient) (st : Store)
    (d : ViolationData.t) : Store * list AdminMessage :=
  (* Validate required fields for incident creation *)
  if negb (truthy (ViolationData.sessionId d) && truthy (ViolationData.incidentType d)
           && truthy (ViolationData.severity d) && truthy (ViolationData.description d))
  then (st, [])
  (* Validate sender is a student *)
  else if negb (bool_decide (ws_type ws = Some "student")) then (st, [])
  else
    match ViolationData.sessionId d, ViolationData.incidentType d,
          ViolationData.severity d, ViolationData.description d with
    | Some sessionId, Some incidentType, Some severity, Some description =>
        match reportViolation env st d sessionId incidentType severity description with
        | rejected => (st, [])
        | fulfilled r => r
        end
    | _, _, _, _ => (st, [])
    end.

(** A log entry of the handler; nothing is written when the statement
    throws. *)
Definition logMonitoring `{pg : !Postgres} (env : Env) (db : Database)
    (sessionId : option string) (eventType : string) (eventData : Field Metadata)
    : Database :=
  match sessionId with
  | Some text =>
      if bool_decide (text = "") then db
      else
        match storage.createMonitoringLog env db
                (InsertMonitoringLog.mk text eventType eventData) with
        | rejected => db
        | fulfilled (db', _) => db'
        end
  | None => db
  end.

(** [ws.on('message', ...)] *)
Definition onMessage `{pg : !Postgres} (env : Env) (ws : WebSocketClient) (db : Database)
    (m : ClientMessage) : WebSocketClient * Database * list AdminMessage :=
  match m with
  | auth userId userType sessionId => (mkClient sessionId userId userType, db, [])
  | student_status_update payload =>
      (* Broadcast to admin clients *)
      (ws, db, [student_status_relay payload])
  | face_detection_update sessionId payload =>
      (* Log monitoring data *)
      (ws, logMonitoring env db sessionId "face_detected" payload, [])
  | video_snapshot data =>
      (* Broadcast video snapshot to admin clients for live monitoring, log to
         monitoring logs as fallback *)
      (ws,
       logMonitoring env db (SnapshotData.sessionId data) "video_snapshot"
         (value
            ((match SnapshotData.studentId data with
              | Some s => [("studentId", MText s)] | None => [] end)
             ++ (match SnapshotData.timestamp data with
                 | Some t => [("timestamp", MTime t)] | None => [] end))%list),
       [video_feed data])
  | violation _ d =>
      let '(st', out) := onViolation env ws (tables db) d in
      (ws, set_tables (λ _, st') db, out)
  | student_status d => (ws, db, [student_monitoring d])
  | policy_update_msg d =>
      if negb (truthy (PolicyData.sessionId d) && truthy (PolicyData.action d))
      then (ws, db, [])
      else (ws, db, [policy_update d])
  | otherMessage => (ws, db, [])
  end.

(** ** The [ExamMode] component: state *)

Record HallTicketData := mkHallTicketData {
  htd_id : string;
  htd_studentName : string;
  htd_rollNumber : string;
  htd_duration : Z
}.

(** The [useState] cells of the component, with what its hooks hand it:
    [cameraActive] ([useWebcam]), [questionList] (the [questions] of
    [useQuery]) and [user] (the id of the user of [useAuth]). *)
Record ExamMode := mkExamMode {
  user : option string;
  hallTicketData : option HallTicketData;
  examSession : option ExamSession.t;
  questionList : option (list SessionQuestion.t);
  cameraActive : bool;
  currentQuestion : Z;
  answers : Answers;
  timeRemaining : Z;
  isFullscreen : bool;
  showWarning : bool;
  warningCount : Z;
  violationCount : Z;
  isPaused : bool;
  warningMessage : string;
  lookAwayCount : Z;
  multipleFaceCount : Z;
  lastSnapshotTime : Z
}.

Definition setQuestionList (v : option (list SessionQuestion.t)) (s : ExamMode) : ExamMode :=
  mkExamMode (user s) (hallTicketData s) (examSession s) v (cameraActive s)
    (currentQuestion s) (answers s) (timeRemaining s) (isFullscreen s) (showWarning s)
    (warningCount s) (violationCount s) (isPaused s) (warningMessage s) (lookAwayCount s)
    (multipleFaceCount s) (lastSnapshotTime s).

Definition setCurrentQuestion (v : Z) (s : ExamMode) : ExamMode :=
  mkExamMode (user s) (hallTicketData s) (examSession s) (questionList s) (cameraActive s)
    v (answers s) (timeRemaining s) (isFullscreen s) (showWarning s) (warningCount s)
    (violationCount s) (isPaused s) (warningMessage s) (lookAwayCount s)
    (multipleFaceCount s) (lastSnapshotTime s).

Definition setAnswers (v : Answers) (s : ExamMode) : ExamMode :=
  mkExamMode (user s) (hallTicketData s) (examSession s) (questionList s) (cameraActive s)
    (currentQuestion s) v (timeRemaining s) (isFullscreen s) (showWarning s) (warningCount s)
    (violationCount s) (isPaused s) (warningMessage s) (lookAwayCount s)
    (multipleFaceCount s) (lastSnapshotTime s).

Definition setTimeRemaining (v : Z) (s : ExamMode) : ExamMode :=
  mkExamMode (user s) (hallTicketData s) (examSession s) (questionList s) (cameraActive s)
    (currentQuestion s) (answers s) v (isFullscreen s) (showWarning s) (warningCount s)
    (violationCount s) (isPaused s) (warningMessage s) (lookAwayCount s)
    (multipleFaceCount s) (lastSnapshotTime s).

Definition setIsFullscreen (v : bool) (s : ExamMode) : ExamMode :=
  mkExamMode (user s) (hallTicketData s) (examSession s) (questionList s) (cameraActive s)
    (currentQuestion s) (answers s) (timeRemaining s) v (showWarning s) (warningCount s)
    (violationCount s) (isPaused s) (warningMessage s) (lookAwayCount s)
    (multipleFaceCount s) (lastSnapshotTime s).

Definition setShowWarning (v : bool) (s : ExamMode) : ExamMode :=
  mkExamMode (user s) (hallTicketData s) (examSession s) (questionList s) (cameraActive s)
    (currentQuestion s) (answers s) (timeRemaining s) (isFullscreen s) v (warningCount s)
    (violationCount s) (isPaused s) (warningMessage s) (lookAwayCount s)
    (multipleFaceCount s) (lastSnapshotTime s).

Definition setWarningCount (v : Z) (s : ExamMode) : ExamMode :=
  mkExamMode (user s) (hallTicketData s) (examSession s) (questionList s) (cameraActive s)
    (currentQuestion s) (answers s) (timeRemaining s) (isFullscreen s) (showWarning s) v
    (violationCount s) (isPaused s) (warningMessage s) (lookAwayCount s)
    (multipleFaceCount s) (lastSnapshotTime s).

Definition setViolationCount (v : Z) (s : ExamMode) : ExamMode :=
  mkExamMode (user s) (hallTicketData s) (examSession s) (questionList s) (cameraActive s)
    (currentQuestion s) (answers s) (timeRemaining s) (isFullscreen s) (showWarning s)
    (warningCount s) v (isPaused s) (warningMessage s) (lookAwayCount s)
    (multipleFaceCount s) (lastSnapshotTime s).

Definition setIsPaused (v : bool) (s : ExamMode) : ExamMode :=
  mkExamMode (user s) (hallTicketData s) (examSession s) (questionList s) (cameraActive s)
    (currentQuestion s) (answers s) (timeRemaining s) (isFullscreen s) (showWarning s)
    (warningCount s) (violationCount s) v (warningMessage s) (lookAwayCount s)
    (multipleFaceCount s) (lastSnapshotTime s).

Definition setWarningMessage (v : string) (s : ExamMode) : ExamMode :=
  mkExamMode (user s) (hallTicketData s) (examSession s) (questionList s) (cameraActive s)
    (currentQuestion s) (answers s) (timeRemaining s) (isFullscreen s) (showWarning s)
    (warningCount s) (violationCount s) (isPaused s) v (lookAwayCount s)
    (multipleFaceCount s) (lastSnapshotTime s).

Definition setLookAwayCount (v : Z) (s : ExamMode) : ExamMode :=
  mkExamMode (user s) (hallTicketData s) (examSession s) (questionList s) (cameraActive s)
    (currentQuestion s) (answers s) (timeRemaining s) (isFullscreen s) (showWarning s)
    (warningCount s) (violationCount s) (isPaused s) (warningMessage s) v
    (multipleFaceCount s) (lastSnapshotTime s).

Definition setMultipleFaceCount (v : Z) (s : ExamMode) : ExamMode :=
  mkExamMode (user s) (hallTicketData s) (examSession s) (questionList s) (cameraActive s)
    (currentQuestion s) (answers s) (timeRemaining s) (isFullscreen s) (showWarning s)
    (warningCount s) (violationCount s) (isPaused s) (warningMessage s) (lookAwayCount s)
    v (lastSnapshotTime s).

Definition setLastSnapshotTime (v : Z) (s : ExamMode) : ExamMode :=
  mkExamMode (user s) (hallTicketData s) (examSession s) (questionList s) (cameraActive s)
    (currentQuestion s) (answers s) (timeRemaining s) (isFullscreen s) (showWarning s)
    (warningCount s) (violationCount s) (isPaused s) (warningMessage s) (lookAwayCount s)
    (multipleFaceCount s) v.

(** The component once [createSessionMutation] has succeeded:
    [setExamSession(session)], [setTimeRemaining(session.timeRemaining)] and
    the fullscreen request, which sets [isFullscreen] when the browser grants
    it; every other cell holds its [useState] default. *)
Definition onSessionCreated (user : option string) (htd : option HallTicketData)
    (session : ExamSession.t) (cameraActive fullscreenGranted : bool) : ExamMode :=
  mkExamMode user htd (Some session) None cameraActive
    1 ∅ (default 0 (ExamSession.timeRemaining session)) fullscreenGranted
    false 0 0 false "" 0 0 0.

(** ** The [ExamMode] component: what a handler asks of the outside *)

Inductive TimerAction :=
| hideWarning
| autoSubmit
| reenterFullscreen.

Inductive Effect :=
| sendMessage (m : ClientMessage)
| setTimeout (a : TimerAction) (ms : Z)
| toast (title : string)
| requestFullscreen
| apiPostSecurityIncident (b : IncidentBody.t)
| apiPostSubmit (sessionId : string) (answers : Answers).

(** ** The [ExamMode] component: handlers *)

Definition studentName (s : ExamMode) : option string :=
  htd_studentName <$> hallTicketData s.

Definition rollNumber (s : ExamMode) : option string :=
  htd_rollNumber <$> hallTicketData s.

(** [submitExam]: the mutation posts the current answers, or fails with
    "No exam session found". *)
Definition submitExam (s : ExamMode) : list Effect :=
  match examSession s with
  | Some session => [apiPostSubmit (ExamSession.id session) (answers s)]
  | None => [toast "Submission Failed"]
  end.

(** The banner text for a violation (without the warning sign that starts
    each text). *)
Definition warningFor (violationType : string) : string :=
  if bool_decide (violationType = "fullscreen_exit")
  then "Please stay in fullscreen mode during the exam!"
  else if bool_decide (violationType = "tab_switch")
  then "Switching tabs is not allowed during the exam!"
  else if bool_decide (violationType = "window_blur")
  then "Please keep the exam window focused!"
  else if bool_decide (violationType = "key_violation")
  then "Restricted key combination detected!"
  else "".

(** [handleSecurityViolation(violationType, description, severity)] at clock
    [now]. *)
Definition handleSecurityViolation (now : Z) (s : ExamMode)
    (violationType description severity : string) : ExamMode * list Effect :=
  match examSession s with
  | None => (s, [])
  | Some session =>
      let newViolationCount := violationCount s + 1 in
      let s1 := setViolationCount newViolationCount s in
      let s2 := setWarningCount (warningCount s + 1) s1 in
      let s3 := setShowWarning true (setWarningMessage (warningFor violationType) s2) in
      let report :=
        [ setTimeout hideWarning 5000;
          (* Send violation event to server via WebSocket *)
          sendMessage (violation security_violation
            (ViolationData.mk (Some (ExamSession.id session)) (user s)
               (studentName s) (rollNumber s)
               (Some violationType) (Some severity) (Some description)
               (Some [("violationCount", MInt newViolationCount);
                      ("warningCount", MInt (warningCount s + 1));
                      ("timestamp", MTime now)]))) ] in
      let policy action :=
        sendMessage (policy_update_msg
          (PolicyData.mk (Some (ExamSession.id session)) (user s)
             (studentName s) (rollNumber s)
             (Some action) violationType newViolationCount now)) in
      (* Implement violation policy *)
      if newViolationCount =? 1 then
        (* First violation: Auto-pause exam *)
        (setIsPaused true s3,
         report ++ [toast "Exam Paused"; policy "paused"])%list
      else if 3 <=? newViolationCount then
        (* Three or more violations: Auto-submit exam *)
        (s3,
         report ++ [toast "Exam Auto-Submitted"; policy "auto_submitted";
                    setTimeout autoSubmit 2000])%list
      else
        (* Second violation: Warning only *)
        (s3,
         report ++ [sendMessage (student_status
                      (StatusData.mk (Some (ExamSession.id session)) (user s) now
                         (StatusWarning violationType newViolationCount)))])%list
  end.

(** A keyboard event, as the listeners read it. *)
Record KeyboardEvent := mkKeyboardEvent {
  key : string;
  keyCode : Z;
  which : Z;
  ctrlKey : bool;
  altKey : bool;
  shiftKey : bool
}.

Definition isEscape (e : KeyboardEvent) : bool :=
  bool_decide (key e = "Escape") || (keyCode e =? 27) || (which e =? 27).

(** [blockEscKey]: the violation, when the key is the escape key. *)
Definition blockEscKey (now : Z) (s : ExamMode) (e : KeyboardEvent)
    : option (ExamMode * list Effect) :=
  if isEscape e
  then Some (handleSecurityViolation now s "key_violation"
               "Student attempted to use ESC key" "medium")
  else None.

Definition blockedKeys : list string :=
  ["F11"; "Alt+Tab"; "Ctrl+Shift+I"; "F12"; "Ctrl+U"; "Ctrl+Shift+C";
   "Ctrl+Shift+J"; "Ctrl+R"; "F5"; "Ctrl+N"; "Ctrl+T"; "Ctrl+W"].

(** [[ctrl && 'Ctrl', alt && 'Alt', shift && 'Shift', key].filter(Boolean).join('+')] *)
Definition combo (e : KeyboardEvent) : string :=
  String.concat "+"
    (List.filter (λ x, negb (bool_decide (x = "")))
       [ (if ctrlKey e then "Ctrl" else "");
         (if altKey e then "Alt" else "");
         (if shiftKey e then "Shift" else "");
         key e ]).

Definition handleKeyDown (now : Z) (s : ExamMode) (e : KeyboardEvent)
    : ExamMode * list Effect :=
  match blockEscKey now s e with
  | Some r => r
  | None =>
      if bool_decide (combo e ∈ blockedKeys) || bool_decide (key e ∈ blockedKeys)
      then handleSecurityViolation now s "key_violation"
             ("Student attempted to use blocked key: " +:+ combo e) "medium"
      else (s, [])
  end.

(** [handleKeyUp] and [handleKeyPress]. *)
Definition handleKeyUp (now : Z) (s : ExamMode) (e : KeyboardEvent)
    : ExamMode * list Effect :=
  default (s, []) (blockEscKey now s e).

Definition handleFullscreenChange (now : Z) (s : ExamMode) (isNowFullscreen : bool)
    : ExamMode * list Effect :=
  let s1 := setIsFullscreen isNowFullscreen s in
  if isNowFullscreen then (s1, [])
  else
    let '(s2, out) :=
      handleSecurityViolation now s1 "fullscreen_exit"
        "Student exited fullscreen mode" "medium" in
    (s2, out ++ [setTimeout reenterFullscreen 1000])%list.

Definition handleVisibilityChange (now : Z) (s : ExamMode) (hidden : bool)
    : ExamMode * list Effect :=
  if hidden
  then handleSecurityViolation now s "tab_switch"
         "Student switched tabs or minimized window" "medium"
  else (s, []).

Definition handleWindowBlur (now : Z) (s : ExamMode) : ExamMode * list Effect :=
  handleSecurityViolation now s "window_blur" "Student left the exam window" "medium".

(** [resumeExam]; the [isFullscreen] cell stands for
    [document.fullscreenElement], which it tracks. *)
Definition resumeExam (s : ExamMode) : ExamMode * list Effect :=
  (setIsPaused false s,
   (if isFullscreen s then [] else [requestFullscreen]) ++ [toast "Exam Resumed"])%list.

Definition questionsLoaded (s : ExamMode) : bool :=
  match questionList s with
  | Some (_ :: _) => true
  | _ => false
  end.

(** The countdown runs when this holds; it reads neither [isPaused] nor any
    other cell. *)
Definition timerRunning (s : ExamMode) : bool :=
  (0 <? timeRemaining s) && bool_decide (is_Some (examSession s)) && questionsLoaded s.

(** One firing of the countdown's interval. *)
Definition timerTick (s : ExamMode) : ExamMode * list Effect :=
  if timerRunning s then
    if timeRemaining s <=? 1
    then (* Auto-submit exam *) (setTimeRemaining 0 s, submitExam s)
    else (setTimeRemaining (timeRemaining s - 1) s, [])
  else (s, []).

(** ** The [ExamMode] component: face monitoring *)

(** What [useFaceDetection] reports. *)
Record Detection := mkDetection {
  faceDetected : bool;
  multipleFaces : bool;
  lookingAway : bool;
  confidence : Q
}.

(** [handleFaceViolation]: the [face_violation] message. *)
Definition handleFaceViolation (now : Z) (s : ExamMode) (session : ExamSession.t)
    (d : Detection) (violationType description severity : string) : Effect :=
  sendMessage (violation face_violation
    (ViolationData.mk (Some (ExamSession.id session))
       (Some (ExamSession.studentId session))
       (studentName s) (rollNumber s)
       (Some violationType) (Some severity) (Some description)
       (Some [("confidence", MReal (confidence d)); ("timestamp", MTime now)]))).

(** The three branches on the detection of one run of the monitoring effect. *)
Definition classify (now : Z) (s : ExamMode) (session : ExamSession.t) (d : Detection)
    : ExamMode * list Effect :=
  if multipleFaces d then
    let newCount := multipleFaceCount s + 1 in
    (* Immediate critical alert for multiple faces *)
    (setWarningMessage "Multiple faces detected! Only the exam taker should be visible."
       (setShowWarning true (setMultipleFaceCount newCount s)),
     [handleFaceViolation now s session d "multiple_faces"
        ("Multiple faces detected (occurrence " +:+ pretty newCount +:+ ")")
        "critical"])
  else if lookingAway d then
    let newCount := lookAwayCount s + 1 in
    let s1 := setLookAwayCount newCount s in
    (* Progressive warnings based on count *)
    if newCount =? 1 then
      (setWarningMessage "Please look at the camera during the exam."
         (setShowWarning true s1), [])
    else if newCount =? 3 then
      (* After 3 look-away detections, send alert to admin *)
      (setWarningMessage
         "FINAL WARNING: Keep your eyes on the screen. Admin has been notified."
         (setShowWarning true s1),
       [handleFaceViolation now s session d "looking_away_repeated"
          ("Student repeatedly looking away (" +:+ pretty newCount +:+ " times)")
          "high"])
    else if 3 <? newCount then
      (* Continue logging but don't overwhelm with alerts *)
      (s1,
       [apiPostSecurityIncident
          (IncidentBody.mk (Some (ExamSession.id session)) (Some "looking_away")
             (Some "medium")
             (Some ("Student looking away (occurrence " +:+ pretty newCount +:+ ")"))
             (Some [("confidence", MReal (confidence d)); ("count", MInt newCount)]))])
    else (s1, [])
  else
    (* Reset look away counter when face is properly detected *)
    if faceDetected d && (0 <? lookAwayCount s)
    then (setLookAwayCount 0 s, [])
    else (s, []).

(** The lightweight status update that ends a run, with the counters of the
    render the run belongs to. *)
Definition statusUpdate (now : Z) (s0 s : ExamMode) (session : ExamSession.t)
    (d : Detection) : ExamMode * list Effect :=
  if faceDetected d && (10000 <? now - lastSnapshotTime s0) then
    (setLastSnapshotTime now s,
     [sendMessage (student_status
        (StatusData.mk (Some (ExamSession.id session))
           (Some (ExamSession.studentId session)) now
           (StatusDetection
              (mkDetectionStatus (faceDetected d) (multipleFaces d) (lookingAway d)
                 (confidence d) (violationCount s0) (lookAwayCount s0)))))])
  else (s, []).

(** One run of the monitoring effect ([handleMonitoring]) on the detection
    values [d] at clock [now]. *)
Definition handleMonitoring (now : Z) (s : ExamMode) (d : Detection)
    : ExamMode * list Effect :=
  match examSession s with
  | None => (s, [])
  | Some session =>
      if negb (cameraActive s) then (s, [])
      else
        let '(s1, out1) := classify now s session d in
        let '(s2, out2) := statusUpdate now s s1 session d in
        (s2, (out1 ++ out2)%list)
  end.

(** ** The [ExamMode] component as a machine *)

Inductive Direction := prev | next.

Inductive Event :=
| fullscreenchange (isNowFullscreen : bool)
| visibilitychange (hidden : bool)
| blur
| keydown (e : KeyboardEvent)
| keyup (e : KeyboardEvent)
| keypress (e : KeyboardEvent)
| resumeClick
| submitClick
| interval
| faceSample (d : Detection)
| timerFired (a : TimerAction)
| answerChange (questionIndex : Z) (answer : string)
| navigateQuestion (direction : Direction)
| questionsFetched (qs : list SessionQuestion.t)
| selectQuestion (questionNum : Z)
| dismissWarning.

Definition handleNavigate (s : ExamMode) (direction : Direction) : ExamMode :=
  let questionsLength := Z.of_nat (length (default [] (questionList s))) in
  match direction with
  | prev => if 1 <? currentQuestion s
            then setCurrentQuestion (currentQuestion s - 1) s else s
  | next => if currentQuestion s <? questionsLength
            then setCurrentQuestion (currentQuestion s + 1) s else s
  end.

(** What the callback of a [setTimeout] does when it fires. *)
Definition fire (s : ExamMode) (a : TimerAction) : ExamMode * list Effect :=
  match a with
  | hideWarning => (setWarningMessage "" (setShowWarning false s), [])
  | autoSubmit => (s, submitExam s)
  | reenterFullscreen =>
      if negb (isFullscreen s) && bool_decide (is_Some (examSession s))
      then (s, [requestFullscreen]) else (s, [])
  end.

(** One event at clock [now]: the next state and what is sent, scheduled or
    shown. *)
Definition step (now : Z) (s : ExamMode) (ev : Event) : ExamMode * list Effect :=
  match ev with
  | fullscreenchange b => handleFullscreenChange now s b
  | visibilitychange h => handleVisibilityChange now s h
  | blur => handleWindowBlur now s
  | keydown e => handleKeyDown now s e
  | keyup e | keypress e => handleKeyUp now s e
  | resumeClick => resumeExam s
  | submitClick => (s, submitExam s)
  | interval => timerTick s
  | faceSample d => handleMonitoring now s d
  | timerFired a => fire s a
  | answerChange q a => (setAnswers (<[q := a]> (answers s)) s, [])
  | navigateQuestion dir => (handleNavigate s dir, [])
  | questionsFetched qs => (setQuestionList (Some qs) s, [])
  | selectQuestion n => (setCurrentQuestion n s, [])
  | dismissWarning => (setShowWarning false s, [])
  end.

(** A run: events with their clock readings, in order. *)
Fixpoint run (s : ExamMode) (evs : list (Z * Event)) : ExamMode * list Effect :=
  match evs with
  | [] => (s, [])
  | (now, ev) :: rest =>
      let '(s1, out1) := step now s ev in
      let '(s2, out2) := run s1 rest in
      (s2, (out1 ++ out2)%list)
  end.

(** ** The monitoring effect under React

    The dependency list of the effect names, beside the values of the
    detection, [lookAwayCount], [multipleFaceCount] and [lastSnapshotTime],
    which the effect itself sets: a run that changes one of them leads to a
    render after which the effect runs again, on the same detection. *)
Definition monitoringAgain (s s' : ExamMode) : bool :=
  negb ((lookAwayCount s' =? lookAwayCount s)
        && (multipleFaceCount s' =? multipleFaceCount s)
        && (lastSnapshotTime s' =? lastSnapshotTime s)).

(** One report of [useFaceDetection], standing while the component renders
    at the clock readings [renders]: the effect runs on the report, and
    again after each render as long as the run before has changed one of
    its dependencies. *)
Fixpoint reportStanding (renders : list Z) (now : Z) (s : ExamMode) (d : Detection)
    : ExamMode * list Effect :=
  let '(s1, out1) := handleMonitoring now s d in
  match renders with
  | [] => (s1, out1)
  | later :: renders =>
      if monitoringAgain s s1 then
        let '(s2, out2) := reportStanding renders later s1 d in
        (s2, (out1 ++ out2)%list)
      else (s1, out1)
  end.

(** ** Observations on what a handler emits *)

(** The violation event an effect carries to the incident sink, as its
    incident type and severity: a [security_violation] or [face_violation]
    message, or a request to the incident endpoint. *)
Definition violationEvent (e : Effect) : option (option string * option string) :=
  match e with
  | sendMessage (violation _ d) =>
      Some (ViolationData.incidentType d, ViolationData.severity d)
  | apiPostSecurityIncident b =>
      Some (IncidentBody.incidentType b, IncidentBody.severity b)
  | _ => None
  end.

Definition violationEvents (out : list Effect) : list (option string * option string) :=
  omap violationEvent out.

(** Effects that pause or submit the exam, or announce that: a submission
    request, a scheduled auto-submit, a [policy_update] message. *)
Definition isPolicyEffect (e : Effect) : bool :=
  match e with
  | apiPostSubmit _ _ => true
  | setTimeout autoSubmit _ => true
  | sendMessage (policy_update_msg _) => true
  | _ => false
  end.

Definition policyEffects (out : list Effect) : list Effect :=
  List.filter isPolicyEffect out.

Definition isSubmission (e : Effect) : bool :=
  match e with
  | apiPostSubmit _ _ => true
  | _ => false
  end.

Definition submissions (out : list Effect) : list Effect :=
  List.filter isSubmission out.

(** A question with its correct answer blanked. *)
Definition eraseCorrectAnswer (q : Question.t) : Question.t :=
  Question.mk (Question.id q) (Question.examName q) (Question.questionText q)
    (Question.options q) "" (Question.questionType q) (Question.difficulty q)
    (Question.subject q) (Question.topic q) (Question.marks q).

(** A browser event that the listeners count as a violation. *)
Definition qualifies (ev : Event) : bool :=
  match ev with
  | fullscreenchange isNowFullscreen => negb isNowFullscreen
  | visibilitychange hidden => hidden
  | blur => true
  | keydown e =>
      isEscape e || bool_decide (combo e ∈ blockedKeys) || bool_decide (key e ∈ blockedKeys)
  | keyup e | keypress e => isEscape e
  | _ => false
  end.

Definition isAutoSubmitTimer (e : Effect) : bool :=
  match e with
  | setTimeout autoSubmit _ => true
  | _ => false
  end.

(** The cells of the policy after a violation. *)
Definition policyStep (s s' : ExamMode) : Prop :=
  violationCount s' = violationCount s + 1 ∧
  isPaused s' = (if violationCount s =? 0 then true else isPaused s) ∧
  timeRemaining s' = timeRemaining s ∧
  examSession s' = examSession s ∧
  questionList s' = questionList s.

(** Runs of the monitoring effect as events of the machine, each at its
    clock reading and on the detection it finds.  A report of the hook that
    stands for several runs (see [reportStanding]) appears once for each
    run. *)
Definition faceSamples (samples : list (Z * Detection)) : list (Z * Event) :=
  (λ '(now, d), (now, faceSample d)) <$> samples.

(** ** A database for the sample data

    The reading of uuid texts of PostgreSQL: sixteen bytes of two
    hexadecimal digits each, in either case, an optional hyphen after every
    second byte, the whole optionally in braces; printed in lower case in
    the groups 8-4-4-4-12. *)
Definition lowerHex (c : ascii) : option ascii :=
  let n := nat_of_ascii c in
  if ((48 <=? n) && (n <=? 57))%nat then Some c
  else if ((97 <=? n) && (n <=? 102))%nat then Some c
  else if ((65 <=? n) && (n <=? 70))%nat then Some (ascii_of_nat (n + 32))
  else None.

Fixpoint uuidBytes (bytes i : nat) (src : string) : option (list ascii * string) :=
  match bytes with
  | O => Some ([], src)
  | S bytes =>
      match src with
      | String a (String b rest) =>
          a ← lowerHex a;
          b ← lowerHex b;
          let rest :=
            match rest with
            | String c rest' =>
                if Ascii.eqb c "-"%char && Nat.odd i && (i <? 15)%nat then rest' else rest
            | EmptyString => rest
            end in
          '(digits, rest) ← uuidBytes bytes (S i) rest;
          Some (a :: b :: digits, rest)
      | _ => None
      end
  end.

Definition printUuid (digits : list ascii) : string :=
  let text l := String.string_of_list_ascii l in
  text (take 8 digits) +:+ "-" +:+ text (take 4 (drop 8 digits)) +:+ "-"
  +:+ text (take 4 (drop 12 digits)) +:+ "-" +:+ text (take 4 (drop 16 digits))
  +:+ "-" +:+ text (drop 20 digits).

Definition postgresUuidIn (source : string) : option string :=
  let '(braces, src) :=
    match source with
    | String c rest => if Ascii.eqb c "{"%char then (true, rest) else (false, source)
    | EmptyString => (false, source)
    end in
  '(digits, rest) ← uuidBytes 16 0 src;
  rest ← (if braces : bool then
            match rest with
            | String c rest => if Ascii.eqb c "}"%char then Some rest else None
            | EmptyString => None
            end
          else Some rest);
  match rest with
  | EmptyString => Some (printUuid digits)
  | String _ _ => None
  end.

Definition postgresql : Postgres := {| uuid_in := postgresUuidIn |}.

(** The schemas for the sample data: a uuid is a text of hexadecimal digits
    in the groups 8-4-4-4-12, an integer is a number in the range of an
    [integer] column. *)
Definition uuidPattern (text : string) : bool :=
  let cs := String.list_ascii_of_string text in
  bool_decide (length cs = 36%nat)
  && forallb (λ ic : nat * ascii,
                if bool_decide (ic.1 ∈ [8; 13; 18; 23]%nat) then Ascii.eqb ic.2 "-"%char
                else bool_decide (is_Some (lowerHex ic.2)))
             (imap pair cs).

Definition schemas : Zod := {| zodUuid := uuidPattern; zodInteger := int4 |}.

(** ** A sample exam

    One hall ticket, its student, a session of two questions and ten
    seconds, as in the scenarios of the specification. *)

Definition demoTicketId : string := "0a11c0de-0000-4000-8000-000000000001".
Definition demoSessionId : string := "5e551000-0000-4000-8000-000000000001".
Definition otherSessionId : string := "5e551000-0000-4000-8000-000000000002".
Definition q1Id : string := "00000000-0000-4000-8000-0000000000a1".
Definition q2Id : string := "00000000-0000-4000-8000-0000000000a2".

Definition demoTicket : HallTicket.t :=
  HallTicket.mk demoTicketId "HT2025A1B2C3D4" "Physics" 180 2 "R42" "Asha Rao"
                "asha@example.org" true.

Definition demoStudent : User.t :=
  User.mk "student_R42" (Some "asha@example.org") (Some "Asha") (Some "Rao") None
          "student" (Some 0) (Some 0).

Definition demoSession : ExamSession.t :=
  ExamSession.mk demoSessionId demoTicketId "student_R42" "in_progress" (Some 0) None
                 (Some 1) (Some ∅) (Some [q1Id; q2Id]) (Some 10) (Some false) None
                 (Some 0) (Some 0).

Definition q1 : Question.t :=
  Question.mk q1Id "Physics" "Unit of force?" ["newton"; "joule"; "watt"; "pascal"]
              "A" "multiple_choice" (Some "easy") "Physics" "Mechanics" 1.

Definition q2 : Question.t :=
  Question.mk q2Id "Physics" "Unit of energy?" ["newton"; "joule"; "watt"; "pascal"]
              "B" "multiple_choice" (Some "easy") "Physics" "Mechanics" 1.

Definition demoAdmin : User.t :=
  User.mk "admin-1" (Some "admin@example.org") (Some "Ada") None None "admin"
          (Some 0) (Some 0).

Definition demoStore : Store :=
  mkStore {[ "student_R42" := demoStudent; "admin-1" := demoAdmin ]}
          {[ demoTicketId := demoTicket ]}
          {[ demoSessionId := demoSession ]} [] [q1; q2].

Definition demoHallTicketData : HallTicketData :=
  mkHallTicketData demoTicketId "Asha Rao" "R42" 180.

(** The component with the session created, the camera on and the questions
    fetched. *)
Definition demoExam : ExamMode :=
  setQuestionList (Some [toSessionQuestion q1; toSessionQuestion q2])
    (onSessionCreated None (Some demoHallTicketData) demoSession true true).

Definition away : Detection := mkDetection true false true (9 # 10).
Definition facing : Detection := mkDetection true false false (9 # 10).
Definition crowded : Detection := mkDetection true true false (9 # 10).

(** A random source that leaves every order as it is. *)
Definition firstQuestions : Random :=
  mkRandom (λ qs, qs) (λ qs, qs) (λ qs, Permutation_refl qs) (λ qs, Permutation_refl qs).

(** The stored row of a session after a submission request at [env] with
    [answers]. *)
Definition submittedRow (env : Env) (answers : Field Answers) (row : ExamSession.t)
    : ExamSession.t :=
  storage.applyUpdates env
    (SessionUpdates.mk answers (Some "submitted") (Some (now env))) row.


(** The request of the exam page that starts the sample exam. *)
Definition startExam : CreateSessionBody.t :=
  CreateSessionBody.mk demoTicketId (value "in_progress") (value (Some 0)) absent
    (value 1) (value ∅) (value 10800) absent absent.

(** The request of the looking-away branch above count 3. *)
Definition lookingAwayReport : IncidentBody.t :=
  IncidentBody.mk (Some demoSessionId) (Some "looking_away") (Some "medium")
                  (Some "Student looking away (occurrence 4)") None.

(** The same report as a [face_violation] message. *)
Definition lookingAwayMessage : ClientMessage :=
  violation face_violation
    (ViolationData.mk (Some demoSessionId) (Some "student_R42") (Some "Asha Rao")
       (Some "R42") (Some "looking_away") (Some "medium")
       (Some "Student looking away (occurrence 4)") None).

Definition studentConnection : WebSocketClient :=
  mkClient (Some demoSessionId) (Some "student_R42") (Some "student").

(** Requests to the incident endpoint, one per clock reading and fresh
    uuid. *)
Fixpoint postIncidents `{pg : !Postgres} `{zod : !Zod} (st : Store) (token : option string)
    (body : IncidentRequest.t) (envs : list Env) : Store :=
  match envs with
  | [] => st
  | env :: rest =>
      postIncidents (postSecurityIncidents env st token body).1.1 token body rest
  end.

(** Messages of one connection, one per clock reading and fresh uuid. *)
Fixpoint sendMessages `{pg : !Postgres} (ws : WebSocketClient) (db : Database)
    (m : ClientMessage) (envs : list Env) : Database :=
  match envs with
  | [] => db
  | env :: rest => sendMessages ws (onMessage env ws db m).1.2 m rest
  end.

(** An incident created in the window of 60000 ms that ends at [t]. *)
Definition createdWithin (t : Z) (i : SecurityIncident.t) : bool :=
  match SecurityIncident.createdAt i with
  | Some c => (t - 60000 <? c) && (c <=? t)
  | None => false
  end.

(** The incidents of a session and type created in the window of 60000 ms
    that ends at [t]. *)
Definition inWindow (st : Store) (sessionId incidentType : string) (t : Z)
    : list SecurityIncident.t :=
  filter (λ i, SecurityIncident.sessionId i = sessionId ∧
               SecurityIncident.incidentType i = incidentType ∧
               createdWithin t i = true)
         (securityIncidents st).

(** The bound of the rate limit: at most three incidents of a session and
    type in any window. *)
Definition rateLimited (st : Store) : Prop :=
  ∀ sessionId incidentType t,
    (length (inWindow st sessionId incidentType t) ≤ 3)%nat.

(** Four requests, one second apart. *)
Definition fourSeconds : list Env :=
  [ mkEnv 1000 "1c1de000-0000-4000-8000-000000000001";
    mkEnv 2000 "1c1de000-0000-4000-8000-000000000002";
    mkEnv 3000 "1c1de000-0000-4000-8000-000000000003";
    mkEnv 4000 "1c1de000-0000-4000-8000-000000000004" ].

(** The sample exam after a first violation, the resume and a second
    violation. *)
Definition twoViolations : ExamMode :=
  (run demoExam [(1000, blur); (2000, resumeClick); (3000, visibilitychange true)]).1.

(** The sample store with the correct answers of the bank changed. *)
Definition otherAnswers : Store :=
  mkStore (users demoStore) (hallTickets demoStore) (examSessions demoStore) []
    [ Question.mk q1Id "Physics" "Unit of force?" ["newton"; "joule"; "watt"; "pascal"]
                  "D" "multiple_choice" (Some "easy") "Physics" "Mechanics" 1;
      Question.mk q2Id "Physics" "Unit of energy?" ["newton"; "joule"; "watt"; "pascal"]
                  "C" "multiple_choice" (Some "easy") "Physics" "Mechanics" 1 ].

(** The sample store once the session has been submitted at 5000. *)
Definition submittedStore : Store :=
  (postSubmit (pg := postgresql) (mkEnv 5000 "") demoStore demoSessionId
     (value {[ 1 := "B"; 2 := "C" ]})).1.





Definition demoIncidentId : string := "1c1de000-0000-4000-8000-0000000000f1".

Definition demoIncident : SecurityIncident.t :=
  SecurityIncident.mk demoIncidentId demoSessionId "tab_switch" "medium"
    "Tab switched or window minimized" None None (Some false) None None (Some 1000).

(** A second session of the sample student, listing the same questions in
    another order and one of them twice. *)
Definition reorderedSession : ExamSession.t :=
  ExamSession.mk otherSessionId demoTicketId "student_R42" "in_progress" (Some 0) None
                 (Some 1) (Some ∅) (Some [q2Id; q1Id; q2Id]) (Some 10) (Some false) None
                 (Some 0) (Some 0).

(** The sample store with a second session and an incident. *)
Definition adminStore : Store :=
  mkStore (users demoStore) (hallTickets demoStore)
          {[ demoSessionId := demoSession; otherSessionId := reorderedSession ]}
          [demoIncident] [q1; q2].

Definition demoDatabase : Database :=
  mkDatabase adminStore
    [MonitoringLog.mk "10900000-0000-4000-8000-000000000001" demoSessionId
       "face_detected" None (Some 900)]
    {[ demoTicketId := "HT2025A1B2C3D4|R42" ]}.

(** The sample hall ticket before the student has started. *)
Definition beforeStart : Store :=
  mkStore ∅ {[ demoTicketId := demoTicket ]} ∅ [] [q1; q2].

(** A tab switch reported over the socket. *)
Definition tabSwitchReport : ViolationData.t :=
  ViolationData.mk (Some demoSessionId) (Some "student_R42") (Some "Asha Rao")
    (Some "R42") (Some "tab_switch") (Some "medium")
    (Some "Tab switched or window minimized") None.

(** The component with the session created and the questions not yet
    fetched. *)
Definition loadingExam : ExamMode :=
  onSessionCreated None (Some demoHallTicketData) demoSession true true.

(** ** Referential integrity of the tables *)

(** Every incident belongs to a stored session. *)
Definition incidentsHaveSessions (st : Store) : Prop :=
  ∀ i, i ∈ securityIncidents st →
       is_Some (examSessions st !! SecurityIncident.sessionId i).

(** Every session belongs to a stored hall ticket. *)
Definition sessionsHaveTickets (st : Store) : Prop :=
  ∀ k s, examSessions st !! k = Some s →
         is_Some (hallTickets st !! ExamSession.hallTicketId s).

(** Every log entry belongs to a stored session. *)
Definition logsHaveSessions (db : Database) : Prop :=
  ∀ l, l ∈ monitoringLogs db →
       is_Some (examSessions (tables db) !! MonitoringLog.sessionId l).

(** The table of the sessions is keyed by its primary key: a row is stored
    under its own [id]. *)
Definition sessionsKeyedById (st : Store) : Prop :=
  ∀ k s, examSessions st !! k = Some s → ExamSession.id s = k.

(** ** Observations on runs of the [ExamMode] machine *)

(** The qualifying browser events of a run. *)
Definition qualifyingEvents (evs : list (Z * Event)) : list (Z * Event) :=
  List.filter (λ '(_, ev), qualifies ev) evs.

(** The last answer a run selects for a question, if it selects any. *)
Fixpoint lastAnswer (questionIndex : Z) (evs : list (Z * Event)) : option string :=
  match evs with
  | [] => None
  | (_, ev) :: rest =>
      match lastAnswer questionIndex rest with
      | Some a => Some a
      | None =>
          match ev with
          | answerChange q a => if bool_decide (q = questionIndex) then Some a else None
          | _ => None
          end
      end
  end.

(** Firings of the countdown's interval, one per clock reading. *)
Definition ticks (clock : list Z) : list (Z * Event) :=
  (λ t, (t, interval)) <$> clock.

Definition isQuestionsFetched (ev : Event) : bool :=
  match ev with
  | questionsFetched _ => true
  | _ => false
  end.

(** The incident type a qualifying browser event is reported under. *)
Definition violationKind (ev : Event) : string :=
  match ev with
  | fullscreenchange _ => "fullscreen_exit"
  | visibilitychange _ => "tab_switch"
  | blur => "window_blur"
  | _ => "key_violation"
  end.

(** An event that keeps the question pointer inside a bank of [len]
    questions when it is there: anything but a new fetch, and a question
    button only for a question that exists. *)
Definition pointsInside (len : Z) (ev : Event) : Prop :=
  match ev with
  | questionsFetched _ => False
  | selectQuestion n => 1 ≤ n ≤ len
  | _ => True
  end.

(** The violation reports among what a handler sends over the socket. *)
Definition violationReport (e : Effect) : option ViolationData.t :=
  match e with
  | sendMessage (violation _ d) => Some d
  | _ => None
  end.

Definition violationReports (out : list Effect) : list ViolationData.t :=
  omap violationReport out.

(** ** The [useFaceDetection] hook *)

(** The state of the hook: the detection it reports and the counter of
    consecutive frames looking away. *)
Record FaceDetection := mkFaceDetection {
  detection : Detection;
  lookAwayCounter : Z
}.

Definition lookAwayThreshold : Z := 5.

(** The state before the first frame and after [cleanupDetection]. *)
Definition noDetection : FaceDetection :=
  mkFaceDetection (mkDetection false false false 0) 0.

(** The thresholds of [simulateFaceDetection], as the values of the
    floating-point literals [0.1], [0.9] and [0.95]. *)
Definition literal_0_1 : Q := 3602879701896397 # 36028797018963968.
Definition literal_0_9 : Q := 8106479329266893 # 9007199254740992.
Definition literal_0_95 : Q := 4278419646001971 # 4503599627370496.

(** [random > c] *)
Definition exceeds (random c : Q) : bool := negb (Qle_bool random c).

(** [simulateFaceDetection], for the value [random] of [Math.random()];
    [confidence] stands for the value of [0.7 + Math.random() * 0.3]. *)
Definition simulateFaceDetection (random confidence : Q) : Detection :=
  let faceDetected := exceeds random literal_0_1 in
  let multipleFaces := faceDetected && exceeds random literal_0_95 in
  let lookingAway := faceDetected && negb multipleFaces && exceeds random literal_0_9 in
  mkDetection faceDetected multipleFaces lookingAway
              (if faceDetected then confidence else 0).

(** [detectFaces] on one frame: the detection the hook holds once it has
    run.  Nothing happens while the video is not ready. *)
Definition detectFaces (videoReady : bool) (mockDetection : Detection)
    (h : FaceDetection) : FaceDetection :=
  if negb videoReady then h
  else
    let counter := if lookingAway mockDetection then lookAwayCounter h + 1 else 0 in
    let isLookingAway := lookAwayThreshold <=? counter in
    mkFaceDetection
      (mkDetection (faceDetected mockDetection) (multipleFaces mockDetection)
                   isLookingAway (confidence mockDetection))
      counter.

(** The hook after a stream of frames, from its initial state. *)
Definition detectStream (frames : list Detection) : FaceDetection :=
  foldl (λ h mock, detectFaces true mock h) noDetection frames.

(** ** The incident page: [getIncidentStats] *)

Record IncidentStats := mkIncidentStats {
  critical : Z;
  high : Z;
  medium : Z;
  low : Z;
  resolved : Z
}.

(** The reducer of [getIncidentStats]. *)
Definition countIncident (stats : IncidentStats) (incident : SecurityIncident.t)
    : IncidentStats :=
  if default false (SecurityIncident.isResolved incident) then
    mkIncidentStats (critical stats) (high stats) (medium stats) (low stats)
                    (resolved stats + 1)
  else if bool_decide (SecurityIncident.severity incident = "critical") then
    mkIncidentStats (critical stats + 1) (high stats) (medium stats) (low stats)
                    (resolved stats)
  else if bool_decide (SecurityIncident.severity incident = "high") then
    mkIncidentStats (critical stats) (high stats + 1) (medium stats) (low stats)
                    (resolved stats)
  else if bool_decide (SecurityIncident.severity incident = "medium") then
    mkIncidentStats (critical stats) (high stats) (medium stats + 1) (low stats)
                    (resolved stats)
  else if bool_decide (SecurityIncident.severity incident = "low") then
    mkIncidentStats (critical stats) (high stats) (medium stats) (low stats + 1)
                    (resolved stats)
  else stats.

Definition getIncidentStats (incidents : list SecurityIncident.t) : IncidentStats :=
  foldl countIncident (mkIncidentStats 0 0 0 0 0) incidents.

(** An unresolved incident whose severity is none of the four the page
    knows. *)
Definition uncounted (incident : SecurityIncident.t) : bool :=
  negb (default false (SecurityIncident.isResolved incident))
  && negb (bool_decide (SecurityIncident.severity incident
                          ∈ ["critical"; "high"; "medium"; "low"])).

(** * Properties *)

(** ** The violation policy *)

(** What [handleSecurityViolation] does to the cells the policy and the
    countdown read. *)
Lemma handleSecurityViolation_no_session now s vt desc sev :
  examSession s = None → handleSecurityViolation now s vt desc sev = (s, []).
Proof. intros H. unfold handleSecurityViolation. by rewrite H. Qed.

Ltac policy_cases :=
  repeat match goal with
  | |- context [?a =? ?b] => destruct (Z.eqb_spec a b)
  | |- context [?a <=? ?b] => destruct (Z.leb_spec a b)
  | |- context [?a <? ?b] => destruct (Z.ltb_spec a b)
  end.

Lemma handleSecurityViolation_state now s vt desc sev session :
  examSession s = Some session →
  let s' := (handleSecurityViolation now s vt desc sev).1 in
  violationCount s' = violationCount s + 1 ∧
  isPaused s' = (if violationCount s =? 0 then true else isPaused s) ∧
  timeRemaining s' = timeRemaining s ∧
  examSession s' = examSession s ∧
  questionList s' = questionList s ∧
  lookAwayCount s' = lookAwayCount s ∧
  multipleFaceCount s' = multipleFaceCount s.
Proof.
  intros H. unfold handleSecurityViolation. rewrite H.
  policy_cases; simpl; repeat split; try done; lia.
Qed.

Lemma handleSecurityViolation_policy now s vt desc sev session :
  examSession s = Some session →
  List.filter isPolicyEffect (handleSecurityViolation now s vt desc sev).2 =
    if violationCount s =? 0 then
      [sendMessage (policy_update_msg
         (PolicyData.mk (Some (ExamSession.id session)) (user s) (studentName s)
            (rollNumber s) (Some "paused") vt 1 now))]
    else if 2 <=? violationCount s then
      [sendMessage (policy_update_msg
         (PolicyData.mk (Some (ExamSession.id session)) (user s) (studentName s)
            (rollNumber s) (Some "auto_submitted") vt (violationCount s + 1) now));
       setTimeout autoSubmit 2000]
    else [].
Proof.
  intros H. unfold handleSecurityViolation. rewrite H.
  policy_cases; simpl; try done; try lia.
  all: by replace (violationCount s + 1) with 1 by lia.
Qed.

Lemma handleSecurityViolation_policyStep now s vt desc sev session :
  examSession s = Some session →
  policyStep s (handleSecurityViolation now s vt desc sev).1.
Proof.
  intros H. destruct (handleSecurityViolation_state now s vt desc sev session H)
    as (? & ? & ? & ? & ? & _).
  by repeat split.
Qed.

Lemma handleSecurityViolation_autoSubmit now s vt desc sev session :
  examSession s = Some session →
  List.filter isAutoSubmitTimer (handleSecurityViolation now s vt desc sev).2 =
    if 2 <=? violationCount s then [setTimeout autoSubmit 2000] else [].
Proof.
  intros H. unfold handleSecurityViolation. rewrite H.
  policy_cases; simpl; try done; lia.
Qed.

Lemma handleSecurityViolation_submissions now s vt desc sev :
  submissions (handleSecurityViolation now s vt desc sev).2 = [].
Proof.
  unfold handleSecurityViolation. destruct (examSession s); [|done].
  policy_cases; done.
Qed.

Lemma step_qualifies now s ev session :
  qualifies ev = true → examSession s = Some session →
  policyStep s (step now s ev).1 ∧
  List.filter isAutoSubmitTimer (step now s ev).2 =
    (if 2 <=? violationCount s then [setTimeout autoSubmit 2000] else []) ∧
  submissions (step now s ev).2 = [].
Proof.
  intros Hq Hs. destruct ev as [[]|[]| |e|e|e| | | | | | | | | |]; simpl in Hq; try done; simpl.
  - unfold handleFullscreenChange.
    pose proof (handleSecurityViolation_policyStep now (setIsFullscreen false s)
      "fullscreen_exit" "Student exited fullscreen mode" "medium" session Hs) as HP.
    pose proof (handleSecurityViolation_autoSubmit now (setIsFullscreen false s)
      "fullscreen_exit" "Student exited fullscreen mode" "medium" session Hs) as HA.
    pose proof (handleSecurityViolation_submissions now (setIsFullscreen false s)
      "fullscreen_exit" "Student exited fullscreen mode" "medium") as HS.
    destruct (handleSecurityViolation _ _ _ _ _) as [s2 out]. simpl in *.
    unfold submissions in *. rewrite !List.filter_app, HA, HS. simpl.
    by rewrite !app_nil_r.
  - unfold handleVisibilityChange.
    eauto using handleSecurityViolation_policyStep, handleSecurityViolation_autoSubmit,
      handleSecurityViolation_submissions.
  - unfold handleWindowBlur.
    eauto using handleSecurityViolation_policyStep, handleSecurityViolation_autoSubmit,
      handleSecurityViolation_submissions.
  - unfold handleKeyDown, blockEscKey. destruct (isEscape e); simpl in *.
    + eauto using handleSecurityViolation_policyStep, handleSecurityViolation_autoSubmit,
        handleSecurityViolation_submissions.
    + rewrite Hq.
      eauto using handleSecurityViolation_policyStep, handleSecurityViolation_autoSubmit,
        handleSecurityViolation_submissions.
  - unfold handleKeyUp, blockEscKey. rewrite Hq. simpl.
    eauto using handleSecurityViolation_policyStep, handleSecurityViolation_autoSubmit,
      handleSecurityViolation_submissions.
  - unfold handleKeyUp, blockEscKey. rewrite Hq. simpl.
    eauto using handleSecurityViolation_policyStep, handleSecurityViolation_autoSubmit,
      handleSecurityViolation_submissions.
Qed.

(** ** Face monitoring *)

Ltac monitoring_cases s d :=
  unfold handleMonitoring, classify, statusUpdate;
  destruct (examSession s) eqn:?; [|simpl];
  [destruct (cameraActive s) eqn:?; simpl;
   [destruct (multipleFaces d) eqn:?, (lookingAway d) eqn:?, (faceDetected d) eqn:?;
    simpl; policy_cases; simpl|]|].

(** A run of the monitoring effect leaves the cells of the policy and of the
    countdown alone and emits no policy effect. *)
Lemma handleMonitoring_policy now s d :
  let r := handleMonitoring now s d in
  violationCount r.1 = violationCount s ∧
  isPaused r.1 = isPaused s ∧
  timeRemaining r.1 = timeRemaining s ∧
  examSession r.1 = examSession s ∧
  questionList r.1 = questionList s ∧
  cameraActive r.1 = cameraActive s ∧
  policyEffects r.2 = [].
Proof. monitoring_cases s d; by repeat split. Qed.

Lemma run_faceSamples_policy samples : ∀ s,
  let r := run s (faceSamples samples) in
  violationCount r.1 = violationCount s ∧
  isPaused r.1 = isPaused s ∧
  timeRemaining r.1 = timeRemaining s ∧
  examSession r.1 = examSession s ∧
  questionList r.1 = questionList s ∧
  cameraActive r.1 = cameraActive s ∧
  policyEffects r.2 = [].
Proof.
  induction samples as [|[now d] samples IH]; intros s; [done|].
  simpl. pose proof (handleMonitoring_policy now s d) as H.
  destruct (handleMonitoring now s d) as [s1 out1]. simpl in H.
  specialize (IH s1). destruct (run s1 (faceSamples samples)) as [s2 out2].
  simpl in *. unfold policyEffects in *. rewrite List.filter_app.
  destruct IH as (-> & -> & -> & -> & -> & -> & ->).
  destruct H as (-> & -> & -> & -> & -> & -> & ->). done.
Qed.

(** ** Events that are no violation *)

Lemma policyEffects_nil out :
  policyEffects out = [] →
  List.filter isAutoSubmitTimer out = [] ∧ submissions out = [].
Proof.
  unfold policyEffects, submissions.
  induction out as [|x l IH]; [done|]. simpl.
  destruct x as [m|a ms| | | |]; simpl; try done.
  - destruct m; by simpl.
  - destruct a; by simpl.
Qed.

Lemma submitExam_no_timer s : List.filter isAutoSubmitTimer (submitExam s) = [].
Proof. unfold submitExam. by destruct (examSession s). Qed.

Lemma step_no_violation now s ev :
  qualifies ev = false ∨ examSession s = None →
  violationCount (step now s ev).1 = violationCount s ∧
  (isPaused (step now s ev).1 = isPaused s ∨ isPaused (step now s ev).1 = false) ∧
  List.filter isAutoSubmitTimer (step now s ev).2 = [].
Proof.
  intros H.
  destruct ev as [b|h| |e|e|e| | | |d|a|q a|dir|qs|n| ]; simpl;
    unfold handleFullscreenChange, handleVisibilityChange, handleWindowBlur,
      handleKeyDown, handleKeyUp, blockEscKey, resumeExam, timerTick, fire.
  - destruct b; [by auto|]. destruct H as [H|H]; [done|].
    rewrite handleSecurityViolation_no_session by done. by auto.
  - destruct h; [|by auto]. destruct H as [H|H]; [done|].
    rewrite handleSecurityViolation_no_session by done. by auto.
  - destruct H as [H|H]; [done|].
    rewrite handleSecurityViolation_no_session by done. by auto.
  - destruct H as [H|H].
    + simpl in H. destruct (isEscape e); [done|]. simpl in *. rewrite H. by auto.
    + rewrite !handleSecurityViolation_no_session by done.
      destruct (isEscape e); simpl; [by auto|]. destruct (_ || _); by auto.
  - destruct H as [H|H].
    + simpl in H. rewrite H. simpl. by auto.
    + rewrite !handleSecurityViolation_no_session by done.
      destruct (isEscape e); simpl; by auto.
  - destruct H as [H|H].
    + simpl in H. rewrite H. simpl. by auto.
    + rewrite !handleSecurityViolation_no_session by done.
      destruct (isEscape e); simpl; by auto.
  - simpl. split; [done|]. split; [by right|]. by destruct (isFullscreen s).
  - simpl. rewrite submitExam_no_timer. by auto.
  - destruct (timerRunning s); [|by auto].
    destruct (timeRemaining s <=? 1); simpl; [|by auto].
    rewrite submitExam_no_timer. by auto.
  - pose proof (handleMonitoring_policy now s d) as (Hv & Hp & _ & _ & _ & _ & Hpol).
    split; [done|]. split; [by left|].
    by apply policyEffects_nil.
  - destruct a; simpl; [by auto| |].
    + rewrite submitExam_no_timer. by auto.
    + destruct (_ && _); simpl; by auto.
  - by auto.
  - unfold handleNavigate. destruct dir;
      repeat match goal with |- context [if ?b then _ else _] => destruct b end;
      simpl; by auto.
  - by auto.
  - by auto.
  - by auto.
Qed.

(** ** Pause and auto-submit *)



(** C5.  When the browser violation counter stands at 2, the next browser
    violation of any kind, after any face samples, takes it to 3 and
    schedules the auto-submit 2000 ms later, once; that timer posts the
    submission of the session, and the submit endpoint, when the database
    reads the id of the session as the uuid of a stored session, answers
    200 and leaves the session with status ["submitted"]. *)
Theorem third_browser_violation_auto_submits `{pg : !Postgres}
    (now : Z) (s : ExamMode) (session : ExamSession.t)
    (samples : list (Z * Detection)) (ev : Event) :
  examSession s = Some session →
  violationCount s = 2 →
  qualifies ev = true →
  let s0 := (run s (faceSamples samples)).1 in
  violationCount (step now s0 ev).1 = 3 ∧
  List.filter isAutoSubmitTimer (step now s0 ev).2 = [setTimeout autoSubmit 2000] ∧
  (∀ s1, examSession s1 = Some session →
     fire s1 autoSubmit = (s1, [apiPostSubmit (ExamSession.id session) (answers s1)])) ∧
  (∀ env st (a : Field Answers) id,
     uuid_in (ExamSession.id session) = Some id →
     is_Some (examSessions st !! id) →
     code (postSubmit env st (ExamSession.id session) a).2 = 200 ∧
     ExamSession.status <$>
       examSessions (postSubmit env st (ExamSession.id session) a).1 !! id
       = Some "submitted").
Proof.
  intros Hs Hv Hq s0.
  pose proof (run_faceSamples_policy samples s) as (Hv0 & _ & _ & Hs0 & _).
  fold s0 in Hv0, Hs0. rewrite Hs in Hs0. rewrite Hv in Hv0.
  destruct (step_qualifies now s0 ev session Hq Hs0) as ((Hv1 & _) & Hauto & _).
  rewrite Hv1, Hauto, Hv0. split; [done|]. split; [done|]. split.
  - intros s1 H1. unfold fire, submitExam. by rewrite H1.
  - intros env st a id Hid [row Hrow]. unfold postSubmit, storage.getExamSession,
      storage.updateExamSession, asUuid. rewrite Hid. simpl. rewrite Hrow. simpl.
    by rewrite lookup_insert_eq.
Qed.

Lemma third_browser_violation_auto_submits_witness :
  examSession twoViolations = Some demoSession ∧
  violationCount twoViolations = 2 ∧
  qualifies (fullscreenchange false) = true ∧
  let s0 := (run twoViolations (faceSamples [(3500, crowded); (3600, away)])).1 in
  violationCount (step 4000 s0 (fullscreenchange false)).1 = 3 ∧
  List.filter isAutoSubmitTimer (step 4000 s0 (fullscreenchange false)).2 =
    [setTimeout autoSubmit 2000].
Proof.
  split; [reflexivity|]. split; [reflexivity|]. split; [reflexivity|].
  pose proof (third_browser_violation_auto_submits (pg := postgresql) 4000 twoViolations
                demoSession [(3500, crowded); (3600, away)] (fullscreenchange false)
                eq_refl eq_refl eq_refl) as (H3 & Hauto & _).
  split; [exact H3 | exact Hauto].
Defined.

(** C8.  Face samples alone, however many and whatever they report, leave
    the paused flag and the browser violation counter as they are and emit
    no submission, no scheduled auto-submit and no policy update; and the
    next browser violation pauses or schedules the auto-submit exactly as it
    would have without them. *)
Theorem face_samples_never_pause_or_submit
    (s : ExamMode) (samples : list (Z * Detection)) :
  let s' := (run s (faceSamples samples)).1 in
  isPaused s' = isPaused s ∧
  violationCount s' = violationCount s ∧
  policyEffects (run s (faceSamples samples)).2 = [] ∧
  (∀ now ev session, qualifies ev = true → examSession s = Some session →
     isPaused (step now s' ev).1 = isPaused (step now s ev).1 ∧
     violationCount (step now s' ev).1 = violationCount (step now s ev).1 ∧
     List.filter isAutoSubmitTimer (step now s' ev).2 =
       List.filter isAutoSubmitTimer (step now s ev).2).
Proof.
  intros s'.
  pose proof (run_faceSamples_policy samples s) as (Hv & Hp & _ & Hs & _ & _ & Hpol).
  fold s' in Hv, Hp, Hs.
  split; [done|]. split; [done|]. split; [done|].
  intros t ev session Hq Hsess. rewrite Hsess in Hs.
  destruct (step_qualifies t s ev session Hq Hsess) as ((Hv1 & Hp1 & _) & Ha1 & _).
  destruct (step_qualifies t s' ev session Hq Hs) as ((Hv2 & Hp2 & _) & Ha2 & _).
  by rewrite Hv1, Hv2, Hp1, Hp2, Ha1, Ha2, Hv, Hp.
Qed.

(** ** The face classifier *)

(** C7.  A run of the monitoring effect on a detection with
    [multipleFaces] increments [multipleFaceCount] and emits exactly one
    violation event, a [face_violation] message of type ["multiple_faces"]
    and severity ["critical"], whatever the counters are. *)
Theorem multiple_faces_always_critical
    (now : Z) (s : ExamMode) (session : ExamSession.t) (d : Detection) :
  examSession s = Some session →
  cameraActive s = true →
  multipleFaces d = true →
  multipleFaceCount (handleMonitoring now s d).1 = multipleFaceCount s + 1 ∧
  violationEvents (handleMonitoring now s d).2 =
    [(Some "multiple_faces", Some "critical")] ∧
  head (handleMonitoring now s d).2 =
    Some (handleFaceViolation now s session d "multiple_faces"
            ("Multiple faces detected (occurrence "
               +:+ pretty (multipleFaceCount s + 1) +:+ ")") "critical").
Proof.
  intros Hs Hc Hm. unfold handleMonitoring, classify, statusUpdate.
  rewrite Hs, Hc, Hm. simpl.
  by destruct (faceDetected d && (10000 <? now - lastSnapshotTime s)).
Qed.

Lemma multiple_faces_always_critical_witness :
  examSession demoExam = Some demoSession ∧
  cameraActive demoExam = true ∧
  multipleFaces crowded = true ∧
  multipleFaceCount (handleMonitoring 1000 demoExam crowded).1 = multipleFaceCount demoExam + 1 ∧
  violationEvents (handleMonitoring 1000 demoExam crowded).2 =
    [(Some "multiple_faces", Some "critical")].
Proof.
  split; [reflexivity|]. split; [reflexivity|]. split; [reflexivity|].
  pose proof (multiple_faces_always_critical 1000 demoExam demoSession crowded
                eq_refl eq_refl eq_refl) as (Hc & Hev & _).
  split; [exact Hc | exact Hev].
Defined.

(** One run of the monitoring effect on a detection without multiple
    faces, with the streak counter not negative: a run on a looking-away
    detection increments the counter, and it emits no violation event at
    counts 1 and 2 (and shows the warning banner at count 1), one event
    ["looking_away_repeated"] of severity ["high"] at count 3, and one event
    ["looking_away"] of severity ["medium"] at every count above 3; a run on
    a detection with a face and not looking away resets the counter to 0 and
    emits no violation event. *)
Lemma looking_away_run
    (now : Z) (s : ExamMode) (session : ExamSession.t) (d : Detection) :
  examSession s = Some session →
  cameraActive s = true →
  0 ≤ lookAwayCount s →
  multipleFaces d = false →
  (lookingAway d = true →
     lookAwayCount (handleMonitoring now s d).1 = lookAwayCount s + 1 ∧
     violationEvents (handleMonitoring now s d).2 =
       (if lookAwayCount s + 1 =? 3
        then [(Some "looking_away_repeated", Some "high")]
        else if 3 <? lookAwayCount s + 1
        then [(Some "looking_away", Some "medium")]
        else []) ∧
     (lookAwayCount s = 0 → showWarning (handleMonitoring now s d).1 = true)) ∧
  (lookingAway d = false → faceDetected d = true →
     lookAwayCount (handleMonitoring now s d).1 = 0 ∧
     violationEvents (handleMonitoring now s d).2 = []).
Proof.
  intros Hs Hc Hn Hm. unfold handleMonitoring, classify, statusUpdate.
  rewrite Hs, Hc, Hm. simpl. split.
  - intros ->.
    destruct (faceDetected d && (10000 <? now - lastSnapshotTime s));
      policy_cases; simpl; repeat split; try done; lia.
  - intros -> ->. simpl.
    destruct (10000 <? now - lastSnapshotTime s); policy_cases; simpl; split; try done; lia.
Qed.

(** A looking-away report never settles: every run of the effect on it
    changes [lookAwayCount], a dependency of the effect, so the effect runs
    again after every render for which the report stands, and each run
    counts as one more detection. *)
Lemma looking_away_report_never_settles (renders : list Z) :
  ∀ (now : Z) (s : ExamMode) (session : ExamSession.t) (d : Detection),
  examSession s = Some session →
  cameraActive s = true →
  multipleFaces d = false →
  lookingAway d = true →
  lookAwayCount (reportStanding renders now s d).1 =
    lookAwayCount s + 1 + Z.of_nat (length renders).
Proof.
  induction renders as [|later renders IH]; intros now s session d Hs Hc Hm Ha.
  - simpl. destruct (handleMonitoring now s d) as [s1 out1] eqn:E.
    change s1 with (s1, out1).1. rewrite <- E.
    unfold handleMonitoring, classify, statusUpdate. rewrite Hs, Hc, Hm, Ha. simpl.
    destruct (faceDetected d && (10000 <? now - lastSnapshotTime s));
      policy_cases; simpl; lia.
  - simpl. pose proof (handleMonitoring_policy now s d) as (_ & _ & _ & Hs1 & _ & Hc1 & _).
    assert (lookAwayCount (handleMonitoring now s d).1 = lookAwayCount s + 1) as Hcount.
    { unfold handleMonitoring, classify, statusUpdate. rewrite Hs, Hc, Hm, Ha. simpl.
      destruct (faceDetected d && (10000 <? now - lastSnapshotTime s));
        policy_cases; simpl; lia. }
    destruct (handleMonitoring now s d) as [s1 out1]. simpl in *.
    assert (monitoringAgain s s1 = true) as ->.
    { unfold monitoringAgain. rewrite Hcount.
      destruct (Z.eqb_spec (lookAwayCount s + 1) (lookAwayCount s)); [lia|done]. }
    specialize (IH later s1 session d).
    destruct (reportStanding renders later s1 d) as [s2 out2]. simpl in *.
    rewrite IH; [lia|congruence|congruence|done|done].
Qed.

(** C6, at the failing input: after a baseline report with a face, one
    single looking-away report that stands for three renders takes the
    streak counter of the sample exam from 0 to 4 and emits the
    high-severity ["looking_away_repeated"] event and a medium-severity
    ["looking_away"] event, which the claim gives to the third and the
    fourth of four consecutive samples. *)
Theorem one_looking_away_report_runs_through_the_streak :
  let baseline := (reportStanding [10; 20; 30] 0 demoExam facing).1 in
  let r := reportStanding [1010; 1020; 1030] 1000 baseline away in
  lookAwayCount baseline = 0 ∧
  lookAwayCount r.1 = 4 ∧
  violationEvents r.2 =
    [(Some "looking_away_repeated", Some "high"); (Some "looking_away", Some "medium")].
Proof. vm_compute. done. Qed.

(** ** The countdown *)

Lemma step_timeRemaining now s ev :
  ev ≠ interval → timeRemaining (step now s ev).1 = timeRemaining s.
Proof.
  intros Hne.
  destruct (qualifies ev) eqn:Hq, (examSession s) as [session|] eqn:Hs.
  - by destruct (step_qualifies now s ev session Hq Hs) as ((_ & _ & ? & _) & _).
  - destruct ev as [b|h| |e|e|e| | | |d|a|q a|dir|qs|n| ]; simpl in *; try done;
      unfold handleFullscreenChange, handleVisibilityChange, handleWindowBlur,
        handleKeyDown, handleKeyUp, blockEscKey;
      rewrite ?handleSecurityViolation_no_session by done;
      repeat match goal with |- context [if ?b then _ else _] => destruct b end; done.
  - destruct ev as [b|h| |e|e|e| | | |d|a|q a|dir|qs|n| ]; simpl in *; try done.
    + by destruct b.
    + by destruct h.
    + unfold handleKeyDown, blockEscKey. destruct (isEscape e); [done|].
      simpl in *. by rewrite Hq.
    + unfold handleKeyUp, blockEscKey. by rewrite Hq.
    + unfold handleKeyUp, blockEscKey. by rewrite Hq.
    + by destruct (handleMonitoring_policy now s d) as (_ & _ & ? & _).
    + unfold fire. destruct a; simpl; [done|done|]. by destruct (_ && _).
    + unfold handleNavigate. destruct dir;
        repeat match goal with |- context [if ?b then _ else _] => destruct b end; done.
  - destruct ev as [b|h| |e|e|e| | | |d|a|q a|dir|qs|n| ]; simpl in *; try done.
    + by destruct b.
    + by destruct h.
    + unfold handleKeyDown, blockEscKey. destruct (isEscape e); [done|].
      simpl in *. by rewrite Hq.
    + unfold handleKeyUp, blockEscKey. by rewrite Hq.
    + unfold handleKeyUp, blockEscKey. by rewrite Hq.
    + by destruct (handleMonitoring_policy now s d) as (_ & _ & ? & _).
    + unfold fire. destruct a; simpl; [done|done|]. by destruct (_ && _).
    + unfold handleNavigate. destruct dir;
        repeat match goal with |- context [if ?b then _ else _] => destruct b end; done.
Qed.

(** The interval's callback, when the countdown runs. *)
Lemma timerTick_running s :
  timerRunning s = true →
  timeRemaining (timerTick s).1 = timeRemaining s - 1 ∧
  isPaused (timerTick s).1 = isPaused s ∧
  (timeRemaining s = 1 →
   ∃ session, examSession s = Some session ∧
     (timerTick s).2 = [apiPostSubmit (ExamSession.id session) (answers s)]) ∧
  (timeRemaining s ≠ 1 → (timerTick s).2 = []).
Proof.
  intros Hrun. unfold timerTick. rewrite Hrun.
  unfold timerRunning in Hrun.
  apply andb_prop in Hrun as [Hrun _]. apply andb_prop in Hrun as [Hpos Hsess].
  apply Z.ltb_lt in Hpos. apply bool_decide_eq_true in Hsess as [session Hsess].
  destruct (Z.leb_spec (timeRemaining s) 1); simpl.
  - repeat split; try lia.
    intros _. exists session. split; [done|]. unfold submitExam. by rewrite Hsess.
  - repeat split; lia.
Qed.

Lemma timerTick_stopped s : timerRunning s = false → timerTick s = (s, []).
Proof. intros H. unfold timerTick. by rewrite H. Qed.



(** ** Rows found by a scan of a table *)

Lemma scan_Some {A} (P : A → Prop) `{!∀ x, Decision (P x)} (m : gmap string A) (x : A) :
  head (filter P (map_to_list m).*2) = Some x →
  P x ∧ ∃ k, m !! k = Some x.
Proof.
  intros Hhead. apply head_Some_elem_of in Hhead.
  apply list_elem_of_filter in Hhead as [HP Hin].
  apply list_elem_of_fmap in Hin as ([k v] & -> & Hin).
  apply elem_of_map_to_list in Hin. eauto.
Qed.

Lemma scan_None {A} (P : A → Prop) `{!∀ x, Decision (P x)} (m : gmap string A) :
  head (filter P (map_to_list m).*2) = None ↔
  ∀ k x, m !! k = Some x → ¬ P x.
Proof.
  rewrite head_None. split.
  - intros Hnil k x Hk HP.
    assert (x ∈ filter P (map_to_list m).*2) as Hin.
    { apply list_elem_of_filter. split; [done|].
      apply list_elem_of_fmap. exists (k, x). split; [done|].
      by apply elem_of_map_to_list. }
    rewrite Hnil in Hin. by apply not_elem_of_nil in Hin.
  - intros Hall. apply elem_of_nil_inv. intros x Hin.
    apply list_elem_of_filter in Hin as [HP Hin].
    apply list_elem_of_fmap in Hin as ([k v] & -> & Hin).
    apply elem_of_map_to_list in Hin. by apply (Hall k v).
Qed.

Lemma scan_insert_unique {A} (P : A → Prop) `{!∀ x, Decision (P x)}
    (m : gmap string A) (k : string) (x : A) :
  (∀ k' y, m !! k' = Some y → ¬ P y) → P x →
  head (filter P (map_to_list (<[k:=x]> m)).*2) = Some x.
Proof.
  intros Hnone HP.
  destruct (head (filter P (map_to_list (<[k:=x]> m)).*2)) as [y|] eqn:Hy.
  - apply scan_Some in Hy as (HPy & k' & Hk').
    destruct (decide (k = k')) as [<-|Hne].
    + rewrite lookup_insert_eq in Hk'. congruence.
    + rewrite lookup_insert_ne in Hk' by done. by destruct (Hnone k' y Hk').
  - exfalso. apply (proj1 (scan_None P _) Hy k x); [apply lookup_insert_eq | done].
Qed.

(** ** The session-questions endpoint *)

Lemma sessionQuestions_erase (questionIds : list string) (l : list Question.t) :
  sessionQuestions questionIds (eraseCorrectAnswer <$> l) = sessionQuestions questionIds l.
Proof.
  unfold sessionQuestions. induction l as [|q l IH]; [done|].
  rewrite fmap_cons, !filter_cons. simpl.
  destruct (decide (Question.id q ∈ questionIds)); [|exact IH].
  rewrite !fmap_cons. f_equal. exact IH.
Qed.

Lemma sessionQuestions_indistinguishable (questionIds : list string) (l1 l2 : list Question.t) :
  eraseCorrectAnswer <$> l1 = eraseCorrectAnswer <$> l2 →
  sessionQuestions questionIds l1 = sessionQuestions questionIds l2.
Proof.
  intros E.
  by rewrite <- (sessionQuestions_erase _ l1), E, sessionQuestions_erase.
Qed.

(** C10.  Two stores with the same sessions whose question banks differ only
    in the correct answers give the same response on the session-questions
    endpoint, for every session id: the response is built from [id],
    [questionText], [options], [questionType] and [marks] alone. *)
Theorem session_questions_hide_correct_answer `{pg : !Postgres}
    (st1 st2 : Store) (id : string) :
  examSessions st1 = examSessions st2 →
  eraseCorrectAnswer <$> questions st1 = eraseCorrectAnswer <$> questions st2 →
  getExamSessionQuestions st1 id = getExamSessionQuestions st2 id.
Proof.
  intros Hs Hq. unfold getExamSessionQuestions, storage.getExamSession,
    storage.getAllQuestions. rewrite Hs.
  destruct (asUuid id) as [key|]; [|done]. simpl.
  destruct (examSessions st2 !! key) as [session|]; [|done].
  destruct (ExamSession.questionIds session) as [[|q qs]|]; try done.
  do 2 f_equal. by apply sessionQuestions_indistinguishable.
Qed.

Lemma session_questions_hide_correct_answer_witness :
  examSessions demoStore = examSessions otherAnswers ∧
  eraseCorrectAnswer <$> questions demoStore =
    eraseCorrectAnswer <$> questions otherAnswers ∧
  questions demoStore ≠ questions otherAnswers ∧
  getExamSessionQuestions (pg := postgresql) demoStore demoSessionId =
    getExamSessionQuestions (pg := postgresql) otherAnswers demoSessionId ∧
  code (getExamSessionQuestions (pg := postgresql) demoStore demoSessionId) = 200.
Proof.
  split; [reflexivity|]. split; [reflexivity|]. split; [discriminate|].
  split; [|reflexivity].
  apply (session_questions_hide_correct_answer (pg := postgresql) demoStore otherAnswers
           demoSessionId); reflexivity.
Defined.

(** ** Submission *)

(** C3, as the claim states it, fails: a second submission of the sample
    session, four seconds after the first and with other answers, replaces
    the stored answers and the end time. *)
Lemma second_submit_overwrites :
  let once := (postSubmit (pg := postgresql) (mkEnv 5000 "") demoStore demoSessionId
                 (value {[ 1 := "B"; 2 := "C" ]})).1 in
  let twice := (postSubmit (pg := postgresql) (mkEnv 9000 "") once demoSessionId
                  (value {[ 1 := "A" ]})).1 in
  examSessions once !! demoSessionId =
    Some (ExamSession.mk demoSessionId demoTicketId "student_R42" "submitted" (Some 0)
            (Some 5000) (Some 1) (Some {[ 1 := "B"; 2 := "C" ]}) (Some [q1Id; q2Id])
            (Some 10) (Some false) None (Some 0) (Some 5000)) ∧
  examSessions twice !! demoSessionId =
    Some (ExamSession.mk demoSessionId demoTicketId "student_R42" "submitted" (Some 0)
            (Some 9000) (Some 1) (Some {[ 1 := "A" ]}) (Some [q1Id; q2Id])
            (Some 10) (Some false) None (Some 0) (Some 9000)).
Proof. vm_compute. done. Qed.

(** C3, amended.  A submission request for a session that is already
    submitted raises no error and answers 200 with the stored session, whose
    status stays ["submitted"]; but it is no no-op: the end time and the
    time of the last update become the time of the request, and the stored
    answers become those of the request when its body has the key
    ([null] clears them); every other column of the row, every other row
    and every other table is as it was. *)
Theorem second_submit_restamps `{pg : !Postgres}
    (env : Env) (st : Store) (id key : string) (answers : Field Answers)
    (row : ExamSession.t) :
  uuid_in id = Some key →
  examSessions st !! key = Some row →
  ExamSession.status row = "submitted" →
  let row' := submittedRow env answers row in
  postSubmit env st id answers =
    (set_examSessions (insert key row') st,
     json (JsonSubmitted true "Exam submitted successfully" (Some row'))) ∧
  ExamSession.status row' = "submitted" ∧
  ExamSession.endTime row' = Some (now env) ∧
  ExamSession.updatedAt row' = Some (now env) ∧
  ExamSession.answers row' =
    match answers with
    | absent => ExamSession.answers row
    | null => None
    | value a => Some a
    end ∧
  row' = ExamSession.mk (ExamSession.id row) (ExamSession.hallTicketId row)
           (ExamSession.studentId row) (ExamSession.status row')
           (ExamSession.startTime row) (ExamSession.endTime row')
           (ExamSession.currentQuestion row) (ExamSession.answers row')
           (ExamSession.questionIds row) (ExamSession.timeRemaining row)
           (ExamSession.isVerified row) (ExamSession.verificationData row)
           (ExamSession.createdAt row) (ExamSession.updatedAt row').
Proof.
  intros Hid Hrow _ row'.
  unfold postSubmit, storage.getExamSession, storage.updateExamSession, asUuid.
  rewrite Hid. simpl. rewrite Hrow. simpl. by destruct answers.
Qed.

Lemma second_submit_restamps_witness :
  uuid_in (Postgres := postgresql) demoSessionId = Some demoSessionId ∧
  examSessions submittedStore !! demoSessionId =
    Some (submittedRow (mkEnv 5000 "") (value {[ 1 := "B"; 2 := "C" ]}) demoSession) ∧
  ExamSession.endTime
    (submittedRow (mkEnv 9000 "") absent
       (submittedRow (mkEnv 5000 "") (value {[ 1 := "B"; 2 := "C" ]}) demoSession)) =
    Some 9000.
Proof.
  split; [reflexivity|]. split; [reflexivity|].
  apply (second_submit_restamps (pg := postgresql) (mkEnv 9000 "") submittedStore
           demoSessionId demoSessionId absent
           (submittedRow (mkEnv 5000 "") (value {[ 1 := "B"; 2 := "C" ]}) demoSession));
    reflexivity.
Defined.

(** ** Session creation *)




(** A body that passes the schema keeps its [hallTicketId] and gets the
    [studentId] of the handler. *)
Lemma parseExamSession_hallTicketId `{zod : !Zod} env body studentId data :
  parseExamSession env body studentId = fulfilled data →
  CreateSessionBody.hallTicketId body = InsertExamSession.hallTicketId data.
Proof.
  unfold parseExamSession, integerField. intros Hparse.
  repeat (case_match; simpl in Hparse; try done); by injection Hparse as <-.
Qed.




(** ** The rate limit *)

(** A filter that asks more keeps fewer. *)
Lemma length_filter_le {A} (P Q : A → Prop)
    `{!∀ x, Decision (P x)} `{!∀ x, Decision (Q x)} (l : list A) :
  (∀ x, P x → Q x) →
  (length (filter P l) ≤ length (filter Q l))%nat.
Proof.
  intros HPQ. induction l as [|x l IH]; [done|]. rewrite !filter_cons.
  destruct (decide (P x)) as [HP|HP].
  - rewrite decide_True by auto. simpl. lia.
  - destruct (decide (Q x)); simpl; lia.
Qed.

(** What the gate counts, up to the order of the rows. *)
Lemma recentSameType_fulfilled `{pg : !Postgres} env st text sessionId incidentType :
  text ≠ "" →
  uuid_in text = Some sessionId →
  ∃ recent,
    recentSameType env st text incidentType = fulfilled recent ∧
    recent ≡ₚ
      filter (λ i, (SecurityIncident.incidentType i = incidentType ∧
                    createdAfter (now env - 60000) i = true) ∧
                   SecurityIncident.sessionId i = sessionId)
             (securityIncidents st).
Proof.
  intros Hne Hid. unfold recentSameType, storage.getSecurityIncidents, asUuid.
  rewrite bool_decide_eq_false_2 by done. rewrite Hid. simpl.
  eexists. split; [reflexivity|].
  rewrite merge_sort_Permutation, list_filter_filter. reflexivity.
Qed.

(** A window that holds an incident created now holds only incidents the
    gate counts as recent. *)
Lemma inWindow_recent `{pg : !Postgres} env st text sessionId incidentType recent t :
  text ≠ "" →
  uuid_in text = Some sessionId →
  recentSameType env st text incidentType = fulfilled recent →
  now env ≤ t →
  (length (inWindow st sessionId incidentType t) ≤ length recent)%nat.
Proof.
  intros Hne Hid Hrecent Hnow.
  destruct (recentSameType_fulfilled env st text sessionId incidentType Hne Hid)
    as (recent' & E & Hperm).
  rewrite Hrecent in E. injection E as <-. rewrite Hperm.
  unfold inWindow. apply length_filter_le. intros i (H1 & H2 & H3).
  repeat split; try done. unfold createdWithin, createdAfter in *.
  destruct (SecurityIncident.createdAt i) as [c|]; [|done].
  apply andb_prop in H3 as [H3 _]. apply Z.ltb_lt in H3. apply Z.ltb_lt. lia.
Qed.

(** On the WebSocket path the bound is kept: a violation message is
    persisted only when fewer than three incidents of its session and type
    are recent, and then every window that holds the new incident held at
    most two. *)
Lemma onViolation_keeps_rate_limit `{pg : !Postgres} env ws st d :
  rateLimited st → rateLimited (onViolation env ws st d).1.
Proof.
  intros Hst. unfold onViolation.
  destruct (ViolationData.sessionId d) as [text|]; [|by repeat case_match].
  destruct (ViolationData.incidentType d) as [ty|]; [|by repeat case_match].
  destruct (ViolationData.severity d) as [sev|]; [|by repeat case_match].
  destruct (ViolationData.description d) as [desc|]; [|by repeat case_match].
  destruct (decide (text = "")) as [->|Hne]; [done|].
  destruct (negb _); [done|]. destruct (negb _); [done|].
  unfold reportViolation, storage.getExamSession, asUuid.
  destruct (uuid_in text) as [sid|] eqn:Hid; [|done]. simpl.
  destruct (examSessions st !! sid) as [row|] eqn:Hrow; [|done].
  destruct (recentSameType env st text ty) as [recent|] eqn:Hrecent; [|done]. simpl.
  destruct (Z.leb_spec 3 (Z.of_nat (length recent))) as [|Hgate]; [done|].
  unfold storage.createSecurityIncident, asUuid. simpl. rewrite Hid. simpl.
  destruct (_ && _); [|done]. simpl.
  intros sid' ty' t. unfold inWindow. simpl.
  rewrite filter_app, length_app. fold (inWindow st sid' ty' t).
  rewrite filter_cons, filter_nil. simpl.
  destruct (decide _) as [(<- & <- & Hc)|]; simpl;
    [|rewrite Nat.add_0_r; apply Hst].
  unfold createdWithin in Hc. simpl in Hc. apply andb_prop in Hc as [_ Hc].
  apply Z.leb_le in Hc.
  pose proof (inWindow_recent env st text sid ty recent t Hne Hid Hrecent Hc). lia.
Qed.

Lemma logMonitoring_tables `{pg : !Postgres} env db sessionId eventType eventData :
  tables (logMonitoring env db sessionId eventType eventData) = tables db.
Proof.
  unfold logMonitoring, storage.createMonitoringLog, asUuid.
  destruct sessionId as [text|]; [|done].
  destruct (bool_decide _); [done|].
  destruct (uuid_in _); [|done]. simpl. by destruct (_ && _).
Qed.

Lemma onMessage_keeps_rate_limit `{pg : !Postgres} env ws db m :
  rateLimited (tables db) → rateLimited (tables (onMessage env ws db m).1.2).
Proof.
  intros Hst. destruct m as [? ? ?| | | |ty d|d|d| ]; simpl; try done.
  - by rewrite logMonitoring_tables.
  - by rewrite logMonitoring_tables.
  - pose proof (onViolation_keeps_rate_limit env ws (tables db) d Hst).
    by destruct (onViolation env ws (tables db) d).
  - by destruct (negb _).
Qed.

Lemma sendMessages_keeps_rate_limit `{pg : !Postgres} ws m envs : ∀ db,
  rateLimited (tables db) → rateLimited (tables (sendMessages ws db m envs)).
Proof.
  induction envs as [|env envs IH]; intros db Hst; [done|].
  simpl. apply IH. by apply onMessage_keeps_rate_limit.
Qed.

Lemma demoStore_rateLimited : rateLimited demoStore.
Proof. intros sid ty t. unfold inWindow. simpl. lia. Qed.

(** C1, at the failing input: four requests to the incident endpoint with
    the token of a stored user, one second apart, for the sample session and
    one type, are all four persisted and lie in one window of 60 seconds,
    which breaks the bound; the same four reports sent over the WebSocket
    leave three and keep it. *)
Theorem http_incidents_bypass_rate_limit :
  let viaHttp :=
    postIncidents (pg := postgresql) (zod := schemas) demoStore (Some "admin-1")
      (incidentRequest lookingAwayReport) fourSeconds in
  let viaSocket :=
    tables (sendMessages (pg := postgresql) studentConnection
              (mkDatabase demoStore [] ∅) lookingAwayMessage fourSeconds) in
  isAuthenticated demoStore (Some "admin-1") = Some demoAdmin ∧
  rateLimited demoStore ∧
  length (inWindow viaHttp demoSessionId "looking_away" 4000) = 4%nat ∧
  ¬ rateLimited viaHttp ∧
  length (inWindow viaSocket demoSessionId "looking_away" 4000) = 3%nat ∧
  rateLimited viaSocket.
Proof.
  intros viaHttp viaSocket.
  assert (length (inWindow viaHttp demoSessionId "looking_away" 4000) = 4%nat) as H4
    by (vm_compute; done).
  split; [reflexivity|].
  split; [exact demoStore_rateLimited|]. split; [exact H4|]. split.
  - intros Hb. specialize (Hb demoSessionId "looking_away" 4000). rewrite H4 in Hb. lia.
  - split; [vm_compute; done|].
    apply (sendMessages_keeps_rate_limit (pg := postgresql)), demoStore_rateLimited.
Qed.

(** ** Runs of the [ExamMode] machine *)

Ltac handler_cases s :=
  unfold handleFullscreenChange, handleVisibilityChange, handleWindowBlur,
    handleKeyDown, handleKeyUp, blockEscKey, resumeExam, timerTick, fire,
    handleNavigate, handleSecurityViolation, submitExam;
  simpl;
  repeat match goal with
  | |- context [match examSession s with Some _ => _ | None => _ end] =>
      destruct (examSession s) eqn:?; simpl
  | |- context [if ?b then _ else _] => destruct b eqn:?; simpl
  | |- context [match ?d with prev => _ | next => _ end] => destruct d; simpl
  end.

(** What no event changes, and what only its own event changes. *)
Lemma step_frame (t : Z) (s : ExamMode) (ev : Event) :
  examSession (step t s ev).1 = examSession s ∧
  cameraActive (step t s ev).1 = cameraActive s ∧
  (isQuestionsFetched ev = false → questionList (step t s ev).1 = questionList s) ∧
  ((∀ q a, ev ≠ answerChange q a) → answers (step t s ev).1 = answers s).
Proof.
  destruct ev as [b|h| |e|e|e| | | |d|a|q a|dir|qs|n| ]; simpl.
  10: { pose proof (handleMonitoring_policy t s d) as (_ & _ & _ & ? & ? & ? & _).
        repeat split; try done. intros _.
        monitoring_cases s d; done. }
  all: try (handler_cases s; repeat split; try done; intros H; by destruct (H q a)).
  all: destruct a; handler_cases s; by repeat split.
Qed.

Lemma run_examSession evs : ∀ s, examSession (run s evs).1 = examSession s.
Proof.
  induction evs as [|[t ev] evs IH]; intros s; [done|]. simpl.
  pose proof (step_frame t s ev) as (Hs & _).
  destruct (step t s ev) as [s1 out1]. specialize (IH s1).
  destruct (run s1 evs) as [s2 out2]. simpl in *. congruence.
Qed.

(** The counter and the auto-submit timers of a run. *)
Lemma run_counts evs : ∀ s session,
  examSession s = Some session →
  violationCount (run s evs).1 =
    violationCount s + Z.of_nat (length (qualifyingEvents evs)) ∧
  Z.of_nat (length (List.filter isAutoSubmitTimer (run s evs).2)) =
    Z.max 0 (Z.min (Z.of_nat (length (qualifyingEvents evs)))
                   (violationCount s + Z.of_nat (length (qualifyingEvents evs)) - 2)).
Proof.
  induction evs as [|[t ev] evs IH]; intros s session Hs; [simpl; lia|].
  simpl. pose proof (step_frame t s ev) as (Hs1 & _).
  destruct (qualifies ev) eqn:Hq.
  - destruct (step_qualifies t s ev session Hq Hs) as ((Hv & _) & Ha & _).
    destruct (step t s ev) as [s1 out1]. simpl in *.
    destruct (IH s1 session) as [IHv IHa]; [congruence|].
    destruct (run s1 evs) as [s2 out2]. simpl in *.
    rewrite List.filter_app, length_app, Ha.
    destruct (Z.leb_spec 2 (violationCount s)); simpl length; lia.
  - destruct (step_no_violation t s ev) as (Hv & _ & Ha); [by left|].
    destruct (step t s ev) as [s1 out1]. simpl in *.
    destruct (IH s1 session) as [IHv IHa]; [congruence|].
    destruct (run s1 evs) as [s2 out2]. simpl in *.
    rewrite List.filter_app, length_app, Ha. simpl length. lia.
Qed.

(** X13.  While a session exists, the browser violation counter after any
    run of events is the counter before plus the number of qualifying
    browser events in the run: every fullscreen exit, hidden tab, window
    blur and blocked key counts once, and nothing else (no face sample, no
    resume, no timer) changes the counter. *)
Theorem violation_counter_counts_browser_events
    (s : ExamMode) (session : ExamSession.t) (evs : list (Z * Event)) :
  examSession s = Some session →
  violationCount (run s evs).1 =
    violationCount s + Z.of_nat (length (qualifyingEvents evs)).
Proof. intros Hs. by destruct (run_counts evs s session Hs). Qed.

(** X14.  The auto-submit is scheduled again by every violation from the
    third on, not once: a run that brings [k] qualifying browser events to a
    session whose counter stands at [c] schedules the 2000 ms auto-submit
    once for each of them that leaves the counter at 3 or more. *)
Theorem every_later_violation_schedules_auto_submit
    (s : ExamMode) (session : ExamSession.t) (evs : list (Z * Event)) :
  examSession s = Some session →
  let k := Z.of_nat (length (qualifyingEvents evs)) in
  let c := violationCount s in
  Z.of_nat (length (List.filter isAutoSubmitTimer (run s evs).2)) =
    Z.max 0 (Z.min k (c + k - 2)) ∧
  Forall (λ e, e = setTimeout autoSubmit 2000)
         (List.filter isAutoSubmitTimer (run s evs).2).
Proof.
  intros Hs k c. split; [by destruct (run_counts evs s session Hs)|].
  clear k c. revert s Hs.
  induction evs as [|[t ev] evs IH]; intros s Hs; [constructor|].
  simpl. pose proof (step_frame t s ev) as (Hs1 & _).
  assert (Forall (λ e, e = setTimeout autoSubmit 2000)
                 (List.filter isAutoSubmitTimer (step t s ev).2)) as Hstep.
  { destruct (qualifies ev) eqn:Hq.
    - destruct (step_qualifies t s ev session Hq Hs) as (_ & -> & _).
      destruct (2 <=? violationCount s); by repeat constructor.
    - destruct (step_no_violation t s ev) as (_ & _ & ->); [by left|]. constructor. }
  destruct (step t s ev) as [s1 out1]. simpl in *.
  specialize (IH s1). destruct (run s1 evs) as [s2 out2]. simpl in *.
  rewrite List.filter_app. apply Forall_app. split; [done|]. apply IH. congruence.
Qed.

Lemma every_later_violation_schedules_auto_submit_witness :
  examSession twoViolations = Some demoSession ∧
  violationCount twoViolations = 2 ∧
  Z.of_nat (length (List.filter isAutoSubmitTimer
                      (run twoViolations [(4000, blur); (4500, fullscreenchange false)]).2))
    = 2.
Proof.
  split; [reflexivity|]. split; [reflexivity|].
  apply (every_later_violation_schedules_auto_submit twoViolations demoSession
           [(4000, blur); (4500, fullscreenchange false)]).
  reflexivity.
Defined.

Lemma violation_counter_counts_browser_events_witness :
  examSession demoExam = Some demoSession ∧
  violationCount
    (run demoExam [(1000, blur); (2000, faceSample crowded); (3000, resumeClick);
                   (4000, visibilitychange true)]).1 = 2.
Proof.
  split; [reflexivity|].
  apply (violation_counter_counts_browser_events demoExam demoSession
           [(1000, blur); (2000, faceSample crowded); (3000, resumeClick);
            (4000, visibilitychange true)]).
  reflexivity.
Defined.

Lemma handleSecurityViolation_violationEvents t s vt desc sev session :
  examSession s = Some session →
  violationEvents (handleSecurityViolation t s vt desc sev).2 = [(Some vt, Some sev)].
Proof.
  intros Hs. unfold handleSecurityViolation. rewrite Hs. by policy_cases.
Qed.

(** X15.  Every qualifying browser event is reported to the server exactly
    once, with severity ["medium"] and with the incident type of its
    source: ["fullscreen_exit"], ["tab_switch"], ["window_blur"] or
    ["key_violation"]; the counter, the pause and the auto-submit never
    change what is reported. *)
Theorem browser_violation_reported_once_as_medium
    (t : Z) (s : ExamMode) (session : ExamSession.t) (ev : Event) :
  examSession s = Some session →
  qualifies ev = true →
  violationEvents (step t s ev).2 = [(Some (violationKind ev), Some "medium")].
Proof.
  intros Hs Hq.
  destruct ev as [[]|[]| |e|e|e| | | | | | | | | |]; simpl in Hq; try done; simpl.
  - unfold handleFullscreenChange.
    pose proof (handleSecurityViolation_violationEvents t (setIsFullscreen false s)
      "fullscreen_exit" "Student exited fullscreen mode" "medium" session Hs) as H.
    destruct (handleSecurityViolation _ _ _ _ _) as [s2 out]. simpl in *.
    unfold violationEvents in *. by rewrite omap_app, H.
  - by apply handleSecurityViolation_violationEvents with session.
  - by apply handleSecurityViolation_violationEvents with session.
  - unfold handleKeyDown, blockEscKey. destruct (isEscape e); simpl in *.
    + by apply handleSecurityViolation_violationEvents with session.
    + rewrite Hq. by apply handleSecurityViolation_violationEvents with session.
  - unfold handleKeyUp, blockEscKey. rewrite Hq. simpl.
    by apply handleSecurityViolation_violationEvents with session.
  - unfold handleKeyUp, blockEscKey. rewrite Hq. simpl.
    by apply handleSecurityViolation_violationEvents with session.
Qed.

Lemma browser_violation_reported_once_as_medium_witness :
  examSession twoViolations = Some demoSession ∧
  qualifies (visibilitychange true) = true ∧
  violationEvents (step 4000 twoViolations (visibilitychange true)).2 =
    [(Some "tab_switch", Some "medium")].
Proof.
  split; [reflexivity|]. split; [reflexivity|].
  apply (browser_violation_reported_once_as_medium 4000 twoViolations demoSession
           (visibilitychange true)); reflexivity.
Defined.

(** ** The countdown over a run *)

Lemma run_ticks_stopped clock : ∀ s,
  timerRunning s = false → run s (ticks clock) = (s, []).
Proof.
  induction clock as [|t clock IH]; intros s Hs; [done|].
  simpl. rewrite (timerTick_stopped s Hs). by rewrite (IH s Hs).
Qed.

(** X16.  A countdown that runs with [n] seconds left takes one second off
    per firing of its interval, posts the submission with the answers held
    at that moment on the firing that reaches 0, and does nothing on any
    firing after that: [k] firings leave [max 0 (n - k)] seconds and have
    posted one submission if [n <= k] and none otherwise. *)
Theorem countdown_submits_once_at_zero (clock : list Z) :
  ∀ (s : ExamMode) (session : ExamSession.t),
  timerRunning s = true →
  examSession s = Some session →
  let n := timeRemaining s in
  let k := Z.of_nat (length clock) in
  timeRemaining (run s (ticks clock)).1 = Z.max 0 (n - k) ∧
  (run s (ticks clock)).2 =
    if n <=? k then [apiPostSubmit (ExamSession.id session) (answers s)] else [].
Proof.
  induction clock as [|t clock IH]; intros s session Hrun Hs n k.
  - unfold n, k. simpl. unfold timerRunning in Hrun.
    apply andb_prop in Hrun as [Hrun _]. apply andb_prop in Hrun as [Hpos _].
    apply Z.ltb_lt in Hpos. change (Z.of_nat 0) with 0.
    destruct (Z.leb_spec (timeRemaining s) 0); [lia|].
    split; [lia|done].
  - unfold n, k. simpl run.
    pose proof (timerTick_running s Hrun) as (Ht & _ & H1 & Hmore).
    assert (0 < timeRemaining s) as Hpos.
    { unfold timerRunning in Hrun. apply andb_prop in Hrun as [Hrun _].
      apply andb_prop in Hrun as [Hpos _]. by apply Z.ltb_lt in Hpos. }
    pose proof (step_frame t s interval) as (Hs1 & _ & Hq1 & Ha1). simpl step in *.
    destruct (timerTick s) as [s1 out1] eqn:Htick. simpl in *.
    specialize (Hq1 eq_refl). rewrite Hs in Hs1.
    assert (answers s1 = answers s) as Hans by (by apply Ha1).
    destruct (decide (timeRemaining s = 1)) as [E1|E1].
    + destruct (H1 E1) as (session' & Hs' & ->). rewrite Hs in Hs'.
      injection Hs' as <-.
      rewrite run_ticks_stopped.
      2: { unfold timerRunning. rewrite Ht, E1. done. }
      simpl. rewrite Ht, E1.
      destruct (Z.leb_spec 1 (Z.of_nat (S (length clock)))); [|lia].
      split; [lia|done].
    + rewrite (Hmore E1).
      assert (timerRunning s1 = true) as Hrun1.
      { unfold timerRunning in *. rewrite Ht, Hs1. unfold questionsLoaded in *.
        rewrite Hq1. apply andb_prop in Hrun as [Hrun ->].
        rewrite andb_true_r. apply andb_true_intro. split; [|done].
        apply Z.ltb_lt. lia. }
      destruct (IH s1 session Hrun1 Hs1) as [IHt IHo].
      destruct (run s1 (ticks clock)) as [s2 out2]. simpl in *.
      rewrite IHt, IHo, Ht, Hans. split; [lia|].
      destruct (Z.leb_spec (timeRemaining s - 1) (Z.of_nat (length clock))),
               (Z.leb_spec (timeRemaining s) (Z.of_nat (S (length clock)))); try done; lia.
Qed.

Lemma countdown_submits_once_at_zero_witness :
  timerRunning demoExam = true ∧
  timeRemaining demoExam = 10 ∧
  (run demoExam (ticks [1; 2; 3; 4; 5; 6; 7; 8; 9; 10; 11; 12])).2 =
    [apiPostSubmit demoSessionId ∅].
Proof.
  split; [reflexivity|]. split; [reflexivity|].
  apply (countdown_submits_once_at_zero [1; 2; 3; 4; 5; 6; 7; 8; 9; 10; 11; 12]
           demoExam demoSession); reflexivity.
Defined.

(** X17.  The countdown does not start before the questions have arrived:
    from a state without loaded questions, a run of any events other than
    the arrival of the questions leaves [timeRemaining] as it is and posts
    nothing from the timer, however often the interval fires. *)
Theorem countdown_waits_for_questions (evs : list (Z * Event)) :
  ∀ s : ExamMode,
  questionsLoaded s = false →
  Forall (λ e, isQuestionsFetched e.2 = false) evs →
  timeRemaining (run s evs).1 = timeRemaining s ∧
  questionsLoaded (run s evs).1 = false.
Proof.
  induction evs as [|[t ev] evs IH]; intros s Hq Hall; [done|].
  apply Forall_cons in Hall as [Hev Hall]. simpl in Hev. simpl.
  pose proof (step_frame t s ev) as (_ & _ & Hlist & _). specialize (Hlist Hev).
  assert (timeRemaining (step t s ev).1 = timeRemaining s) as Ht.
  { destruct ev; try (by apply step_timeRemaining).
    simpl. rewrite timerTick_stopped; [done|].
    unfold timerRunning. rewrite Hq. apply andb_false_r. }
  destruct (step t s ev) as [s1 out1]. simpl in *.
  destruct (IH s1) as [IHt IHq]; [|done|].
  { unfold questionsLoaded in *. by rewrite Hlist. }
  destruct (run s1 evs) as [s2 out2]. simpl in *. split; [congruence|done].
Qed.

Lemma countdown_waits_for_questions_witness :
  questionsLoaded loadingExam = false ∧
  timeRemaining
    (run loadingExam [(1000, interval); (2000, blur); (3000, interval);
                      (4000, faceSample away)]).1 = 10.
Proof.
  split; [reflexivity|].
  apply (countdown_waits_for_questions
           [(1000, interval); (2000, blur); (3000, interval); (4000, faceSample away)]
           loadingExam); [reflexivity|].
  repeat constructor.
Defined.

(** ** Navigation and answers *)

Lemma step_currentQuestion (t : Z) (s : ExamMode) (ev : Event) (len : Z) :
  len = Z.of_nat (length (default [] (questionList s))) →
  pointsInside len ev →
  1 ≤ currentQuestion s ≤ len →
  1 ≤ currentQuestion (step t s ev).1 ≤ len.
Proof.
  intros Hlen Hev Hin.
  destruct ev as [b|h| |e|e|e| | | |d|a|q a|dir|qs|n| ]; simpl in *; try done.
  all: try match goal with
       | |- context [handleMonitoring ?t ?s ?d] => monitoring_cases s d; done
       | |- context [fire ?s ?a] => destruct a; handler_cases s; done
       | |- context [handleNavigate ?s ?dir] =>
           unfold handleNavigate; rewrite <- Hlen;
           destruct dir; policy_cases; simpl; lia
       end.
  all: handler_cases s; done.
Qed.

(** X18.  The question pointer stays on an existing question: when it is
    within 1 and the number of loaded questions, it is still there after any
    run of events in which no new list of questions arrives and the question
    buttons pressed are those of existing questions; "previous" on the first
    question and "next" on the last one do nothing. *)
Theorem question_pointer_stays_in_range (evs : list (Z * Event)) :
  ∀ (s : ExamMode) (len : Z),
  len = Z.of_nat (length (default [] (questionList s))) →
  Forall (λ e, pointsInside len e.2) evs →
  1 ≤ currentQuestion s ≤ len →
  1 ≤ currentQuestion (run s evs).1 ≤ len ∧
  (currentQuestion s = 1 →
   currentQuestion (step 0 s (navigateQuestion prev)).1 = 1) ∧
  (currentQuestion s = len →
   currentQuestion (step 0 s (navigateQuestion next)).1 = len).
Proof.
  intros s len Hlen Hall Hin. split.
  - revert s Hlen Hin. induction evs as [|[t ev] evs IH]; intros s Hlen Hin; [done|].
    apply Forall_cons in Hall as [Hev Hall]. simpl in Hev. simpl.
    pose proof (step_currentQuestion t s ev len Hlen Hev Hin) as Hstep.
    pose proof (step_frame t s ev) as (_ & _ & Hlist & _).
    assert (isQuestionsFetched ev = false) as Hnf by (by destruct ev).
    specialize (Hlist Hnf).
    destruct (step t s ev) as [s1 out1]. simpl in *.
    specialize (IH Hall s1). destruct (run s1 evs) as [s2 out2]. simpl in *.
    apply IH; [by rewrite Hlist | done].
  - simpl. unfold handleNavigate. rewrite <- Hlen.
    split; intros E; policy_cases; simpl; lia.
Qed.

Lemma question_pointer_stays_in_range_witness :
  currentQuestion demoExam = 1 ∧
  1 ≤ currentQuestion
        (run demoExam [(1000, navigateQuestion next); (2000, navigateQuestion next);
                       (3000, navigateQuestion next); (4000, selectQuestion 1);
                       (5000, navigateQuestion prev)]).1 ≤ 2.
Proof.
  split; [reflexivity|].
  apply (question_pointer_stays_in_range
           [(1000, navigateQuestion next); (2000, navigateQuestion next);
            (3000, navigateQuestion next); (4000, selectQuestion 1);
            (5000, navigateQuestion prev)] demoExam 2); [reflexivity| |simpl; lia].
  repeat constructor; simpl; lia.
Defined.

Lemma run_answers evs : ∀ (s : ExamMode) (q : Z),
  answers (run s evs).1 !! q =
    match lastAnswer q evs with
    | Some a => Some a
    | None => answers s !! q
    end.
Proof.
  induction evs as [|[t ev] evs IH]; intros s q; [done|]. simpl.
  pose proof (step_frame t s ev) as (_ & _ & _ & Hans).
  assert (answers (step t s ev).1 !! q =
          match ev with
          | answerChange q' a => if bool_decide (q' = q) then Some a else answers s !! q
          | _ => answers s !! q
          end) as Hstep.
  { destruct ev as [b|h| |e|e|e| | | |d|a|q' a|dir|qs|n| ];
      try (rewrite Hans; [done|intros ??; discriminate]).
    simpl. destruct (decide (q' = q)) as [->|Hne].
    - rewrite bool_decide_eq_true_2 by done. apply lookup_insert_eq.
    - rewrite bool_decide_eq_false_2 by done. by apply lookup_insert_ne. }
  destruct (step t s ev) as [s1 out1]. simpl in *.
  specialize (IH s1 q). destruct (run s1 evs) as [s2 out2]. simpl in *.
  rewrite IH. destruct (lastAnswer q evs); [done|].
  rewrite Hstep. destruct ev; try done. by destruct (bool_decide _).
Qed.

(** ** The face detection hook *)

Lemma detectStream_snoc frames mock :
  detectStream (frames ++ [mock]) = detectFaces true mock (detectStream frames).
Proof. unfold detectStream. by rewrite foldl_app. Qed.

(** The counter is the length of the run of looking-away frames that ends
    the stream. *)
Lemma lookAwayCounter_spec frames : ∀ n : nat,
  Z.of_nat n ≤ lookAwayCounter (detectStream frames) ↔
  (n ≤ length frames)%nat ∧
  Forall (λ m, lookingAway m = true) (drop (length frames - n) frames).
Proof.
  induction frames as [|mock frames IH] using rev_ind; intros n.
  - simpl. split.
    + intros H. split; [lia|constructor].
    + intros [H _]. lia.
  - rewrite detectStream_snoc, length_app. simpl length.
    unfold detectFaces. simpl.
    destruct n as [|n].
    { split.
      - intros _. split; [lia|]. rewrite Nat.sub_0_r.
        replace (length frames + 1)%nat with (length (frames ++ [mock]))
          by (rewrite length_app; simpl; lia).
        rewrite drop_all. constructor.
      - intros _. destruct (lookingAway mock); [|lia].
        specialize (IH 0%nat).
        assert (0 ≤ lookAwayCounter (detectStream frames)); [|lia].
        apply IH. split; [lia|]. rewrite Nat.sub_0_r, drop_all. constructor. }
    replace (length frames + 1 - S n)%nat with (length frames - n)%nat by lia.
    destruct (lookingAway mock) eqn:Hm.
    + specialize (IH n). split.
      * intros H. destruct (proj1 IH) as [Hn Hall]; [lia|]. split; [lia|].
        rewrite drop_app_le by lia. apply Forall_app. split; [done|].
        by repeat constructor.
      * intros [Hn Hall]. rewrite drop_app_le in Hall by lia.
        apply Forall_app in Hall as [Hall _].
        assert (Z.of_nat n ≤ lookAwayCounter (detectStream frames)); [|lia].
        apply IH. split; [lia|done].
    + split; [lia|]. intros [Hn Hall]. exfalso.
      rewrite drop_app_le in Hall by lia.
      apply Forall_app in Hall as [_ Hall]. apply Forall_inv in Hall.
      simpl in Hall. congruence.
Qed.

(** X20.  The hook debounces looking away by five frames: after a stream
    of frames it reports [lookingAway] exactly when the stream has at least
    five frames and its last five all looked away; one frame that does not
    look away ends the report. *)
Theorem looking_away_reported_after_five_frames (frames : list Detection) :
  lookingAway (detection (detectStream frames)) = true ↔
  (5 ≤ length frames)%nat ∧
  Forall (λ m, lookingAway m = true) (drop (length frames - 5) frames).
Proof.
  rewrite <- (lookAwayCounter_spec frames 5).
  destruct frames as [|mock frames] using rev_ind; [simpl; split; [done|lia]|].
  rewrite detectStream_snoc. unfold detectFaces, lookAwayThreshold. simpl.
  rewrite Z.leb_le. done.
Qed.

(** X21.  With the simulated detector, the hook never reports looking away
    together with multiple faces or without a face, and never reports
    multiple faces without a face: the first two branches of the monitoring
    effect cannot both apply to a report. *)
Theorem simulated_reports_are_exclusive (samples : list (Q * Q)) :
  let report :=
    detection (detectStream ((λ '(r, c), simulateFaceDetection r c) <$> samples)) in
  (lookingAway report = true →
   multipleFaces report = false ∧ faceDetected report = true) ∧
  (multipleFaces report = true → faceDetected report = true).
Proof.
  destruct samples as [|[r c] samples] using rev_ind; [done|].
  rewrite fmap_app. simpl. rewrite detectStream_snoc.
  unfold detectFaces, simulateFaceDetection. simpl. split.
  - intros Haway.
    destruct (exceeds r literal_0_1), (exceeds r literal_0_95), (exceeds r literal_0_9);
      simpl in *; try done.
    all: exfalso; apply Z.leb_le in Haway; unfold lookAwayThreshold in Haway; lia.
  - by destruct (exceeds r literal_0_1).
Qed.

(** ** The incident page *)

Lemma foldl_countIncident incidents : ∀ stats,
  let r := foldl countIncident stats incidents in
  resolved r = resolved stats
    + Z.of_nat (length (filter (λ i, SecurityIncident.isResolved i = Some true) incidents)) ∧
  critical r + high r + medium r + low r + resolved r
    + Z.of_nat (length (filter (λ i, uncounted i = true) incidents)) =
  critical stats + high stats + medium stats + low stats + resolved stats
    + Z.of_nat (length incidents).
Proof.
  induction incidents as [|i incidents IH]; intros stats; [simpl; lia|].
  simpl. destruct (IH (countIncident stats i)) as [IHr IHs].
  rewrite !filter_cons.
  assert (Hstep :
    resolved (countIncident stats i) =
      resolved stats + (if default false (SecurityIncident.isResolved i) then 1 else 0) ∧
    critical (countIncident stats i) + high (countIncident stats i)
      + medium (countIncident stats i) + low (countIncident stats i)
      + resolved (countIncident stats i) =
    critical stats + high stats + medium stats + low stats + resolved stats
      + (if uncounted i then 0 else 1)).
  { unfold countIncident, uncounted.
    destruct (default false (SecurityIncident.isResolved i)); simpl; [lia|].
    repeat case_bool_decide; simpl; try lia.
    all: repeat match goal with
         | H : context [_ ∈ _] |- _ => rewrite !elem_of_cons, elem_of_nil in H
         end; tauto. }
  destruct Hstep as [Hr Hs]. rewrite Hr in IHr. rewrite Hs in IHs. clear Hr Hs.
  destruct (uncounted i) eqn:Hun;
    destruct (SecurityIncident.isResolved i) as [[]|] eqn:Hres; simpl in *;
    try (unfold uncounted in Hun; rewrite Hres in Hun; done);
    repeat (case_decide; try congruence); simpl length; lia.
Qed.

(** X22.  The cards of the incident page count every incident at most
    once: the resolved card counts the resolved incidents whatever their
    severity, and the five cards add up to the number of incidents less the
    unresolved ones whose severity is none of the four the page knows. *)
Theorem incident_cards_count_each_incident_once (incidents : list SecurityIncident.t) :
  let stats := getIncidentStats incidents in
  resolved stats =
    Z.of_nat (length (filter (λ i, SecurityIncident.isResolved i = Some true) incidents)) ∧
  critical stats + high stats + medium stats + low stats + resolved stats =
    Z.of_nat (length incidents)
    - Z.of_nat (length (filter (λ i, uncounted i = true) incidents)).
Proof.
  destruct (foldl_countIncident incidents (mkIncidentStats 0 0 0 0 0)) as [Hr Hs].
  unfold getIncidentStats. simpl in *. split; [exact Hr|lia].
Qed.

(** ** Verifying a hall ticket *)

(** X6.  A verification succeeds only with a stored, active hall ticket
    whose roll number is the one of the request, under both ways of
    entering it: with a ticket number, the ticket has that number and the QR
    data of the request is not looked at; without one, the stored QR data
    of the ticket is the QR data of the request. *)
Theorem verification_needs_active_ticket_and_roll_number
    (db : Database) (req : VerifyBody.t) (answer : VerifiedTicket.t) :
  verifyHallTicket db req = verifyValid answer →
  (∃ k ticket,
     hallTickets (tables db) !! k = Some ticket ∧
     answer = toVerifiedTicket ticket ∧
     HallTicket.isActive ticket = true ∧
     HallTicket.rollNumber ticket = VerifyBody.rollNumber req ∧
     if truthy (VerifyBody.hallTicketId req)
     then Some (HallTicket.hallTicketId ticket) = VerifyBody.hallTicketId req
     else qrCodeData db !! HallTicket.id ticket = VerifyBody.qrData req) ∧
  (truthy (VerifyBody.hallTicketId req) = true →
   ∀ qr, verifyHallTicket db
           (VerifyBody.mk qr (VerifyBody.rollNumber req) (VerifyBody.hallTicketId req)) =
         verifyValid answer).
Proof.
  unfold verifyHallTicket. intros H.
  destruct (truthy (VerifyBody.hallTicketId req)) eqn:Hid.
  - destruct (DatabaseStorage.getHallTicketByIdAndRoll _ _ _) as [t|] eqn:Ht; [|done].
    injection H as <-. split.
    + apply scan_Some in Ht as ((Hnum & Hroll & Hact) & k & Hk).
      exists k, t. repeat split; try done.
      destruct (VerifyBody.hallTicketId req) as [h|]; [|done]. simpl in Hnum. by subst.
    + intros _ qr. simpl. by rewrite Hid, Ht.
  - split; [|done].
    destruct (truthy (VerifyBody.qrData req)) eqn:Hqr; [|done].
    destruct (DatabaseStorage.getHallTicketByQR _ _) as [t|] eqn:Ht; [|done].
    destruct (bool_decide _) eqn:Hroll; [done|].
    apply bool_decide_eq_false in Hroll. injection H as <-.
    apply scan_Some in Ht as ((Hdata & Hact) & k & Hk).
    exists k, t. repeat split; try done.
    + by destruct (decide (HallTicket.rollNumber t = VerifyBody.rollNumber req)).
    + destruct (VerifyBody.qrData req) as [q|]; [|done]. by simpl in Hdata.
Qed.

Lemma verification_needs_active_ticket_and_roll_number_witness :
  verifyHallTicket demoDatabase (VerifyBody.mk None "R42" (Some "HT2025A1B2C3D4")) =
    verifyValid (toVerifiedTicket demoTicket) ∧
  verifyHallTicket demoDatabase
    (VerifyBody.mk (Some "another text") "R42" (Some "HT2025A1B2C3D4")) =
    verifyValid (toVerifiedTicket demoTicket).
Proof.
  split; [reflexivity|].
  apply (verification_needs_active_ticket_and_roll_number demoDatabase
           (VerifyBody.mk None "R42" (Some "HT2025A1B2C3D4"))
           (toVerifiedTicket demoTicket)); reflexivity.
Defined.

(** ** The question bank and the sessions *)

(** The student-facing questions come in the order of the bank, and only
    membership in the session's [questionIds] matters. *)
Lemma sessionQuestions_sublist (ids : list string) (bank : list Question.t) :
  sessionQuestions ids bank `sublist_of` (toSessionQuestion <$> bank).
Proof. unfold sessionQuestions. apply fmap_sublist, sublist_filter. Qed.

Lemma sessionQuestions_ext (ids ids' : list string) (bank : list Question.t) :
  (∀ x, x ∈ ids ↔ x ∈ ids') →
  sessionQuestions ids bank = sessionQuestions ids' bank.
Proof.
  intros H. unfold sessionQuestions. f_equal.
  apply list_filter_iff. intros q. apply H.
Qed.

(** X1.  The session-questions endpoint presents the questions in the order
    of the bank, not in the order of the session's [questionIds]: two
    stored sessions, asked for by texts the database reads as their ids,
    whose non-empty [questionIds] hold the same ids, in any order and with
    any repetitions, get the same response, and that response is 200 with a
    sublist of the bank as the student sees it. *)
Theorem session_questions_follow_bank_order `{pg : !Postgres}
    (st : Store) (id1 id2 key1 key2 : string) (s1 s2 : ExamSession.t)
    (ids1 ids2 : list string) :
  uuid_in id1 = Some key1 →
  uuid_in id2 = Some key2 →
  examSessions st !! key1 = Some s1 →
  examSessions st !! key2 = Some s2 →
  ExamSession.questionIds s1 = Some ids1 →
  ExamSession.questionIds s2 = Some ids2 →
  ids1 ≠ [] → ids2 ≠ [] →
  (∀ x, x ∈ ids1 ↔ x ∈ ids2) →
  getExamSessionQuestions st id1 = getExamSessionQuestions st id2 ∧
  ∃ qs, getExamSessionQuestions st id1 = json (JsonQuestions qs) ∧
        qs `sublist_of` (toSessionQuestion <$> questions st).
Proof.
  intros Hk1 Hk2 H1 H2 Hq1 Hq2 Hn1 Hn2 Hset.
  unfold getExamSessionQuestions, storage.getExamSession, storage.getAllQuestions, asUuid.
  rewrite Hk1, Hk2. simpl. rewrite H1, H2, Hq1, Hq2.
  destruct ids1 as [|a ids1]; [done|]. destruct ids2 as [|b ids2]; [done|].
  rewrite (sessionQuestions_ext _ _ _ Hset). split; [done|].
  eexists. split; [done|]. apply sessionQuestions_sublist.
Qed.

Lemma session_questions_follow_bank_order_witness :
  uuid_in (Postgres := postgresql) demoSessionId = Some demoSessionId ∧
  uuid_in (Postgres := postgresql) otherSessionId = Some otherSessionId ∧
  examSessions adminStore !! demoSessionId = Some demoSession ∧
  examSessions adminStore !! otherSessionId = Some reorderedSession ∧
  ExamSession.questionIds demoSession = Some [q1Id; q2Id] ∧
  ExamSession.questionIds reorderedSession = Some [q2Id; q1Id; q2Id] ∧
  getExamSessionQuestions (pg := postgresql) adminStore demoSessionId =
    getExamSessionQuestions (pg := postgresql) adminStore otherSessionId.
Proof.
  do 6 (split; [reflexivity|]).
  apply (session_questions_follow_bank_order (pg := postgresql) adminStore
           demoSessionId otherSessionId demoSessionId otherSessionId
           demoSession reorderedSession [q1Id; q2Id] [q2Id; q1Id; q2Id]);
    try reflexivity; try discriminate.
  intros x. rewrite !elem_of_cons, elem_of_nil. tauto.
Defined.

Lemma sessionQuestions_delete (ids : list string) (bank : list Question.t) (qid : string) :
  sessionQuestions ids (filter (λ q, Question.id q ≠ qid) bank) =
  filter (λ q, SessionQuestion.id q ≠ qid) (sessionQuestions ids bank).
Proof.
  unfold sessionQuestions. induction bank as [|q bank IH]; [done|].
  rewrite !filter_cons.
  destruct (decide (Question.id q ≠ qid)) as [Hne|He],
           (decide (Question.id q ∈ ids)) as [Hin|Hout].
  - rewrite filter_cons_True by done. rewrite !fmap_cons.
    rewrite filter_cons_True by done. by rewrite IH.
  - rewrite filter_cons_False by done. exact IH.
  - rewrite fmap_cons, filter_cons_False by done. exact IH.
  - exact IH.
Qed.

(** X2.  Once an admin (a caller whose token names a stored user of role
    ["admin"]) has deleted a question from the bank by a text the database
    reads as the uuid [qkey], a stored session with non-empty
    [questionIds], asked for by a text the database reads as its id, no
    longer gets a question of id [qkey]: the response is the earlier one
    without that question, and the session row itself is untouched.  When
    every question of the session is gone the endpoint still answers 200,
    with an empty list. *)
Theorem deleted_question_leaves_running_sessions `{pg : !Postgres}
    (st : Store) (token : option string) (admin : User.t) (id key qid qkey : string)
    (session : ExamSession.t) (ids : list string) :
  isAuthenticated st token = Some admin →
  User.role admin = "admin" →
  uuid_in qid = Some qkey →
  uuid_in id = Some key →
  examSessions st !! key = Some session →
  ExamSession.questionIds session = Some ids →
  ids ≠ [] →
  let st' := (deleteQuestions st token qid).1 in
  (deleteQuestions st token qid).2 = json (JsonSuccess true) ∧
  examSessions st' !! key = Some session ∧
  getExamSessionQuestions st' id =
    json (JsonQuestions
            (filter (λ q, SessionQuestion.id q ≠ qkey)
                    (sessionQuestions ids (questions st)))) ∧
  ((∀ q, q ∈ questions st → Question.id q ∈ ids → Question.id q = qkey) →
   getExamSessionQuestions st' id = json (JsonQuestions [])).
Proof.
  intros Hauth Hrole Hqk Hk Hs Hids Hne st'.
  assert (deleteQuestions st token qid =
          (set_questions (filter (λ q, Question.id q ≠ qkey)) st,
           json (JsonSuccess true))) as Hdel.
  { unfold deleteQuestions, notAdmin, storage.deleteQuestion, asUuid.
    rewrite Hauth, Hrole, Hqk. reflexivity. }
  assert (getExamSessionQuestions st' id =
          json (JsonQuestions
                  (filter (λ q, SessionQuestion.id q ≠ qkey)
                          (sessionQuestions ids (questions st))))) as Hresp.
  { unfold st'. rewrite Hdel. simpl.
    unfold getExamSessionQuestions, storage.getExamSession, storage.getAllQuestions,
      asUuid.
    rewrite Hk. simpl. rewrite Hs, Hids. destruct ids as [|a ids]; [done|].
    by rewrite sessionQuestions_delete. }
  split; [by rewrite Hdel|]. split; [|split; [exact Hresp|]].
  - unfold st'. by rewrite Hdel.
  - intros Hall. rewrite Hresp. do 2 f_equal.
    apply elem_of_nil_inv. intros sq Hin.
    apply list_elem_of_filter in Hin as [Hneq Hin]. unfold sessionQuestions in Hin.
    apply list_elem_of_fmap in Hin as (q & -> & Hin).
    apply list_elem_of_filter in Hin as [Hid Hin].
    apply Hneq. simpl. by apply Hall.
Qed.

Lemma deleted_question_leaves_running_sessions_witness :
  isAuthenticated adminStore (Some "admin-1") = Some demoAdmin ∧
  User.role demoAdmin = "admin" ∧
  uuid_in (Postgres := postgresql) q1Id = Some q1Id ∧
  examSessions adminStore !! demoSessionId = Some demoSession ∧
  getExamSessionQuestions (pg := postgresql)
    (deleteQuestions (pg := postgresql) adminStore (Some "admin-1") q1Id).1
    demoSessionId =
    json (JsonQuestions [toSessionQuestion q2]).
Proof.
  do 4 (split; [reflexivity|]).
  apply (deleted_question_leaves_running_sessions (pg := postgresql) adminStore
           (Some "admin-1") demoAdmin demoSessionId demoSessionId q1Id q1Id
           demoSession [q1Id; q2Id]); try reflexivity; discriminate.
Defined.

(** ** Deleting a hall ticket *)

Lemma relatedSessions_elem (st : Store) (key : string) (s : ExamSession.t) :
  s ∈ DatabaseStorage.relatedSessions st key ↔
  (∃ k, examSessions st !! k = Some s) ∧ ExamSession.hallTicketId s = key.
Proof.
  unfold DatabaseStorage.relatedSessions.
  rewrite list_elem_of_filter, list_elem_of_fmap. split.
  - intros [Hk ([k s'] & -> & Hin)]. apply elem_of_map_to_list in Hin. eauto.
  - intros [[k Hs] Hk]. split; [done|]. exists (k, s). split; [done|].
    by apply elem_of_map_to_list.
Qed.

Lemma related_keys (st : Store) (key sid : string) :
  sessionsKeyedById st →
  sid ∉ ExamSession.id <$> DatabaseStorage.relatedSessions st key ↔
  ∀ s, examSessions st !! sid = Some s → ExamSession.hallTicketId s ≠ key.
Proof.
  intros Hkeyed. rewrite list_elem_of_fmap. split.
  - intros Hnot s Hs Hk. apply Hnot. exists s. split.
    + symmetry. by apply Hkeyed.
    + apply relatedSessions_elem. eauto.
  - intros Hall (s & -> & Hin). apply relatedSessions_elem in Hin as [[k Hs] Hk].
    pose proof (Hkeyed k s Hs) as <-. by apply (Hall s).
Qed.

Lemma deleteHallTickets_admin `{pg : !Postgres} (db : Database) (token : option string)
    (admin : User.t) (id key : string) :
  isAuthenticated (tables db) token = Some admin →
  User.role admin = "admin" →
  uuid_in id = Some key →
  deleteHallTickets db token id =
    (let st := tables db in
     let related := ExamSession.id <$> DatabaseStorage.relatedSessions st key in
     mkDatabase
       (mkStore (users st) (delete key (hallTickets st))
          (filter (λ kv, ExamSession.hallTicketId kv.2 ≠ key) (examSessions st))
          (filter (λ i, SecurityIncident.sessionId i ∉ related) (securityIncidents st))
          (questions st))
       (filter (λ l, MonitoringLog.sessionId l ∉ related) (monitoringLogs db))
       (delete key (qrCodeData db)),
     json (JsonSuccess true)).
Proof.
  intros Hauth Hrole Hk.
  unfold deleteHallTickets, notAdmin, storage.deleteHallTicket, asUuid.
  rewrite Hauth, Hrole, Hk. reflexivity.
Qed.

(** X3.  When an admin (a caller whose token names a stored user of role
    ["admin"]) deletes a hall ticket by a text the database reads as the
    uuid [key], and the sessions are stored under their ids, the request is
    answered 200, the ticket and all its sessions are gone, the sessions of
    other tickets are kept, exactly the incidents of the deleted sessions
    are removed, and the tables stay consistent: if every incident and log
    entry belonged to a stored session and every session to a stored
    ticket before, they still do afterwards. *)
Theorem deleting_hall_ticket_cascades `{pg : !Postgres}
    (db : Database) (token : option string) (admin : User.t) (id key : string) :
  isAuthenticated (tables db) token = Some admin →
  User.role admin = "admin" →
  uuid_in id = Some key →
  sessionsKeyedById (tables db) →
  let db' := (deleteHallTickets db token id).1 in
  (deleteHallTickets db token id).2 = json (JsonSuccess true) ∧
  hallTickets (tables db') !! key = None ∧
  (∀ k s, examSessions (tables db') !! k = Some s ↔
          examSessions (tables db) !! k = Some s ∧ ExamSession.hallTicketId s ≠ key) ∧
  (∀ i, i ∈ securityIncidents (tables db') ↔
        i ∈ securityIncidents (tables db) ∧
        ∀ s, examSessions (tables db) !! SecurityIncident.sessionId i = Some s →
             ExamSession.hallTicketId s ≠ key) ∧
  (incidentsHaveSessions (tables db) → incidentsHaveSessions (tables db')) ∧
  (logsHaveSessions db → logsHaveSessions db') ∧
  (sessionsHaveTickets (tables db) → sessionsHaveTickets (tables db')).
Proof.
  intros Hauth Hrole Hk Hkeyed db'. unfold db'.
  rewrite (deleteHallTickets_admin db token admin id key Hauth Hrole Hk). simpl.
  assert (∀ k s, filter (λ kv, ExamSession.hallTicketId kv.2 ≠ key)
                        (examSessions (tables db)) !! k = Some s ↔
                 examSessions (tables db) !! k = Some s ∧
                 ExamSession.hallTicketId s ≠ key) as Hsess.
  { intros k s. by rewrite map_lookup_filter_Some. }
  pose proof (related_keys (tables db) key) as Hrel.
  split; [done|]. split; [apply lookup_delete_eq|]. split; [exact Hsess|]. split.
  { intros i. rewrite list_elem_of_filter, Hrel by done. tauto. }
  split; [|split].
  - intros Hinv i Hi. apply list_elem_of_filter in Hi as [Hkeep Hi].
    destruct (Hinv i Hi) as [s Hs]. exists s. apply Hsess. split; [done|].
    by apply (proj1 (Hrel _ Hkeyed) Hkeep).
  - intros Hinv l Hl. simpl in *. apply list_elem_of_filter in Hl as [Hkeep Hl].
    destruct (Hinv l Hl) as [s Hs]. exists s. apply Hsess. split; [done|].
    by apply (proj1 (Hrel _ Hkeyed) Hkeep).
  - intros Hinv k s Hs. apply Hsess in Hs as [Hs Hne].
    destruct (Hinv k s Hs) as [t Ht]. exists t. simpl.
    rewrite lookup_delete_ne; [done|]. congruence.
Qed.

Lemma deleting_hall_ticket_cascades_witness :
  isAuthenticated (tables demoDatabase) (Some "admin-1") = Some demoAdmin ∧
  User.role demoAdmin = "admin" ∧
  uuid_in (Postgres := postgresql) demoTicketId = Some demoTicketId ∧
  hallTickets
    (tables (deleteHallTickets (pg := postgresql) demoDatabase (Some "admin-1")
               demoTicketId).1) !! demoTicketId = None.
Proof.
  do 3 (split; [reflexivity|]).
  apply (deleting_hall_ticket_cascades (pg := postgresql) demoDatabase (Some "admin-1")
           demoAdmin demoTicketId demoTicketId); try reflexivity.
  intros k s Hs. simpl in Hs.
  apply lookup_insert_Some in Hs as [[<- <-]|[_ Hs]]; [reflexivity|].
  apply lookup_singleton_Some in Hs as [<- <-]. reflexivity.
Defined.

(** ** Resolving an incident *)

(** X4.  When an admin (a caller whose token names a stored user of role
    ["admin"]) sends the body of the incident page, [isResolved: true] and no
    other column but a [resolvedBy] that, where it names a user, names a
    stored one, for a text the database reads as the uuid [key]: if no
    incident has the id [key], the answer is 200 with no incident and
    nothing changes;
    otherwise the answer is 200 with the incident resolved and stamped with
    the server's clock, whether or not it was resolved before, [resolvedBy]
    as the request names it (as it was when the key is missing), and its
    other columns as before; that row replaces the rows of id [key],
    and every other incident, user, session, hall ticket and question is
    untouched. *)
Theorem resolving_stamps_server_time `{pg : !Postgres}
    (env : Env) (st : Store) (token : option string) (admin : User.t)
    (id key : string) (resolvedBy : Field string) :
  isAuthenticated st token = Some admin →
  User.role admin = "admin" →
  uuid_in id = Some key →
  (∀ u, resolvedBy = value u → is_Some (users st !! u)) →
  let body :=
    IncidentPatch.mk absent absent absent absent absent absent absent (value true)
                     resolvedBy absent absent in
  let r := patchSecurityIncidents env st token id body in
  match head (filter (λ i, SecurityIncident.id i = key) (securityIncidents st)) with
  | None => r = (st, json (JsonUpdatedIncident None))
  | Some old =>
      let incident :=
        SecurityIncident.mk (SecurityIncident.id old) (SecurityIncident.sessionId old)
          (SecurityIncident.incidentType old) (SecurityIncident.severity old)
          (SecurityIncident.description old) (SecurityIncident.metadata old)
          (SecurityIncident.snapshotUrl old) (Some true)
          (updated (SecurityIncident.resolvedBy old) resolvedBy)
          (Some (now env)) (SecurityIncident.createdAt old) in
      r.2 = json (JsonUpdatedIncident (Some incident)) ∧
      securityIncidents r.1 =
        (λ i, if bool_decide (SecurityIncident.id i = key) then incident else i)
          <$> securityIncidents st ∧
      users r.1 = users st ∧ examSessions r.1 = examSessions st ∧
      hallTickets r.1 = hallTickets st ∧ questions r.1 = questions st
  end.
Proof.
  intros Hauth Hrole Hk Hby body r. unfold r, body.
  unfold patchSecurityIncidents, notAdmin. rewrite Hauth, Hrole. simpl.
  assert (uuidOk : asUuid id = fulfilled key) by (unfold asUuid; by rewrite Hk).
  destruct (head (filter (λ i, SecurityIncident.id i = key) (securityIncidents st)))
    as [old|] eqn:Hold.
  2:{ destruct resolvedBy; unfold storage.updateSecurityIncident, stampResolution;
        simpl; rewrite uuidOk; simpl; by rewrite Hold. }
  assert (SecurityIncident.id old = key) as Hid.
  { apply head_Some_elem_of in Hold. by apply list_elem_of_filter in Hold as [? _]. }
  assert (Forall (λ i, SecurityIncident.id i ≠ SecurityIncident.id old)
                 (filter (λ i, SecurityIncident.id i ≠ key) (securityIncidents st)))
    as Hothers.
  { apply Forall_forall. intros i Hi. apply list_elem_of_filter in Hi as [Hne _].
    by rewrite Hid. }
  destruct resolvedBy as [| |u]; unfold storage.updateSecurityIncident, stampResolution;
    simpl; rewrite uuidOk; simpl; rewrite Hold; simpl;
    rewrite (bool_decide_eq_true_2 (Forall _ _)) by done;
    rewrite (bool_decide_eq_true_2 (SecurityIncident.sessionId old = _)) by done; simpl.
  - by rewrite bool_decide_eq_true_2.
  - by rewrite orb_true_r.
  - rewrite (bool_decide_eq_true_2 (is_Some _)) by (by apply Hby).
    by rewrite orb_true_r.
Qed.

Lemma resolving_stamps_server_time_witness :
  isAuthenticated adminStore (Some "admin-1") = Some demoAdmin ∧
  User.role demoAdmin = "admin" ∧
  uuid_in (Postgres := postgresql) demoIncidentId = Some demoIncidentId ∧
  securityIncidents
    (patchSecurityIncidents (pg := postgresql)
       (mkEnv 7000 "1c1de000-0000-4000-8000-000000000009") adminStore
       (Some "admin-1") demoIncidentId
       (IncidentPatch.mk absent absent absent absent absent absent absent (value true)
                         (value "admin-1") absent absent)).1 =
    [SecurityIncident.mk demoIncidentId demoSessionId "tab_switch" "medium"
       "Tab switched or window minimized" None None (Some true) (Some "admin-1")
       (Some 7000) (Some 1000)].
Proof.
  do 3 (split; [reflexivity|]).
  pose proof (resolving_stamps_server_time (pg := postgresql)
                (mkEnv 7000 "1c1de000-0000-4000-8000-000000000009") adminStore
                (Some "admin-1") demoAdmin demoIncidentId demoIncidentId
                (value "admin-1")) as H.
  simpl in H. apply H; try reflexivity.
  intros u Hu. injection Hu as <-. eexists. reflexivity.
Defined.

(** ** Who may call the admin routes *)

(** X5.  The three admin routes (delete a question, delete a hall ticket,
    update an incident) refuse a caller who is not an admin, and nothing is
    deleted or updated: the answer is 401 when the request carries no token
    or the token names no stored user, and 403 when the token names a
    stored user whose role is not ["admin"]. *)
Theorem admin_routes_refuse_other_callers `{pg : !Postgres}
    (env : Env) (db : Database) (token : option string) (id : string)
    (body : IncidentPatch.t) :
  (∀ user, isAuthenticated (tables db) token = Some user → User.role user ≠ "admin") →
  let r1 := deleteQuestions (tables db) token id in
  let r2 := deleteHallTickets db token id in
  let r3 := patchSecurityIncidents env (tables db) token id body in
  (r1.1 = tables db ∧ r2.1 = db ∧ r3.1 = tables db) ∧
  (code r1.2 = code r2.2 ∧ code r2.2 = code r3.2) ∧
  code r1.2 = (if isAuthenticated (tables db) token is Some _ then 403 else 401).
Proof.
  intros Hrole. unfold deleteQuestions, deleteHallTickets, patchSecurityIncidents, notAdmin.
  destruct (isAuthenticated (tables db) token) as [user|]; [|done].
  by rewrite (bool_decide_eq_false_2 _ (Hrole user eq_refl)).
Qed.

Lemma admin_routes_refuse_other_callers_witness :
  isAuthenticated (tables demoDatabase) (Some "student_R42") = Some demoStudent ∧
  isAuthenticated (tables demoDatabase) (Some "nobody") = None ∧
  (deleteHallTickets (pg := postgresql) demoDatabase (Some "student_R42") demoTicketId).1
    = demoDatabase ∧
  code (deleteQuestions (pg := postgresql) (tables demoDatabase) (Some "student_R42")
          q1Id).2 = 403 ∧
  code (deleteQuestions (pg := postgresql) (tables demoDatabase) (Some "nobody")
          q1Id).2 = 401.
Proof.
  split; [reflexivity|]. split; [reflexivity|].
  pose proof (admin_routes_refuse_other_callers (pg := postgresql)
                (mkEnv 7000 "1c1de000-0000-4000-8000-000000000009") demoDatabase
                (Some "student_R42") demoTicketId
                (IncidentPatch.mk absent absent absent absent absent absent absent
                                  (value true) absent absent absent)) as H.
  destruct H as ((_ & H2 & _) & _ & _).
  { intros user Hu. injection Hu as <-. discriminate. }
  split; [exact H2|]. split; reflexivity.
Defined.

(** ** Creating a session *)

(** What the schema makes of a body does not depend on the clock, but for
    the [startTime] it takes when the body has none. *)
Lemma parseExamSession_again `{zod : !Zod} env env' body studentId data :
  parseExamSession env body studentId = fulfilled data →
  ∃ data', parseExamSession env' body studentId = fulfilled data' ∧
           InsertExamSession.hallTicketId data' = InsertExamSession.hallTicketId data.
Proof.
  unfold parseExamSession, integerField. intros Hparse.
  repeat (case_match; simpl in Hparse; try done); injection Hparse as <-;
    simpl; eexists; (split; [reflexivity|reflexivity]).
Qed.

Lemma parseExamSession_studentId `{zod : !Zod} env body studentId data :
  parseExamSession env body studentId = fulfilled data →
  InsertExamSession.studentId data = studentId.
Proof.
  unfold parseExamSession, integerField. intros Hparse.
  repeat (case_match; simpl in Hparse; try done); by injection Hparse as <-.
Qed.

(** The two ways in which the handler answers with a session. *)
Lemma createSessionFor_cases `{pg : !Postgres} `{zod : !Zod} rnd env st body hallTicket
    st' response :
  createSessionFor rnd env st body hallTicket = fulfilled (st', response) →
  ∃ data key,
    parseExamSession env body (studentIdOf hallTicket) = fulfilled data ∧
    uuid_in (InsertExamSession.hallTicketId data) = Some key ∧
    ((∃ existing,
        storage.getExamSessionByStudent st (studentIdOf hallTicket)
          (InsertExamSession.hallTicketId data) = fulfilled (Some existing) ∧
        st' = st ∧ response = json (JsonSession existing)) ∨
     (storage.getExamSessionByStudent st (studentIdOf hallTicket)
        (InsertExamSession.hallTicketId data) = fulfilled None ∧
      ((st' = st ∧ response = noQuestionsInSystem) ∨
       ∃ questionIds,
         let row := storage.newExamSession env key (withQuestionIds data questionIds) in
         examSessions st !! uuid env = None ∧
         st' = set_examSessions (insert (uuid env) row) st ∧
         response = json (JsonSession row)))).
Proof.
  unfold createSessionFor. intros Hcreate.
  destruct (parseExamSession env body (studentIdOf hallTicket)) as [data|] eqn:Hparse;
    [|done].
  simpl in Hcreate.
  destruct (uuid_in (InsertExamSession.hallTicketId data)) as [key|] eqn:Hkey.
  2:{ unfold storage.getExamSessionByStudent, asUuid in Hcreate.
      by rewrite Hkey in Hcreate. }
  exists data, key. split; [done|]. split; [done|].
  destruct (storage.getExamSessionByStudent st (studentIdOf hallTicket)
              (InsertExamSession.hallTicketId data)) as [[existing|]|] eqn:Hex;
    simpl in Hcreate; [| |done].
  - left. exists existing. by injection Hcreate as <- <-.
  - right. split; [done|].
    destruct (chooseQuestions rnd st hallTicket) as [[examQuestions|]|]; simpl in Hcreate;
      [| |done].
    + right. exists (Question.id <$> examQuestions).
      unfold storage.createExamSession, asUuid in Hcreate. simpl in Hcreate.
      rewrite Hkey in Hcreate. simpl in Hcreate.
      repeat (case_match; simpl in Hcreate; try done).
      injection Hcreate as <- <-.
      repeat match goal with
             | H : _ && _ = true |- _ => apply andb_prop in H as [? ?]
             end.
      split; [by eapply bool_decide_eq_true_1|done].
    + left. by injection Hcreate as <- <-.
Qed.

(** X7.  Session creation is idempotent: once a request has been answered
    with a session, repeating the request (at any later time, with any
    random choices and with any fresh uuid at hand) is answered with the
    same session and changes nothing. *)
Theorem session_creation_is_idempotent `{pg : !Postgres} `{zod : !Zod}
    (rnd rnd' : Random) (env env' : Env) (st st' : Store)
    (body : CreateSessionBody.t) (row : ExamSession.t) :
  postExamSessions rnd env st body = (st', json (JsonSession row)) →
  postExamSessions rnd' env' st' body = (st', json (JsonSession row)).
Proof.
  intros Hfirst. unfold postExamSessions, storage.getHallTicketById, asUuid in Hfirst.
  destruct (uuid_in (CreateSessionBody.hallTicketId body)) as [key|] eqn:Hkey; [|done].
  simpl in Hfirst.
  destruct (hallTickets st !! key) as [ticket|] eqn:Ht; [|done].
  destruct (HallTicket.isActive ticket) eqn:Hact; [|done]. simpl in Hfirst.
  set (sid := studentIdOf ticket) in *.
  assert (∀ st1 data existing,
            hallTickets st1 !! key = Some ticket → is_Some (users st1 !! sid) →
            parseExamSession env body sid = fulfilled data →
            storage.getExamSessionByStudent st1 sid (InsertExamSession.hallTicketId data)
              = fulfilled (Some existing) →
            postExamSessions rnd' env' st1 body = (st1, json (JsonSession existing)))
    as Hagain.
  { intros st1 data existing Htk [u Hu] Hparse Hex.
    unfold postExamSessions, storage.getHallTicketById, asUuid. rewrite Hkey. simpl.
    rewrite Htk, Hact. simpl. unfold storage.getUser. fold sid. rewrite Hu.
    unfold createSessionFor. fold sid.
    destruct (parseExamSession_again env env' body sid data Hparse) as (data' & -> & Hid).
    simpl. by rewrite Hid, Hex. }
  assert (∀ st1, hallTickets st1 !! key = Some ticket → is_Some (users st1 !! sid) →
            match createSessionFor rnd env st1 body ticket with
            | fulfilled r => r
            | rejected => (st1, failedToCreateExamSession)
            end = (st', json (JsonSession row)) →
            postExamSessions rnd' env' st' body = (st', json (JsonSession row)))
    as Hmain.
  { intros st1 Htk Hu Hcreate.
    destruct (createSessionFor rnd env st1 body ticket) as [[st2 response]|] eqn:Hfor;
      [|done].
    injection Hcreate as -> ->.
    apply createSessionFor_cases in Hfor
      as (data & key' & Hparse & Hkey' & [(existing & Hex & -> & Hresp)
                                         |(Hnone & [[-> Hresp]|(ids & Hfresh & -> & Hresp)])]).
    - injection Hresp as ->. by apply (Hagain st1 data).
    - done.
    - injection Hresp as ->. fold sid in Hparse, Hnone.
      apply (Hagain _ data); [done|done|done|].
      unfold storage.getExamSessionByStudent, asUuid in *. rewrite Hkey' in *.
      simpl in *. f_equal. apply scan_insert_unique.
      + injection Hnone as Hnone. by apply (proj1 (scan_None _ _) Hnone).
      + split; [|done]. simpl. by apply (parseExamSession_studentId env body). }
  unfold storage.getUser in Hfirst. fold sid in Hfirst.
  destruct (users st !! sid) as [u|] eqn:Hu.
  - apply (Hmain st); [done|by eauto|done].
  - unfold storage.upsertUser in Hfirst.
    destruct (storage.emailTaken st (studentUserOf ticket)); [done|].
    eapply (Hmain _); [| |exact Hfirst]; [done|].
    simpl. eexists. apply lookup_insert_eq.
Qed.

Lemma session_creation_is_idempotent_witness :
  let r := postExamSessions (pg := postgresql) (zod := schemas) firstQuestions
             (mkEnv 0 demoSessionId) beforeStart startExam in
  ∃ row,
    r = (r.1, json (JsonSession row)) ∧
    ExamSession.questionIds row = Some [q1Id; q2Id] ∧
    postExamSessions (pg := postgresql) (zod := schemas) firstQuestions
      (mkEnv 9000 otherSessionId) r.1 startExam = (r.1, json (JsonSession row)).
Proof.
  eexists. split; [reflexivity|]. split; [reflexivity|].
  apply (session_creation_is_idempotent (pg := postgresql) (zod := schemas)
           firstQuestions firstQuestions (mkEnv 0 demoSessionId)
           (mkEnv 9000 otherSessionId) beforeStart).
  reflexivity.
Defined.



(** X9.  Whatever its outcome, a session-creation request leaves the hall
    tickets, the incidents and the question bank alone; of the users it can
    only add the record of the ticket's own student, and then only for an
    active ticket and a student that had none; of the sessions it can only
    add the row of the session it answers with, under the fresh uuid; and a
    request against a missing or inactive ticket changes nothing at all. *)
Theorem session_creation_touches_little `{pg : !Postgres} `{zod : !Zod}
    (rnd : Random) (env : Env) (st : Store) (body : CreateSessionBody.t) :
  let st' := (postExamSessions rnd env st body).1 in
  hallTickets st' = hallTickets st ∧
  securityIncidents st' = securityIncidents st ∧
  questions st' = questions st ∧
  (users st' = users st ∨
   ∃ key hallTicket,
     uuid_in (CreateSessionBody.hallTicketId body) = Some key ∧
     hallTickets st !! key = Some hallTicket ∧
     HallTicket.isActive hallTicket = true ∧
     users st !! studentIdOf hallTicket = None ∧
     users st' = <[studentIdOf hallTicket :=
                     storage.newUser env (studentUserOf hallTicket)]> (users st)) ∧
  (examSessions st' = examSessions st ∨
   ∃ row,
     (postExamSessions rnd env st body).2 = json (JsonSession row) ∧
     examSessions st !! uuid env = None ∧
     examSessions st' = <[uuid env := row]> (examSessions st)) ∧
  ((∀ key hallTicket,
      uuid_in (CreateSessionBody.hallTicketId body) = Some key →
      hallTickets st !! key = Some hallTicket →
      HallTicket.isActive hallTicket = false) →
   st' = st).
Proof.
  unfold postExamSessions, storage.getHallTicketById, asUuid.
  destruct (uuid_in (CreateSessionBody.hallTicketId body)) as [key|] eqn:Hkey;
    [|by auto 10].
  simpl.
  destruct (hallTickets st !! key) as [ticket|] eqn:Ht; [|by auto 10].
  destruct (HallTicket.isActive ticket) eqn:Hact; simpl; [|by auto 10].
  assert (∀ st1, hallTickets st1 = hallTickets st →
            securityIncidents st1 = securityIncidents st →
            questions st1 = questions st → examSessions st1 = examSessions st →
            ∀ r : Store * Response,
              r = match createSessionFor rnd env st1 body ticket with
                  | fulfilled r => r
                  | rejected => (st1, failedToCreateExamSession)
                  end →
              hallTickets r.1 = hallTickets st ∧
              securityIncidents r.1 = securityIncidents st ∧
              questions r.1 = questions st ∧
              users r.1 = users st1 ∧
              (examSessions r.1 = examSessions st ∨
               ∃ row, r.2 = json (JsonSession row) ∧
                      examSessions st !! uuid env = None ∧
                      examSessions r.1 = <[uuid env := row]> (examSessions st)))
    as Hrest.
  { intros st1 Htk Hinc Hqs Hss r ->.
    destruct (createSessionFor rnd env st1 body ticket) as [[st2 response]|] eqn:Hfor;
      [|simpl; by auto 10].
    apply createSessionFor_cases in Hfor
      as (data & key' & Hparse & Hkey' & [(existing & Hex & -> & Hresp)
                                         |(Hnone & [[-> Hresp]|(ids & Hfresh & -> & Hresp)])]);
      simpl; [by auto 10..|].
    repeat split; try done. right. eexists. rewrite <- Hss. by split. }
  unfold storage.getUser.
  destruct (users st !! studentIdOf ticket) as [u|] eqn:Hu.
  - edestruct (Hrest st) as (H1 & H2 & H3 & H4 & H5); [done..|].
    split; [exact H1|]. split; [exact H2|]. split; [exact H3|].
    split; [by left|]. split; [exact H5|].
    intros Hin. by rewrite (Hin key ticket) in Hact.
  - unfold storage.upsertUser.
    destruct (storage.emailTaken st (studentUserOf ticket)).
    + simpl. repeat split; by left.
    + change (UpsertUser.id (studentUserOf ticket)) with (studentIdOf ticket).
      rewrite Hu.
      edestruct (Hrest (set_users (insert (studentIdOf ticket)
                                     (storage.newUser env (studentUserOf ticket))) st))
        as (H1 & H2 & H3 & H4 & H5); [done..|].
      split; [exact H1|]. split; [exact H2|]. split; [exact H3|].
      split; [right; exists key, ticket; repeat split; [done..|exact H4]|].
      split; [exact H5|].
      intros Hin. by rewrite (Hin key ticket) in Hact.
Qed.

(** ** Reporting an incident *)

(** X10.  The incident endpoint answers 200 exactly when the token of the
    request names a stored user, the body passes the insert schema, the
    database reads its [sessionId] as the uuid of a stored session, its
    [resolvedBy], if it has one, names a stored user, and the fresh uuid is
    not the id of a stored incident; then it appends one incident stamped
    with the clock, resolved or not as the body says and unresolved when
    the body does not say, answers with it and broadcasts it once.  In
    every other case (401 or 500) nothing is stored and nothing is
    broadcast. *)
Theorem incident_endpoint_stores_or_refuses `{pg : !Postgres} `{zod : !Zod}
    (env : Env) (st : Store) (token : option string) (body : IncidentRequest.t) :
  let r := postSecurityIncidents env st token body in
  (code r.1.2 = 200 ↔
   is_Some (isAuthenticated st token) ∧
   ∃ data sessionId,
     parseIncident body = fulfilled data ∧
     uuid_in (InsertSecurityIncident.sessionId data) = Some sessionId ∧
     is_Some (examSessions st !! sessionId) ∧
     storage.userOrNull st (inserted None (InsertSecurityIncident.resolvedBy data)) = true ∧
     Forall (λ i, SecurityIncident.id i ≠ uuid env) (securityIncidents st)) ∧
  (code r.1.2 ≠ 200 →
   r.1.1 = st ∧ r.2 = [] ∧ (code r.1.2 = 401 ∨ code r.1.2 = 500)) ∧
  (code r.1.2 = 200 →
   ∃ row,
     r.1.1 = set_securityIncidents (λ l, (l ++ [row])%list) st ∧
     r.1.2 = json (JsonIncident row) ∧
     r.2 = [security_incident row None None None] ∧
     SecurityIncident.id row = uuid env ∧
     SecurityIncident.createdAt row = Some (now env) ∧
     SecurityIncident.isResolved row =
       inserted (Some false) (IncidentRequest.isResolved body) ∧
     (∃ text, IncidentRequest.sessionId body = Some text ∧
              uuid_in text = Some (SecurityIncident.sessionId row)) ∧
     Some (SecurityIncident.incidentType row) = IncidentRequest.incidentType body ∧
     Some (SecurityIncident.severity row) = IncidentRequest.severity body ∧
     Some (SecurityIncident.description row) = IncidentRequest.description body).
Proof.
  unfold postSecurityIncidents.
  destruct (isAuthenticated st token) as [user|]; simpl.
  2:{ split; [|split; [by auto|done]]. split; [done|]. by intros [[? ?] _]. }
  destruct (parseIncident body) as [data|] eqn:Hp; simpl.
  2:{ split; [|split; [by auto|done]]. split; [done|]. by intros [_ (? & ? & ? & _)]. }
  unfold storage.createSecurityIncident, asUuid.
  destruct (uuid_in (InsertSecurityIncident.sessionId data)) as [sessionId|] eqn:Hid;
    simpl.
  2:{ split; [|split; [by auto|done]]. split; [done|].
      intros [_ (d & s & [= <-] & Hs & _)]. congruence. }
  destruct (bool_decide (is_Some (examSessions st !! sessionId))) eqn:Hs; simpl.
  2:{ split; [|split; [by auto|done]]. split; [done|].
      intros [_ (d & s & [= <-] & Hs' & Hex & _)].
      apply bool_decide_eq_false in Hs. congruence. }
  destruct (storage.userOrNull st _) eqn:Hu; simpl.
  2:{ split; [|split; [by auto|done]]. split; [done|].
      intros [_ (d & s & [= <-] & _ & _ & Hu' & _)]. congruence. }
  destruct (bool_decide (Forall _ _)) eqn:Hfresh; simpl.
  2:{ split; [|split; [by auto|done]]. split; [done|].
      intros [_ (d & s & [= <-] & _ & _ & _ & Hf)].
      apply bool_decide_eq_false in Hfresh. done. }
  apply bool_decide_eq_true in Hs, Hfresh.
  split; [|split; [done|]].
  - split; [|done]. intros _. split; [by eauto|]. by exists data, sessionId.
  - intros _. eexists. split; [reflexivity|]. split; [reflexivity|].
    split; [reflexivity|]. simpl.
    unfold parseIncident in Hp.
    destruct (IncidentRequest.sessionId body) as [text|], (IncidentRequest.incidentType body),
      (IncidentRequest.severity body), (IncidentRequest.description body);
      simpl in Hp; try done.
    destruct (zodUuid text); [|done].
    destruct (IncidentRequest.resolvedAt body); simpl in Hp; try done;
      injection Hp as <-; simpl in *; repeat split; by eauto.
Qed.

(** ** Messages on the WebSocket *)

(** The two outcomes of a violation message. *)
Lemma onViolation_cases `{pg : !Postgres} env ws st d :
  onViolation env ws st d = (st, []) ∨
  ∃ text sessionId incidentType severity description,
    ViolationData.sessionId d = Some text ∧
    ViolationData.incidentType d = Some incidentType ∧
    ViolationData.severity d = Some severity ∧
    ViolationData.description d = Some description ∧
    ws_type ws = Some "student" ∧
    uuid_in text = Some sessionId ∧
    is_Some (examSessions st !! sessionId) ∧
    let row :=
      SecurityIncident.mk (uuid env) sessionId incidentType severity description
        (Some (default [] (ViolationData.metadata d))) None (Some false) None None
        (Some (now env)) in
    onViolation env ws st d =
      (set_securityIncidents (λ l, (l ++ [row])%list) st,
       [security_incident row (ViolationData.studentName d)
          (ViolationData.rollNumber d) (Some incidentType)]).
Proof.
  unfold onViolation.
  destruct (negb (truthy _ && _ && _ && _)); [by left|].
  destruct (bool_decide (ws_type ws = Some "student")) eqn:Hstudent; simpl; [|by left].
  apply bool_decide_eq_true in Hstudent.
  destruct (ViolationData.sessionId d) as [text|] eqn:Htext; [|by left].
  destruct (ViolationData.incidentType d) as [ty|] eqn:Hty; [|by left].
  destruct (ViolationData.severity d) as [sev|] eqn:Hsev; [|by left].
  destruct (ViolationData.description d) as [desc|] eqn:Hdesc; [|by left].
  unfold reportViolation, storage.getExamSession, asUuid.
  destruct (uuid_in text) as [sid|] eqn:Hid; simpl; [|by left].
  destruct (examSessions st !! sid) as [s|] eqn:Hs; simpl; [|by left].
  destruct (recentSameType env st text ty) as [recent|]; simpl; [|by left].
  destruct (3 <=? _); simpl; [by left|].
  unfold storage.createSecurityIncident, asUuid. simpl. rewrite Hid. simpl.
  destruct (_ && _); simpl; [|by left].
  right. exists text, sid, ty, sev, desc. by eauto 10.
Qed.

(** X11.  What a WebSocket message can write.  The tables of the store
    change only when the message is a violation report sent on a connection
    that has declared itself a student, for a text the database reads as
    the uuid of a stored session: then exactly one unresolved incident,
    stamped with the clock and carrying the type and severity the client
    sent, is appended and broadcast once.  The monitoring log changes only
    for a [face_detection_update] or a [video_snapshot] that names a
    session: then one entry of that kind, stamped with the clock, is
    appended.  An [auth] message is the only one that changes what the
    connection has declared. *)
Theorem socket_stores_only_student_violations `{pg : !Postgres}
    (env : Env) (ws : WebSocketClient) (db : Database) (m : ClientMessage) :
  let r := onMessage env ws db m in
  (tables r.1.2 = tables db ∧ (∀ i a b c, security_incident i a b c ∉ r.2) ∨
   ∃ type d text row,
     m = violation type d ∧
     ws_type ws = Some "student" ∧
     ViolationData.sessionId d = Some text ∧
     uuid_in text = Some (SecurityIncident.sessionId row) ∧
     is_Some (examSessions (tables db) !! SecurityIncident.sessionId row) ∧
     tables r.1.2 = set_securityIncidents (λ l, (l ++ [row])%list) (tables db) ∧
     r.2 = [security_incident row (ViolationData.studentName d)
              (ViolationData.rollNumber d) (ViolationData.incidentType d)] ∧
     Some (SecurityIncident.incidentType row) = ViolationData.incidentType d ∧
     Some (SecurityIncident.severity row) = ViolationData.severity d ∧
     SecurityIncident.createdAt row = Some (now env) ∧
     SecurityIncident.isResolved row = Some false) ∧
  (monitoringLogs r.1.2 = monitoringLogs db ∨
   ∃ log text,
     monitoringLogs r.1.2 = (monitoringLogs db ++ [log])%list ∧
     uuid_in text = Some (MonitoringLog.sessionId log) ∧
     is_Some (examSessions (tables db) !! MonitoringLog.sessionId log) ∧
     MonitoringLog.timestamp log = Some (now env) ∧
     ((∃ payload, m = face_detection_update (Some text) payload ∧
                  MonitoringLog.eventType log = "face_detected") ∨
      (∃ data, m = video_snapshot data ∧ SnapshotData.sessionId data = Some text ∧
               MonitoringLog.eventType log = "video_snapshot"))) ∧
  qrCodeData r.1.2 = qrCodeData db ∧
  (r.1.1 = ws ∨ ∃ userId userType sessionId, m = auth userId userType sessionId).
Proof.
  assert (∀ sessionId eventType eventData,
            let db' := logMonitoring env db sessionId eventType eventData in
            qrCodeData db' = qrCodeData db ∧
            (monitoringLogs db' = monitoringLogs db ∨
             ∃ log text,
               sessionId = Some text ∧
               monitoringLogs db' = (monitoringLogs db ++ [log])%list ∧
               uuid_in text = Some (MonitoringLog.sessionId log) ∧
               is_Some (examSessions (tables db) !! MonitoringLog.sessionId log) ∧
               MonitoringLog.timestamp log = Some (now env) ∧
               MonitoringLog.eventType log = eventType)) as Hlog.
  { intros sessionId eventType eventData. unfold logMonitoring.
    destruct sessionId as [text|]; [|by auto].
    destruct (bool_decide (text = "")); [by auto|].
    unfold storage.createMonitoringLog, asUuid. simpl.
    destruct (uuid_in text) as [sid|] eqn:Hid; simpl; [|by auto].
    destruct (bool_decide (is_Some _)) eqn:Hs; simpl; [|by auto].
    destruct (bool_decide (Forall _ _)); simpl; [|by auto].
    apply bool_decide_eq_true in Hs. split; [done|]. right.
    eexists _, text. by repeat split. }
  destruct m as [userId userType sessionId|payload|sessionId payload|data|type d|d|d| ];
    simpl.
  - split; [left; split; [done|intros ????; apply not_elem_of_nil]|].
    split; [by left|]. split; [done|]. right. by eauto.
  - split; [left; split; [done|]|by auto].
    intros ???? Hin. by apply list_elem_of_singleton in Hin.
  - rewrite logMonitoring_tables.
    split; [left; split; [done|intros ????; apply not_elem_of_nil]|].
    destruct (Hlog sessionId "face_detected" payload)
      as [Hqr [Hsame|(log & text & -> & Hlogs & Hid & Hs & Ht & Hty)]];
      (split; [|by auto]); [by left|].
    right. exists log, text. repeat split; try done. left. by eauto.
  - rewrite logMonitoring_tables.
    split; [left; split; [done|]|].
    { intros ???? Hin. by apply list_elem_of_singleton in Hin. }
    match goal with |- context [logMonitoring env db ?s ?e ?p] =>
      destruct (Hlog s e p)
        as [Hqr [Hsame|(log & text & Htext & Hlogs & Hid & Hs & Ht & Hty)]] end;
      (split; [|by auto]); [by left|].
    right. exists log, text. repeat split; try done. right. by eauto.
  - destruct (onViolation_cases env ws (tables db) d)
      as [E|(text & sid & ty & sev & desc & Htext & Hty & Hsev & Hdesc & Hstudent
             & Hid & Hs & E)]; rewrite E; simpl.
    + split; [left; split; [done|intros ????; apply not_elem_of_nil]|by auto].
    + split; [|by auto]. right.
      exists type, d, text,
        (SecurityIncident.mk (uuid env) sid ty sev desc
           (Some (default [] (ViolationData.metadata d))) None (Some false) None None
           (Some (now env))).
      rewrite Hty, Hsev. by repeat split.
  - split; [left; split; [done|]|by auto].
    intros ???? Hin. by apply list_elem_of_singleton in Hin.
  - destruct (negb _); simpl.
    + split; [left; split; [done|intros ????; apply not_elem_of_nil]|by auto].
    + split; [left; split; [done|]|by auto].
      intros ???? Hin. by apply list_elem_of_singleton in Hin.
  - split; [left; split; [done|intros ????; apply not_elem_of_nil]|by auto].
Qed.

(** X12.  The rate limit counts only incidents of the same session and the
    same type that are younger than 60000 ms.  For a violation report on a
    student connection whose four required fields are not empty, whose
    [sessionId] the database reads as the uuid of a stored session, and
    with a fresh uuid that is not the id of a stored incident: when every
    incident of that session and type is 60000 ms old or older (or has no
    creation time), the report is stored, however many older incidents and
    incidents of other types and sessions there are. *)
Theorem rate_limit_forgets_after_a_minute `{pg : !Postgres}
    (env : Env) (ws : WebSocketClient) (st : Store) (d : ViolationData.t)
    (text sessionId incidentType severity description : string) :
  ViolationData.sessionId d = Some text →
  ViolationData.incidentType d = Some incidentType →
  ViolationData.severity d = Some severity →
  ViolationData.description d = Some description →
  text ≠ "" → incidentType ≠ "" → severity ≠ "" → description ≠ "" →
  ws_type ws = Some "student" →
  uuid_in text = Some sessionId →
  is_Some (examSessions st !! sessionId) →
  Forall (λ i, SecurityIncident.id i ≠ uuid env) (securityIncidents st) →
  (∀ i c, i ∈ securityIncidents st →
          SecurityIncident.sessionId i = sessionId →
          SecurityIncident.incidentType i = incidentType →
          SecurityIncident.createdAt i = Some c →
          c ≤ now env - 60000) →
  securityIncidents (onViolation env ws st d).1 =
    (securityIncidents st ++
       [SecurityIncident.mk (uuid env) sessionId incidentType severity description
          (Some (default [] (ViolationData.metadata d))) None (Some false) None None
          (Some (now env))])%list.
Proof.
  intros Htext Hty Hsev Hdesc Hn1 Hn2 Hn3 Hn4 Hstudent Hid [s Hs] Hfresh Hold.
  destruct (recentSameType_fulfilled env st text sessionId incidentType Hn1 Hid)
    as (recent & Hrecent & Hperm).
  assert (recent = []) as ->.
  { apply Permutation_nil_r. rewrite Hperm.
    match goal with |- ?l ≡ₚ [] => assert (l = []) as -> end; [|done].
    apply elem_of_nil_inv. intros i Hi.
    apply list_elem_of_filter in Hi as [[[H2 H3] H1] Hi].
    unfold createdAfter in H3.
    destruct (SecurityIncident.createdAt i) as [c|] eqn:Hc; [|done].
    apply Z.ltb_lt in H3. pose proof (Hold i c Hi H1 H2 Hc). lia. }
  unfold onViolation. rewrite Htext, Hty, Hsev, Hdesc. unfold truthy.
  rewrite !bool_decide_eq_false_2 by done. simpl.
  rewrite bool_decide_eq_true_2 by done. simpl.
  unfold reportViolation, storage.getExamSession, asUuid. rewrite Hid. simpl.
  rewrite Hs. simpl. rewrite Hrecent. simpl.
  unfold storage.createSecurityIncident, asUuid. simpl. rewrite Hid. simpl.
  rewrite Hs. rewrite !bool_decide_eq_true_2 by (done || by eauto). done.
Qed.

Lemma rate_limit_forgets_after_a_minute_witness :
  ws_type studentConnection = Some "student" ∧
  uuid_in (Postgres := postgresql) demoSessionId = Some demoSessionId ∧
  securityIncidents adminStore = [demoIncident] ∧
  length (securityIncidents
            (onViolation (pg := postgresql)
               (mkEnv 61000 "1c1de000-0000-4000-8000-0000000000f2") studentConnection
               adminStore tabSwitchReport).1) = 2%nat.
Proof.
  do 3 (split; [reflexivity|]).
  rewrite (rate_limit_forgets_after_a_minute (pg := postgresql)
             (mkEnv 61000 "1c1de000-0000-4000-8000-0000000000f2") studentConnection
             adminStore tabSwitchReport demoSessionId demoSessionId "tab_switch" "medium"
             "Tab switched or window minimized");
    try reflexivity; try discriminate.
  - eexists. reflexivity.
  - repeat constructor. discriminate.
  - intros i c Hi _ _ Hc. apply list_elem_of_singleton in Hi. subst i.
    injection Hc as <-. simpl. lia.
Defined.

(** ** From the answers of the page to the stored session *)

(** X19.  Answers are last-write-wins and reach the server as they stand:
    after any run of events, paused or not, the answer held for a question
    is the last one selected for it in the run (or the earlier one when the
    run selects none), the submission posts exactly these answers, and the
    submit endpoint, when the database reads the id of the page's session
    as the uuid of a stored session, stores them with status
    ["submitted"]. *)
Theorem last_answer_wins_and_is_submitted `{pg : !Postgres}
    (env : Env) (st : Store) (s : ExamMode) (session row : ExamSession.t)
    (key : string) (evs : list (Z * Event)) :
  examSession s = Some session →
  uuid_in (ExamSession.id session) = Some key →
  examSessions st !! key = Some row →
  let s' := (run s evs).1 in
  (∀ q, answers s' !! q =
        match lastAnswer q evs with
        | Some a => Some a
        | None => answers s !! q
        end) ∧
  submitExam s' = [apiPostSubmit (ExamSession.id session) (answers s')] ∧
  ∃ row',
    examSessions (postSubmit env st (ExamSession.id session) (value (answers s'))).1
      !! key = Some row' ∧
    ExamSession.answers row' = Some (answers s') ∧
    ExamSession.status row' = "submitted".
Proof.
  intros Hs Hkey Hrow s'. split; [intros q; apply run_answers|]. split.
  - unfold submitExam, s'. by rewrite run_examSession, Hs.
  - unfold postSubmit, storage.getExamSession, storage.updateExamSession, asUuid.
    rewrite Hkey. simpl. rewrite Hrow. simpl.
    eexists. split; [apply lookup_insert_eq|done].
Qed.

Lemma last_answer_wins_and_is_submitted_witness :
  examSession demoExam = Some demoSession ∧
  uuid_in (Postgres := postgresql) (ExamSession.id demoSession) = Some demoSessionId ∧
  examSessions demoStore !! demoSessionId = Some demoSession ∧
  answers (run demoExam [(1000, answerChange 1 "A"); (2000, blur);
                         (3000, answerChange 1 "C")]).1 !! 1 = Some "C".
Proof.
  do 3 (split; [reflexivity|]).
  apply (last_answer_wins_and_is_submitted (pg := postgresql)
           (mkEnv 5000 "1c1de000-0000-4000-8000-000000000009") demoStore demoExam
           demoSession demoSession demoSessionId
           [(1000, answerChange 1 "A"); (2000, blur); (3000, answerChange 1 "C")]);
    reflexivity.
Defined.

(** ** From the exam page to the incident table *)

Lemma onViolation_accepts `{pg : !Postgres} env ws st d text sessionId incidentType
    severity description :
  ViolationData.sessionId d = Some text →
  ViolationData.incidentType d = Some incidentType →
  ViolationData.severity d = Some severity →
  ViolationData.description d = Some description →
  text ≠ "" → incidentType ≠ "" → severity ≠ "" → description ≠ "" →
  ws_type ws = Some "student" →
  uuid_in text = Some sessionId →
  is_Some (examSessions st !! sessionId) →
  Forall (λ i, SecurityIncident.id i ≠ uuid env) (securityIncidents st) →
  ∃ recent,
    recentSameType env st text incidentType = fulfilled recent ∧
    onViolation env ws st d =
      if 3 <=? Z.of_nat (length recent)
      then (st, [])
      else
        let row :=
          SecurityIncident.mk (uuid env) sessionId incidentType severity description
            (Some (default [] (ViolationData.metadata d))) None (Some false) None None
            (Some (now env)) in
        (set_securityIncidents (λ l, (l ++ [row])%list) st,
         [security_incident row (ViolationData.studentName d)
            (ViolationData.rollNumber d) (Some incidentType)]).
Proof.
  intros Htext Hty Hsev Hdesc Hn1 Hn2 Hn3 Hn4 Hstudent Hid [s Hs] Hfresh.
  destruct (recentSameType_fulfilled env st text sessionId incidentType Hn1 Hid)
    as (recent & Hrecent & _).
  exists recent. split; [done|].
  unfold onViolation. rewrite Htext, Hty, Hsev, Hdesc. unfold truthy.
  rewrite !bool_decide_eq_false_2 by done. simpl.
  rewrite bool_decide_eq_true_2 by done. simpl.
  unfold reportViolation, storage.getExamSession, asUuid. rewrite Hid. simpl.
  rewrite Hs. simpl. rewrite Hrecent. simpl.
  destruct (3 <=? _); [done|].
  unfold storage.createSecurityIncident, asUuid. simpl. rewrite Hid. simpl.
  rewrite Hs. rewrite !bool_decide_eq_true_2 by (done || by eauto). done.
Qed.

Lemma handleSecurityViolation_report t s vt desc sev session :
  examSession s = Some session →
  ∃ meta,
    violationReports (handleSecurityViolation t s vt desc sev).2 =
      [ViolationData.mk (Some (ExamSession.id session)) (user s) (studentName s)
         (rollNumber s) (Some vt) (Some sev) (Some desc) (Some meta)].
Proof.
  intros Hs. unfold handleSecurityViolation. rewrite Hs. eexists. by policy_cases.
Qed.

(** What a qualifying browser event sends: one report, for the session, of
    the kind of the event, of severity ["medium"], with a description. *)
Lemma step_report t s ev session :
  examSession s = Some session → qualifies ev = true →
  ∃ desc meta,
    desc ≠ "" ∧
    violationReports (step t s ev).2 =
      [ViolationData.mk (Some (ExamSession.id session)) (user s) (studentName s)
         (rollNumber s) (Some (violationKind ev)) (Some "medium") (Some desc)
         (Some meta)].
Proof.
  intros Hs Hq.
  destruct ev as [[]|[]| |e|e|e| | | | | | | | | |]; simpl in Hq; try done; simpl.
  - unfold handleFullscreenChange.
    destruct (handleSecurityViolation_report t (setIsFullscreen false s)
      "fullscreen_exit" "Student exited fullscreen mode" "medium" session Hs)
      as [meta H].
    destruct (handleSecurityViolation _ _ _ _ _) as [s2 out]. simpl in *.
    exists "Student exited fullscreen mode", meta. split; [done|].
    unfold violationReports in *. by rewrite omap_app, H.
  - destruct (handleSecurityViolation_report t s "tab_switch"
      "Student switched tabs or minimized window" "medium" session Hs) as [meta H].
    by exists "Student switched tabs or minimized window", meta.
  - destruct (handleSecurityViolation_report t s "window_blur"
      "Student left the exam window" "medium" session Hs) as [meta H].
    by exists "Student left the exam window", meta.
  - unfold handleKeyDown, blockEscKey. destruct (isEscape e); simpl in *.
    + destruct (handleSecurityViolation_report t s "key_violation"
        "Student attempted to use ESC key" "medium" session Hs) as [meta H].
      by exists "Student attempted to use ESC key", meta.
    + rewrite Hq.
      destruct (handleSecurityViolation_report t s "key_violation"
        ("Student attempted to use blocked key: " +:+ combo e) "medium" session Hs)
        as [meta H].
      by exists ("Student attempted to use blocked key: " +:+ combo e), meta.
  - unfold handleKeyUp, blockEscKey. rewrite Hq. simpl.
    destruct (handleSecurityViolation_report t s "key_violation"
      "Student attempted to use ESC key" "medium" session Hs) as [meta H].
    by exists "Student attempted to use ESC key", meta.
  - unfold handleKeyUp, blockEscKey. rewrite Hq. simpl.
    destruct (handleSecurityViolation_report t s "key_violation"
      "Student attempted to use ESC key" "medium" session Hs) as [meta H].
    by exists "Student attempted to use ESC key", meta.
Qed.

Lemma violationKind_not_empty ev : violationKind ev ≠ "".
Proof. by destruct ev. Qed.

(** X23.  The report the exam page sends for a qualifying browser event has
    every field the socket handler requires.  On a student connection, when
    the id of the page's session is not empty and the database reads it as
    the uuid of a stored session, and the fresh uuid is not the id of a
    stored incident, the handler appends one unresolved incident of the
    session, of the kind of the event and of severity ["medium"], stamped
    with the server's clock, unless three incidents of that session and
    kind are younger than a minute; then nothing is stored, while the page
    has counted the violation all the same. *)
Theorem browser_violation_reaches_the_incident_table `{pg : !Postgres}
    (t : Z) (s : ExamMode) (session : ExamSession.t) (ev : Event)
    (env : Env) (ws : WebSocketClient) (st : Store) (key : string) :
  examSession s = Some session →
  qualifies ev = true →
  ExamSession.id session ≠ "" →
  ws_type ws = Some "student" →
  uuid_in (ExamSession.id session) = Some key →
  is_Some (examSessions st !! key) →
  Forall (λ i, SecurityIncident.id i ≠ uuid env) (securityIncidents st) →
  violationCount (step t s ev).1 = violationCount s + 1 ∧
  ∃ d recent,
    violationReports (step t s ev).2 = [d] ∧
    recentSameType env st (ExamSession.id session) (violationKind ev)
      = fulfilled recent ∧
    if 3 <=? Z.of_nat (length recent)
    then onViolation env ws st d = (st, [])
    else
      ∃ row,
        securityIncidents (onViolation env ws st d).1 =
          (securityIncidents st ++ [row])%list ∧
        SecurityIncident.sessionId row = key ∧
        SecurityIncident.incidentType row = violationKind ev ∧
        SecurityIncident.severity row = "medium" ∧
        SecurityIncident.isResolved row = Some false ∧
        SecurityIncident.createdAt row = Some (now env).
Proof.
  intros Hs Hq Hid Hstudent Hkey Hstored Hfresh. split.
  { destruct (run_counts [(t, ev)] s session Hs) as [Hc _]. simpl in Hc.
    rewrite Hq in Hc. simpl in Hc.
    destruct (step t s ev) as [s1 out1]. simpl in *. lia. }
  destruct (step_report t s ev session Hs Hq) as (desc & meta & Hdesc & Hrep).
  destruct (onViolation_accepts env ws st
              (ViolationData.mk (Some (ExamSession.id session)) (user s) (studentName s)
                 (rollNumber s) (Some (violationKind ev)) (Some "medium") (Some desc)
                 (Some meta))
              (ExamSession.id session) key (violationKind ev) "medium" desc)
    as (recent & Hrecent & Hon); try done; [apply violationKind_not_empty|].
  eexists _, recent. split; [exact Hrep|]. split; [exact Hrecent|].
  rewrite Hon. destruct (3 <=? _); [done|]. simpl. eexists. by repeat split.
Qed.

Lemma browser_violation_reaches_the_incident_table_witness :
  examSession demoExam = Some demoSession ∧
  qualifies blur = true ∧
  ws_type studentConnection = Some "student" ∧
  uuid_in (Postgres := postgresql) (ExamSession.id demoSession) = Some demoSessionId ∧
  violationCount (step 1000 demoExam blur).1 = 1.
Proof.
  do 4 (split; [reflexivity|]).
  apply (browser_violation_reaches_the_incident_table (pg := postgresql) 1000 demoExam
           demoSession blur (mkEnv 1000 "1c1de000-0000-4000-8000-0000000000f2")
           studentConnection demoStore demoSessionId);
    try reflexivity; try discriminate.
  - eexists. reflexivity.
  - constructor.
Defined.

(** ** Starting again after a submission *)

(** X24.  A submission does not close the way back in.  Let a student with
    a user record have exactly one session for an active hall ticket, and
    let that session be submitted by a request whose id the database reads
    as the uuid of the session.  Then a creation request for the ticket
    that passes the schema is answered 200 with that very session, now
    ["submitted"] and stamped with the time of the submission, and with the
    questions and the remaining time it was created with; no session is
    created and nothing is changed. *)
Theorem submitted_session_is_handed_back `{pg : !Postgres} `{zod : !Zod}
    (rnd : Random) (env env' : Env) (st : Store) (body : CreateSessionBody.t)
    (data : InsertExamSession.t) (key : string) (hallTicket : HallTicket.t)
    (id k : string) (row : ExamSession.t) (answers : Field Answers) :
  uuid_in (CreateSessionBody.hallTicketId body) = Some key →
  hallTickets st !! key = Some hallTicket →
  HallTicket.isActive hallTicket = true →
  is_Some (users st !! studentIdOf hallTicket) →
  parseExamSession env' body (studentIdOf hallTicket) = fulfilled data →
  uuid_in id = Some k →
  examSessions st !! k = Some row →
  ExamSession.studentId row = studentIdOf hallTicket →
  ExamSession.hallTicketId row = key →
  (∀ k' r, examSessions st !! k' = Some r →
           ExamSession.studentId r = studentIdOf hallTicket →
           ExamSession.hallTicketId r = key →
           k' = k) →
  let st1 := (postSubmit env st id answers).1 in
  ∃ row',
    postExamSessions rnd env' st1 body = (st1, json (JsonSession row')) ∧
    examSessions st1 !! k = Some row' ∧
    ExamSession.status row' = "submitted" ∧
    ExamSession.endTime row' = Some (now env) ∧
    ExamSession.questionIds row' = ExamSession.questionIds row ∧
    ExamSession.timeRemaining row' = ExamSession.timeRemaining row.
Proof.
  intros Hkey Hticket Hactive [u Hu] Hparse Hk Hrow Hsid Hhid Hunique. simpl.
  pose proof (parseExamSession_hallTicketId _ _ _ _ Hparse) as Hbody.
  unfold postSubmit, storage.getExamSession, storage.updateExamSession, asUuid.
  rewrite Hk. simpl. rewrite Hrow. simpl.
  set (row' := storage.applyUpdates _ _ row).
  exists row'. split; [|by rewrite lookup_insert_eq].
  unfold postExamSessions, storage.getHallTicketById, storage.getUser, asUuid.
  rewrite Hkey. simpl. rewrite Hticket, Hactive, Hu. simpl.
  unfold createSessionFor. rewrite Hparse. simpl.
  unfold storage.getExamSessionByStudent, asUuid. rewrite <- Hbody, Hkey. simpl.
  rewrite <- insert_delete_eq.
  rewrite (scan_insert_unique _ (delete k (examSessions st)) k row'); [done| |done].
  intros k' r Hk' [H1 H2].
  apply lookup_delete_Some in Hk' as [Hne Hk'].
  apply Hne. symmetry. by apply (Hunique k' r).
Qed.

Lemma submitted_session_is_handed_back_witness :
  uuid_in (Postgres := postgresql) (CreateSessionBody.hallTicketId startExam)
    = Some demoTicketId ∧
  hallTickets demoStore !! demoTicketId = Some demoTicket ∧
  examSessions demoStore !! demoSessionId = Some demoSession ∧
  ∃ row',
    postExamSessions (pg := postgresql) (zod := schemas) firstQuestions
      (mkEnv 9000 otherSessionId) submittedStore startExam =
      (submittedStore, json (JsonSession row')) ∧
    ExamSession.status row' = "submitted".
Proof.
  do 3 (split; [reflexivity|]).
  destruct (submitted_session_is_handed_back (pg := postgresql) (zod := schemas)
              firstQuestions (mkEnv 5000 "") (mkEnv 9000 otherSessionId) demoStore
              startExam
              (InsertExamSession.mk demoTicketId "student_R42" (Some "in_progress")
                 (value 0) absent (value 1) (value ∅) absent (value 10800) absent absent)
              demoTicketId demoTicket demoSessionId demoSessionId demoSession
              (value {[ 1 := "B"; 2 := "C" ]}))
    as (row' & Hpost & _ & Hstatus & _); try reflexivity.
  { eexists. reflexivity. }
  { intros k' r Hk' _ _. change (examSessions demoStore) with
      ({[ demoSessionId := demoSession ]} : gmap string ExamSession.t) in Hk'.
    apply lookup_singleton_Some in Hk' as [<- _]. reflexivity. }
  exists row'. split; [exact Hpost|exact Hstatus].
Defined.

(** ** After the deletion of a hall ticket *)

Lemma verifyHallTicket_valid db req answer :
  verifyHallTicket db req = verifyValid answer →
  ∃ k ticket, hallTickets (tables db) !! k = Some ticket ∧
              answer = toVerifiedTicket ticket.
Proof.
  unfold verifyHallTicket. intros H.
  destruct (truthy (VerifyBody.hallTicketId req)).
  - destruct (DatabaseStorage.getHallTicketByIdAndRoll _ _ _) as [t|] eqn:Ht; [|done].
    injection H as <-. apply scan_Some in Ht as (_ & k & Hk). eauto.
  - destruct (truthy (VerifyBody.qrData req)); [|done].
    destruct (DatabaseStorage.getHallTicketByQR _ _) as [t|] eqn:Ht; [|done].
    destruct (bool_decide _); [done|]. injection H as <-.
    apply scan_Some in Ht as (_ & k & Hk). eauto.
Qed.

(** X25.  Deleting a hall ticket ends its exams at once.  When an admin (a
    caller whose token names a stored user of role ["admin"]) has deleted a
    hall ticket by a text the database reads as the uuid [key], and the
    hall tickets are stored under their ids: no verification answers with
    the ticket of id [key], a creation request whose [hallTicketId] the
    database reads as [key] is refused with 400, and a student who was
    sitting the exam cannot hand it in, since the submission of any session
    the ticket had is answered 404 and stores nothing. *)
Theorem deleted_ticket_ends_its_exams `{pg : !Postgres} `{zod : !Zod}
    (db : Database) (token : option string) (admin : User.t) (id key : string) :
  isAuthenticated (tables db) token = Some admin →
  User.role admin = "admin" →
  uuid_in id = Some key →
  (∀ k t, hallTickets (tables db) !! k = Some t → HallTicket.id t = k) →
  let db' := (deleteHallTickets db token id).1 in
  (∀ req answer, verifyHallTicket db' req = verifyValid answer →
                 VerifiedTicket.id answer ≠ key) ∧
  (∀ rnd env body,
     uuid_in (CreateSessionBody.hallTicketId body) = Some key →
     postExamSessions rnd env (tables db') body =
       (tables db', status_json 400 (JsonMessage "Invalid or inactive hall ticket" None))) ∧
  (∀ env sid k s answers,
     uuid_in sid = Some k →
     examSessions (tables db) !! k = Some s →
     ExamSession.hallTicketId s = key →
     postSubmit env (tables db') sid answers =
       (tables db', status_json 404 (JsonMessage "Exam session not found" None))).
Proof.
  intros Hauth Hrole Hkey Hkeys db'. unfold db'.
  rewrite (deleteHallTickets_admin db token admin id key Hauth Hrole Hkey). simpl.
  split; [|split].
  - intros req answer Hvalid.
    apply verifyHallTicket_valid in Hvalid as (k & t & Hk & ->). simpl in *.
    apply lookup_delete_Some in Hk as [Hne Hk].
    rewrite (Hkeys k t Hk). congruence.
  - intros rnd env body Hbody.
    unfold postExamSessions, storage.getHallTicketById, asUuid. rewrite Hbody. simpl.
    by rewrite lookup_delete_eq.
  - intros env sid k s answers Hsid Hk Hid.
    unfold postSubmit, storage.getExamSession, asUuid. rewrite Hsid. simpl.
    rewrite (proj2 (map_lookup_filter_None _ _ _)); [done|].
    right. intros s' Hs'. simpl. rewrite Hk in Hs'. injection Hs' as <-. by intros [].
Qed.

Lemma deleted_ticket_ends_its_exams_witness :
  isAuthenticated (tables demoDatabase) (Some "admin-1") = Some demoAdmin ∧
  User.role demoAdmin = "admin" ∧
  uuid_in (Postgres := postgresql) demoTicketId = Some demoTicketId ∧
  examSessions (tables demoDatabase) !! demoSessionId = Some demoSession ∧
  postSubmit (pg := postgresql) (mkEnv 5000 "")
    (tables (deleteHallTickets (pg := postgresql) demoDatabase (Some "admin-1")
               demoTicketId).1)
    demoSessionId (value {[ 1 := "B" ]}) =
    (tables (deleteHallTickets (pg := postgresql) demoDatabase (Some "admin-1")
               demoTicketId).1,
     status_json 404 (JsonMessage "Exam session not found" None)).
Proof.
  do 4 (split; [reflexivity|]).
  destruct (deleted_ticket_ends_its_exams (pg := postgresql) (zod := schemas)
              demoDatabase (Some "admin-1") demoAdmin demoTicketId demoTicketId)
    as (_ & _ & Hsubmit); [reflexivity|reflexivity|reflexivity| |].
  { intros k t Hk. change (hallTickets (tables demoDatabase)) with
      ({[ demoTicketId := demoTicket ]} : gmap string HallTicket.t) in Hk.
    apply lookup_singleton_Some in Hk as [<- <-]. reflexivity. }
  apply (Hsubmit (mkEnv 5000 "") demoSessionId demoSessionId demoSession); reflexivity.
Defined.

